(** * Rate-limited message dispatch: a shallow embedding of the
      TypeScript sources and the properties of its specification.

    The development follows the layout of the repository:
    - [JsDate]         the part of the ECMAScript [Date] object the sources use
    - [CustomerProfile], [MessageStats], ...  the interfaces of [~/types]
    - [RateLimiter]    the class [RateLimiter] ([./rateLimiter])
    - [Eligibility]    the eligibility filter of [background.ts]
    - [Serialization]  [utils/serialization.ts]
    - [Text]           the string operations the service relies on
    - [Delivery]       [services/openai.ts] and [services/messageDelivery.ts]
    - [Samples]        concrete inputs
    and then the facts, module by module.

    Numbers are integers ([Z]); timestamps are milliseconds since the epoch.
    Text is [string], a sequence of characters below 256.  The local time
    zone of the host is a fixed offset [tz] (in milliseconds) added to UTC;
    daylight-saving changes are not modelled.  The service is sequential:
    one call of [sendMessage] runs to its end before the next starts. *)

From Stdlib Require Import ZArith List String Ascii Bool Lia QArith Qround DecimalString.
From Stdlib Require Import Sorted Permutation.
Import ListNotations.
Local Open Scope string_scope.
Local Open Scope Z_scope.

Set Implicit Arguments.

(* ===================================================================== *)
(** * The [Date] object *)
(* ===================================================================== *)

Module JsDate.

Definition msPerSecond : Z := 1000.
Definition msPerMinute : Z := 60000.
Definition msPerHour : Z := 3600000.
Definition msPerDay : Z := 86400000.

(** The largest time value a [Date] can hold (ECMAScript TimeClip). *)
Definition maxTime : Z := 8640000000000000.

Definition validTime (t : Z) : bool := (- maxTime <=? t) && (t <=? maxTime).

(** A [Date] object: its time value, or [None] for an Invalid Date (NaN). *)
Definition Date : Type := option Z.

Definition TimeClip (t : Z) : Date := if validTime t then Some t else None.

Definition Day (t : Z) : Z := t / msPerDay.
Definition TimeWithinDay (t : Z) : Z := t mod msPerDay.

(** Year, month (1..12) and day of the month of a day number counted from
    1970-01-01, in the proleptic Gregorian calendar.  A year is handled as
    starting on 1 March, inside its 400-year era of 146097 days. *)
Definition yearOfEra (doe : Z) : Z :=
  (doe - doe / 1460 + doe / 36524 - doe / 146096) / 365.

Definition dayOfYear (doe yoe : Z) : Z :=
  doe - (365 * yoe + yoe / 4 - yoe / 100).

Definition monthIndex (doy : Z) : Z := (5 * doy + 2) / 153.

Definition civil_from_days (z : Z) : Z * Z * Z :=
  let z := z + 719468 in
  let era := z / 146097 in
  let doe := z - era * 146097 in
  let yoe := yearOfEra doe in
  let doy := dayOfYear doe yoe in
  let mp := monthIndex doy in
  let d := doy - (153 * mp + 2) / 5 + 1 in
  let m := if mp <? 10 then mp + 3 else mp - 9 in
  (yoe + era * 400 + (if m <=? 2 then 1 else 0), m, d).

(** ECMAScript MakeDay, for a month in 1..12. *)
Definition days_from_civil (y m d : Z) : Z :=
  let y := y - (if m <=? 2 then 1 else 0) in
  let era := y / 400 in
  let yoe := y - era * 400 in
  let mp := if 2 <? m then m - 3 else m + 9 in
  let doy := (153 * mp + 2) / 5 + d - 1 in
  let doe := yoe * 365 + yoe / 4 - yoe / 100 + doy in
  era * 146097 + doe - 719468.

Definition YearFromTime (t : Z) : Z := fst (fst (civil_from_days (Day t))).
(** Months are numbered from 0 by [getMonth]. *)
Definition MonthFromTime (t : Z) : Z := snd (fst (civil_from_days (Day t))) - 1.
Definition DateFromTime (t : Z) : Z := snd (civil_from_days (Day t)).
Definition HourFromTime (t : Z) : Z := TimeWithinDay t / msPerHour.
Definition MinFromTime (t : Z) : Z := (TimeWithinDay t / msPerMinute) mod 60.
Definition SecFromTime (t : Z) : Z := (TimeWithinDay t / msPerSecond) mod 60.
Definition msFromTime (t : Z) : Z := TimeWithinDay t mod 1000.

Definition MakeTime (h mi s ms : Z) : Z :=
  h * msPerHour + mi * msPerMinute + s * msPerSecond + ms.
Definition MakeDate (day time : Z) : Z := day * msPerDay + time.

(** ** Local time, for a host whose zone is [tz] milliseconds east of UTC

    The offset is one constant: a host that keeps the same offset all the
    time.  What the same operations are on a host whose offset changes
    (daylight saving) is written out under "Local time, for any zone"
    below; the definitions here are those at a fixed offset
    ([startOfNextHourIn_fixedOffset], [startOfNextDayIn_fixedOffset]). *)
Section Local.
Variable tz : Z.

Definition LocalTime (t : Z) : Z := t + tz.
Definition UTC (t : Z) : Z := t - tz.

Definition getFullYear (t : Z) : Z := YearFromTime (LocalTime t).
Definition getMonth (t : Z) : Z := MonthFromTime (LocalTime t).
Definition getDate (t : Z) : Z := DateFromTime (LocalTime t).
Definition getHours (t : Z) : Z := HourFromTime (LocalTime t).

(** [d.setDate(d.getDate() + 1); d.setHours(0, 0, 0, 0)]: the start of
      the next local day, at a fixed offset. *)
Definition startOfNextDay (t : Z) : Z :=
    UTC (MakeDate (Day (LocalTime t) + 1) 0).

(** [d.setHours(d.getHours() + 1, 0, 0, 0)]: the start of the next
      local clock hour, at a fixed offset. *)
Definition startOfNextHour (t : Z) : Z :=
    UTC (MakeDate (Day (LocalTime t)) (MakeTime (getHours t + 1) 0 0 0)).
End Local.

(** ** Local time, for any zone

    ECMAScript's LocalTZA: the offset in force at a time value
    ([offsetAt]), and the offset by which a local time is read back
    ([offsetOfLocal]; a local time that the clock shows twice or never is
    read with the offset before the change). *)
Record Zone : Type := mkZone {
  offsetAt : Z -> Z;
  offsetOfLocal : Z -> Z
}.

Definition fixedOffset (tz : Z) : Zone :=
  {| offsetAt := fun _ => tz; offsetOfLocal := fun _ => tz |}.

Definition LocalTimeIn (z : Zone) (t : Z) : Z := t + offsetAt z t.
Definition UTCIn (z : Zone) (local : Z) : Z := local - offsetOfLocal z local.

(** [d.setHours(d.getHours() + 1, 0, 0, 0)]. *)
Definition startOfNextHourIn (z : Zone) (t : Z) : Z :=
  let local := LocalTimeIn z t in
  UTCIn z (MakeDate (Day local) (MakeTime (HourFromTime local + 1) 0 0 0)).

(** [d.setDate(d.getDate() + 1); d.setHours(0, 0, 0, 0)]: each of the two
    calls reads the local time and writes the time value back. *)
Definition startOfNextDayIn (z : Zone) (t : Z) : Z :=
  let local := LocalTimeIn z t in
  let t1 := UTCIn z (MakeDate (Day local + 1) (TimeWithinDay local)) in
  let local1 := LocalTimeIn z t1 in
  UTCIn z (MakeDate (Day local1) (MakeTime 0 0 0 0)).

(** ** Decimal digits *)

Definition digitChar (d : Z) : ascii := ascii_of_N (48 + Z.to_N d).

Definition digitVal (c : ascii) : option Z :=
  let n := Z.of_N (N_of_ascii c) in
  if (48 <=? n) && (n <=? 57) then Some (n - 48) else None.

(** [n] written with exactly [k] digits, zero padded, in front of [rest]. *)
Fixpoint padTo (k : nat) (n : Z) (rest : string) : string :=
  match k with
  | O => rest
  | S k' => padTo k' (n / 10) (String (digitChar (n mod 10)) rest)
  end.

(** Reads exactly [k] digits, most significant first. *)
Fixpoint readDigits (k : nat) (acc : Z) (s : string) : option (Z * string) :=
  match k with
  | O => Some (acc, s)
  | S k' =>
      match s with
      | String c s' =>
          match digitVal c with
          | Some d => readDigits k' (10 * acc + d) s'
          | None => None
          end
      | EmptyString => None
      end
  end.

Definition expect (c : ascii) (s : string) : option string :=
  match s with
  | String c' s' => if Ascii.eqb c c' then Some s' else None
  | EmptyString => None
  end.

(** ** [toISOString] and the parsing of its format *)

Definition yearString (y : Z) (rest : string) : string :=
  if (0 <=? y) && (y <=? 9999) then padTo 4 y rest
  else if y <? 0 then String "-" (padTo 6 (- y) rest)
  else String "+" (padTo 6 y rest).

(** [YYYY-MM-DDTHH:mm:ss.sssZ], with the expanded year [+-YYYYYY] outside
    0..9999. *)
Definition isoOfTime (t : Z) : string :=
  yearString (YearFromTime t)
    (String "-" (padTo 2 (MonthFromTime t + 1)
    (String "-" (padTo 2 (DateFromTime t)
    (String "T" (padTo 2 (HourFromTime t)
    (String ":" (padTo 2 (MinFromTime t)
    (String ":" (padTo 2 (SecFromTime t)
    (String "." (padTo 3 (msFromTime t)
    (String "Z" EmptyString))))))))))))).

(** [toISOString] throws a RangeError on an Invalid Date: [None]. *)
Definition toISOString (d : Date) : option string :=
  match d with
  | Some t => Some (isoOfTime t)
  | None => None
  end.

Definition readYear (s : string) : option (Z * string) :=
  match s with
  | String c s' =>
      if Ascii.eqb c "+" then readDigits 6 0 s'
      else if Ascii.eqb c "-" then
        match readDigits 6 0 s' with
        | Some (y, r) => if y =? 0 then None else Some (- y, r)
        | None => None
        end
      else readDigits 4 0 s
  | EmptyString => None
  end.

Definition bind {A B} (o : option A) (f : A -> option B) : option B :=
  match o with
  | Some a => f a
  | None => None
  end.

(** The time value of a string in the format of [toISOString]; [None]
    where the string is not of that format.  The other inputs accepted
    by [Date.parse] (date-only forms, zone offsets, the legacy formats of
    the engine) are outside this model and read as unparseable. *)
Definition parseISO (s : string) : option Z :=
  bind (readYear s) (fun '(y, s) =>
  bind (expect "-" s) (fun s =>
  bind (readDigits 2 0 s) (fun '(mo, s) =>
  bind (expect "-" s) (fun s =>
  bind (readDigits 2 0 s) (fun '(d, s) =>
  bind (expect "T" s) (fun s =>
  bind (readDigits 2 0 s) (fun '(h, s) =>
  bind (expect ":" s) (fun s =>
  bind (readDigits 2 0 s) (fun '(mi, s) =>
  bind (expect ":" s) (fun s =>
  bind (readDigits 2 0 s) (fun '(sec, s) =>
  bind (expect "." s) (fun s =>
  bind (readDigits 3 0 s) (fun '(ms, s) =>
  bind (expect "Z" s) (fun s =>
    match s with
    | EmptyString =>
        if (1 <=? mo) && (mo <=? 12) && (1 <=? d) && (d <=? 31)
           && (h <=? 23) && (mi <=? 59) && (sec <=? 59)
        then Some (MakeDate (days_from_civil y mo d) (MakeTime h mi sec ms))
        else None
    | _ => None
    end)))))))))))))).

(** [new Date(s)] for a string, as far as [parseISO] reads it: a string
    that [toISOString] wrote.  Nothing below is stated of a date that is
    read from any other string. *)
Definition parse (s : string) : Date := bind (parseISO s) TimeClip.

End JsDate.


(* ===================================================================== *)
(** * The interfaces of [~/types] *)
(* ===================================================================== *)

(** A value met where the code expects a [Date].  The interfaces declare
    [Date], but storage and message passing hand back what they serialised,
    and the code tests for that ([instanceof Date], truthiness,
    [new Date(value)]). *)
Inductive DateLike : Type :=
| DLDate (d : JsDate.Date)
| DLString (s : string)
| DLNumber (n : Z)
| DLUndefined.

(** JavaScript truthiness. *)
Definition truthyString (s : string) : bool :=
  match s with
  | EmptyString => false
  | String _ _ => true
  end.

Definition truthy (v : DateLike) : bool :=
  match v with
  | DLDate _ => true
  | DLString s => truthyString s
  | DLNumber n => negb (n =? 0)
  | DLUndefined => false
  end.

(** [new Date(value)]. *)
Definition newDate (v : DateLike) : JsDate.Date :=
  match v with
  | DLDate d => d
  | DLString s => JsDate.parse s
  | DLNumber n => JsDate.TimeClip n
  | DLUndefined => None
  end.

Inductive AgeGroup : Type :=
| Age18_25 | Age26_35 | Age36_45 | Age46_55 | Age56plus | AgeUnknown.

Inductive Interest : Type :=
| Blockchain | AI | FullStackDevelopment | Ecommerce | Startups
| Technology | Business | Other.

Module CustomerProfile.
Record t : Type := mk {
  id : string;
  name : string;
  email : option string;
  country : option string;
  age : option Z;
  ageGroup : option AgeGroup;
  interests : option (list Interest);
  bio : option string;
  profileUrl : string;
  collectedAt : DateLike;
  lastMessageSent : DateLike;
  messageCount : Z
}.
End CustomerProfile.

Module MessageTemplate.
Record t : Type := mk {
  id : string;
  content : string;
  generatedAt : Z;
  profileId : string;
  profileName : string;
  openaiModel : string;
  success : bool;
  error : option string
}.
End MessageTemplate.

Module MessageHistory.
Record t : Type := mk {
  id : string;
  profileId : string;
  profileName : string;
  message : string;
  sentAt : Z;
  success : bool;
  error : option string;
  openaiModel : string
}.
End MessageHistory.

Module RateLimit.
Record t : Type := mk {
  messagesPerHour : Z;
  messagesPerDay : Z;
  delayBetweenMessages : Z
}.
End RateLimit.

Module AutomationSettings.
Record t : Type := mk {
  enabled : bool;
  rateLimit : RateLimit.t;
  openaiApiKey : option string;
  openaiModel : string;
  messageVariation : bool;
  retryAttempts : Z;
  senderName : option string
}.
End AutomationSettings.

Module MessageStats.
Record t : Type := mk {
  totalSent : Z;
  totalFailed : Z;
  lastSentAt : DateLike;
  messagesToday : Z;
  messagesThisHour : Z
}.
End MessageStats.

(* ===================================================================== *)
(** * [services/rateLimiter.ts] *)
(* ===================================================================== *)

Module RateLimiter.
Import MessageStats.

(** The limiter's [stats] field and the [messageStats] key of
    [chrome.storage.local].  Storage is taken to be reliable: the [catch]
    blocks around it, which only log, are never entered. *)
Record Ledger : Type := mkLedger {
  stats : MessageStats.t;
  stored : option MessageStats.t
}.

Record Admission : Type := mkAdmission {
  allowed : bool;
  reason : option string;
  waitTime : option Z
}.

Definition initialStats : MessageStats.t :=
  {| totalSent := 0; totalFailed := 0; lastSentAt := DLUndefined;
     messagesToday := 0; messagesThisHour := 0 |}.

(** [{ ...mine, ...theirs }]: a stored object without [lastSentAt] keeps
    the one in memory. *)
Definition spread (mine theirs : MessageStats.t) : MessageStats.t :=
  {| totalSent := totalSent theirs;
     totalFailed := totalFailed theirs;
     lastSentAt := match lastSentAt theirs with
                   | DLUndefined => lastSentAt mine
                   | v => v
                   end;
     messagesToday := messagesToday theirs;
     messagesThisHour := messagesThisHour theirs |}.

Section Host.
Variable tz : Z.

(** A comparison with the NaN of an Invalid Date: [!==] holds, [>=] does
    not. *)
Definition isDifferentDay (date1 date2 : JsDate.Date) : bool :=
  match date1, date2 with
  | Some t1, Some t2 =>
      negb (JsDate.getFullYear tz t1 =? JsDate.getFullYear tz t2)
      || negb (JsDate.getMonth tz t1 =? JsDate.getMonth tz t2)
      || negb (JsDate.getDate tz t1 =? JsDate.getDate tz t2)
  | _, _ => true
  end.

Definition isDifferentHour (date1 date2 : JsDate.Date) : bool :=
  match date1, date2 with
  | Some t1, Some t2 =>
      let hourDiff := (inject_Z (Z.abs (t1 - t2)) / inject_Z (1000 * 60 * 60))%Q in
      Qle_bool 1 hourDiff
  | _, _ => false
  end.

Definition updateTimeBasedCounts (now : Z) (s : MessageStats.t) : MessageStats.t :=
  let lastSent :=
    if truthy (lastSentAt s) then Some (newDate (lastSentAt s)) else None in
  let today :=
    match lastSent with
    | None => 0
    | Some d => if isDifferentDay (Some now) d then 0 else messagesToday s
    end in
  let thisHour :=
    match lastSent with
    | None => 0
    | Some d => if isDifferentHour (Some now) d then 0 else messagesThisHour s
    end in
  {| totalSent := totalSent s; totalFailed := totalFailed s;
     lastSentAt := lastSentAt s;
     messagesToday := today; messagesThisHour := thisHour |}.

Definition getTimeUntilNextDay (now : Z) : Z :=
  JsDate.startOfNextDay tz now - now.

Definition getTimeUntilNextHour (now : Z) : Z :=
  JsDate.startOfNextHour tz now - now.

Definition canSendMessage (settings : AutomationSettings.t) (now : Z)
    (l : Ledger) : Admission * Ledger :=
  let s := updateTimeBasedCounts now (stats l) in
  let l' := {| stats := s; stored := stored l |} in
  let limits := AutomationSettings.rateLimit settings in
  if RateLimit.messagesPerDay limits <=? messagesToday s then
    ({| allowed := false;
        reason := Some "Daily message limit reached";
        waitTime := Some (getTimeUntilNextDay now) |}, l')
  else if RateLimit.messagesPerHour limits <=? messagesThisHour s then
    ({| allowed := false;
        reason := Some "Hourly message limit reached";
        waitTime := Some (getTimeUntilNextHour now) |}, l')
  else ({| allowed := true; reason := None; waitTime := None |}, l').

(** [chrome.storage.local.set({ messageStats: this.stats })].  [stored]
    is the object handed to the store.  Its numbers are what a later read
    returns; what the store makes of the [Date] in [lastSentAt] is the
    browser's matter and is not modelled, so nothing below is stated of a
    [lastSentAt] read back from the store. *)
Definition saveStats (l : Ledger) : Ledger :=
  {| stats := stats l; stored := Some (stats l) |}.

Definition recordMessageSent (now : Z) (l : Ledger) : Ledger :=
  let s := stats l in
  saveStats
    {| stats := {| totalSent := totalSent s + 1;
                   totalFailed := totalFailed s;
                   lastSentAt := DLDate (Some now);
                   messagesToday := messagesToday s + 1;
                   messagesThisHour := messagesThisHour s + 1 |};
       stored := stored l |}.

Definition recordMessageFailed (l : Ledger) : Ledger :=
  let s := stats l in
  saveStats
    {| stats := {| totalSent := totalSent s;
                   totalFailed := totalFailed s + 1;
                   lastSentAt := lastSentAt s;
                   messagesToday := messagesToday s;
                   messagesThisHour := messagesThisHour s |};
       stored := stored l |}.

Definition getStats (now : Z) (l : Ledger) : MessageStats.t * Ledger :=
  let s := updateTimeBasedCounts now (stats l) in
  (s, {| stats := s; stored := stored l |}).

Definition resetStats (l : Ledger) : Ledger :=
  saveStats {| stats := initialStats; stored := stored l |}.

Definition loadStats (now : Z) (l : Ledger) : Ledger :=
  match stored l with
  | Some theirs =>
      {| stats := updateTimeBasedCounts now (spread (stats l) theirs);
         stored := stored l |}
  | None => l
  end.

(** [new RateLimiter(settings)], once the load it starts has finished. *)
Definition construct (now : Z) (onDisk : option MessageStats.t) : Ledger :=
  loadStats now {| stats := initialStats; stored := onDisk |}.

(** [chrome.storage.local.clear()] ([clearAllData]). *)
Definition clearStorage (l : Ledger) : Ledger :=
  {| stats := stats l; stored := None |}.

(** What can happen to the ledger: the operations of the limiter, at any
    time and under any settings; a new limiter over the same storage, whose
    load of the stored statistics ends at some later time; and the wipe of
    the storage. *)
Inductive step : Ledger -> Ledger -> Prop :=
| StepSent (now : Z) (l : Ledger) : step l (recordMessageSent now l)
| StepFailed (l : Ledger) : step l (recordMessageFailed l)
| StepGetStats (now : Z) (l : Ledger) : step l (snd (getStats now l))
| StepCanSend (settings : AutomationSettings.t) (now : Z) (l : Ledger) :
    step l (snd (canSendMessage settings now l))
| StepReset (l : Ledger) : step l (resetStats l)
| StepNew (l : Ledger) :
    step l {| stats := initialStats; stored := stored l |}
| StepLoad (now : Z) (l : Ledger) : step l (loadStats now l)
| StepClear (l : Ledger) : step l (clearStorage l).

(** The ledgers met from first use on: zero counters, empty storage. *)
Inductive reachable : Ledger -> Prop :=
| ReachInitial : reachable {| stats := initialStats; stored := None |}
| ReachStep (l l' : Ledger) : reachable l -> step l l' -> reachable l'.

End Host.

(** The invariant of the specification. *)
Definition windowsWithinTotal (s : MessageStats.t) : Prop :=
  messagesThisHour s <= totalSent s /\ messagesToday s <= totalSent s.

(** The invariant, made inductive: the counters are not negative either,
    in memory and in storage. *)
Definition countersInOrder (s : MessageStats.t) : Prop :=
  0 <= MessageStats.messagesThisHour s <= MessageStats.totalSent s
  /\ 0 <= MessageStats.messagesToday s <= MessageStats.totalSent s.

Definition ledgerInOrder (l : Ledger) : Prop :=
  countersInOrder (stats l)
  /\ forall s, stored l = Some s -> countersInOrder s.
End RateLimiter.

(* ===================================================================== *)
(** * The eligibility test of [runAutomationCycle] ([background.ts]) *)
(* ===================================================================== *)

Module Eligibility.
Import CustomerProfile.

(** [(Date.now() - new Date(profile.lastMessageSent).getTime())
     / (1000 * 60 * 60 * 24)], a NaN ([None]) for an Invalid Date. *)
Definition daysSinceLastMessage (now : Z) (p : CustomerProfile.t) : option Q :=
  match newDate (lastMessageSent p) with
  | Some last => Some (inject_Z (now - last) / inject_Z (1000 * 60 * 60 * 24))%Q
  | None => None
  end.

(** The callback given to [filtered.filter]. *)
Definition isEligible (now : Z) (p : CustomerProfile.t) : bool :=
  if messageCount p =? 0 then true
  else if negb (truthy (lastMessageSent p)) then true
  else match daysSinceLastMessage now p with
       | Some days => Qle_bool 7 days
       | None => false
       end.

Definition eligibleProfiles (now : Z) (filtered : list CustomerProfile.t)
  : list CustomerProfile.t :=
  filter (isEligible now) filtered.

End Eligibility.

(* ===================================================================== *)
(** * [utils/serialization.ts] *)
(* ===================================================================== *)

Module Serialization.
Import CustomerProfile.

(** [value || 0] on a number. *)
Definition orZero (n : Z) : Z := if n =? 0 then 0 else n.

(** [xs ? [...xs] : undefined]: an array, even an empty one, is truthy. *)
Definition copyArray {A} (xs : option (list A)) : option (list A) :=
  match xs with
  | Some l => Some (map (fun x => x) l)
  | None => None
  end.

(** The [collectedAt] of the serialised object; [None] is the RangeError
    that [toISOString] throws on an Invalid Date. *)
Definition serializeCollectedAt (now : Z) (v : DateLike) : option string :=
  match v with
  | DLDate d => JsDate.toISOString d
  | _ => if truthy v then JsDate.toISOString (newDate v)
         else JsDate.toISOString (Some now)
  end.

(** The [lastMessageSent] of the serialised object: [Some DLUndefined] is
    the absent field, [None] the RangeError. *)
Definition serializeLastMessageSent (v : DateLike) : option DateLike :=
  match v with
  | DLDate d => option_map DLString (JsDate.toISOString d)
  | _ => if truthy v then option_map DLString (JsDate.toISOString (newDate v))
         else Some DLUndefined
  end.

(** [serializeProfile]; the serialised object has the fields of the
    interface, with strings for the dates. *)
Definition serializeProfile (now : Z) (profile : CustomerProfile.t)
  : option CustomerProfile.t :=
  match serializeCollectedAt now (collectedAt profile),
        serializeLastMessageSent (lastMessageSent profile) with
  | Some collected, Some lastSent =>
      Some {| id := id profile;
              name := name profile;
              email := email profile;
              country := country profile;
              age := age profile;
              ageGroup := ageGroup profile;
              interests := copyArray (interests profile);
              bio := bio profile;
              profileUrl := profileUrl profile;
              collectedAt := DLString collected;
              lastMessageSent := lastSent;
              messageCount := orZero (messageCount profile) |}
  | _, _ => None
  end.

Definition deserializeDate (v : DateLike) : DateLike :=
  match v with
  | DLDate d => DLDate d
  | _ => DLDate (newDate v)
  end.

Definition deserializeProfile (now : Z) (profileData : CustomerProfile.t)
  : CustomerProfile.t :=
  {| id := id profileData;
     name := name profileData;
     email := email profileData;
     country := country profileData;
     age := age profileData;
     ageGroup := ageGroup profileData;
     interests := copyArray (interests profileData);
     bio := bio profileData;
     profileUrl := profileUrl profileData;
     collectedAt := if truthy (collectedAt profileData)
                    then deserializeDate (collectedAt profileData)
                    else DLDate (Some now);
     lastMessageSent := if truthy (lastMessageSent profileData)
                        then deserializeDate (lastMessageSent profileData)
                        else DLUndefined;
     messageCount := orZero (messageCount profileData) |}.

(** The other version of [serializeProfile] in the sources, which screens
    the dates through [safeDate] and never throws.  [safeDate] yields the
    time value of a valid date, or [None] for its [null]. *)
Definition safeDate (now : Z) (value : DateLike) (fallbackNow : bool) : option Z :=
  let d := match value with
           | DLDate d => Some d
           | _ => if truthy value then Some (newDate value)
                  else if fallbackNow then Some (Some now) else None
           end in
  match d with
  | Some (Some t) => Some t
  | _ => if fallbackNow then Some now else None
  end.

Definition serializeProfileSafe (now : Z) (profile : CustomerProfile.t)
  : CustomerProfile.t :=
  let collected := safeDate now (collectedAt profile) true in
  let lastSent := safeDate now (lastMessageSent profile) false in
  {| id := id profile;
     name := name profile;
     email := email profile;
     country := country profile;
     age := age profile;
     ageGroup := ageGroup profile;
     interests := copyArray (interests profile);
     bio := bio profile;
     profileUrl := profileUrl profile;
     collectedAt := DLString (JsDate.isoOfTime
                                match collected with
                                | Some t => t
                                | None => now
                                end);
     lastMessageSent := match lastSent with
                        | Some t => DLString (JsDate.isoOfTime t)
                        | None => DLUndefined
                        end;
     messageCount := orZero (messageCount profile) |}.

(** A recipient as the interface declares it: [collectedAt] a valid
    [Date], [lastMessageSent] absent or a valid [Date]. *)
Definition validDate (v : DateLike) : bool :=
  match v with
  | DLDate (Some t) => JsDate.validTime t
  | _ => false
  end.

Definition wellFormed (p : CustomerProfile.t) : bool :=
  validDate (collectedAt p)
  && match lastMessageSent p with
     | DLUndefined => true
     | v => validDate v
     end.

End Serialization.

(* ===================================================================== *)
(** * String operations of the run-time *)
(* ===================================================================== *)

Module Text.

Definition nl : string := String "010"%char EmptyString.

Definition code (c : ascii) : Z := Z.of_N (N_of_ascii c).

(** WhiteSpace and LineTerminator, among the characters below 256. *)
Definition isWhiteSpace (c : ascii) : bool :=
  let n := code c in
  ((9 <=? n) && (n <=? 13)) || (n =? 32) || (n =? 160).

Definition isUpper (c : ascii) : bool := (65 <=? code c) && (code c <=? 90).
Definition isLower (c : ascii) : bool := (97 <=? code c) && (code c <=? 122).
Definition isLetter (c : ascii) : bool := isUpper c || isLower c.

Definition toLower (c : ascii) : ascii :=
  if isUpper c then ascii_of_N (Z.to_N (code c + 32)) else c.

Fixpoint trimStart (s : string) : string :=
  match s with
  | String c s' => if isWhiteSpace c then trimStart s' else s
  | EmptyString => EmptyString
  end.

Fixpoint trimEnd (s : string) : string :=
  match s with
  | EmptyString => EmptyString
  | String c s' =>
      match trimEnd s' with
      | EmptyString => if isWhiteSpace c then EmptyString else String c EmptyString
      | r => String c r
      end
  end.

Definition trim (s : string) : string := trimEnd (trimStart s).

(** [a || b] on strings. *)
Definition orElse (a b : string) : string := if truthyString a then a else b.

(** [(value || fallback)] on an optional string. *)
Definition orDefault (a : option string) (b : string) : string :=
  match a with
  | Some s => orElse s b
  | None => b
  end.

Definition decimal (n : Z) : string := NilZero.string_of_int (Z.to_int n).

(** What is left of [s] after a prefix equal to [pat] up to the case of
    letters ([/pat/i] anchored at the start). *)
Fixpoint matchPrefixCI (pat s : string) : option string :=
  match pat with
  | EmptyString => Some s
  | String p pat' =>
      match s with
      | String c s' =>
          if Ascii.eqb (toLower p) (toLower c) then matchPrefixCI pat' s' else None
      | EmptyString => None
      end
  end.

(** The replacement text of [String.prototype.replace] for a pattern
    without capture groups: [$$], [$&], [$`] and [$'] are expanded. *)
Fixpoint getSubstitution (replacement matched before after : string) : string :=
  match replacement with
  | String "$" (String "$" r) =>
      String "$" (getSubstitution r matched before after)
  | String "$" (String "&" r) =>
      matched ++ getSubstitution r matched before after
  | String "$" (String "`" r) =>
      before ++ getSubstitution r matched before after
  | String "$" (String "'" r) =>
      after ++ getSubstitution r matched before after
  | String c r => String c (getSubstitution r matched before after)
  | EmptyString => EmptyString
  end.

(** [s.replace(/pat/gi, replacement)] for a literal, non-empty [pat].
    [skip] counts the characters of a match still to be passed over and
    [before] is the text already passed. *)
Fixpoint replaceFrom (pat replacement : string) (skip : nat) (before s : string)
  : string :=
  match s with
  | EmptyString => EmptyString
  | String c s' =>
      let before' := before ++ String c EmptyString in
      match skip with
      | S k => replaceFrom pat replacement k before' s'
      | O =>
          match matchPrefixCI pat s with
          | Some after =>
              getSubstitution replacement (substring 0 (length pat) s) before after
              ++ replaceFrom pat replacement (length pat - 1) before' s'
          | None => String c (replaceFrom pat replacement 0 before' s')
          end
      end
  end.

Definition replaceAllCI (pat replacement s : string) : string :=
  replaceFrom pat replacement 0 EmptyString s.

(** [/^(hi|hello|hey)[^a-z]/i.test(s)]. *)
Definition greetingRegexTest (s : string) : bool :=
  existsb
    (fun word =>
       match matchPrefixCI word s with
       | Some (String c _) => negb (isLetter c)
       | _ => false
       end)
    ["hi"; "hello"; "hey"].

Fixpoint join (sep : string) (xs : list string) : string :=
  match xs with
  | [] => EmptyString
  | [x] => x
  | x :: rest => x ++ sep ++ join sep rest
  end.

End Text.

(* ===================================================================== *)
(** * [services/openai.ts] and [services/messageDelivery.ts] *)
(* ===================================================================== *)

Module Delivery.
Import Text.

(** A thrown value, as the [catch] blocks tell them apart
    ([error instanceof Error ? error.message : ...]). *)
Inductive Thrown : Type :=
| ErrorObject (message : string)
| OtherValue.

Definition errorMessage (e : Thrown) : string :=
  match e with
  | ErrorObject m => m
  | OtherValue => "Unknown error"
  end.

Inductive Completion (A : Type) : Type :=
| Normal (a : A)
| Throws (e : Thrown).
Arguments Normal {A} a.
Arguments Throws {A} e.

(** What [openaiClient.chat.completions.create] does: it resolves, with
    [response.choices[0]?.message?.content] present or not, or rejects. *)
Inductive ChatOutcome : Type :=
| ChatContent (content : option string)
| ChatRejects (e : Thrown).

(** The calls that leave the service. *)
Inductive Event : Type :=
| EvChatCompletion (model prompt : string)
| EvDelay (ms : Z)
| EvSend (profileName message : string).

Record SendResult : Type := mkResult {
  success : bool;
  message : option string;
  error : option string
}.

(** The state the service works on: the clock, the module variable
    [openaiClient], the limiter, the keys of [chrome.storage.local], the
    number of [Math.random()] draws and the calls made so far (latest
    last).  A call runs on this state from its start to its end: the
    limiter has finished loading and no other call is under way.  What
    calls that overlap do to the limiter is the matter of [Usage]. *)
Record World : Type := mkWorld {
  clock : Z;
  openaiClient : option string;
  ledger : RateLimiter.Ledger;
  messageTemplates : list MessageTemplate.t;
  messageHistory : list MessageHistory.t;
  profiles : list CustomerProfile.t;
  randomDraws : nat;
  trace : list Event
}.

Definition M (A : Type) : Type := World -> A * World.

Definition ret {A} (a : A) : M A := fun w => (a, w).

Definition bind {A B} (m : M A) (f : A -> M B) : M B :=
  fun w => let (a, w') := m w in f a w'.

Notation "x <- m ;; k" := (bind m (fun x => k))
  (at level 61, m at next level, right associativity).
Notation "m ;;; k" := (bind m (fun _ => k))
  (at level 61, right associativity).

Definition now : M Z := fun w => (clock w, w).

Definition elapse (ms : Z) : M unit := fun w =>
  (tt, mkWorld (clock w + ms) (openaiClient w) (ledger w) (messageTemplates w)
               (messageHistory w) (profiles w) (randomDraws w) (trace w)).

Definition emit (e : Event) : M unit := fun w =>
  (tt, mkWorld (clock w) (openaiClient w) (ledger w) (messageTemplates w)
               (messageHistory w) (profiles w) (randomDraws w) (trace w ++ [e])%list).

Definition withLedger (l : RateLimiter.Ledger) (w : World) : World :=
  mkWorld (clock w) (openaiClient w) l (messageTemplates w)
          (messageHistory w) (profiles w) (randomDraws w) (trace w).

Definition onLedger {A} (f : RateLimiter.Ledger -> A * RateLimiter.Ledger) : M A :=
  fun w => let (a, l) := f (ledger w) in (a, withLedger l w).

Definition setTemplates (ts : list MessageTemplate.t) : M unit := fun w =>
  (tt, mkWorld (clock w) (openaiClient w) (ledger w) ts
               (messageHistory w) (profiles w) (randomDraws w) (trace w)).

Definition setHistory (hs : list MessageHistory.t) : M unit := fun w =>
  (tt, mkWorld (clock w) (openaiClient w) (ledger w) (messageTemplates w)
               hs (profiles w) (randomDraws w) (trace w)).

(** [chrome.storage.local.set({ profiles })]: [profiles] holds the objects
    handed to the store.  As for [saveStats], what the store makes of the
    [Date]s in them is not modelled, and nothing below is stated of the
    dates of a profile read back. *)
Definition setProfiles (ps : list CustomerProfile.t) : M unit := fun w =>
  (tt, mkWorld (clock w) (openaiClient w) (ledger w) (messageTemplates w)
               (messageHistory w) ps (randomDraws w) (trace w)).

Definition ageGroupText (g : AgeGroup) : string :=
  match g with
  | Age18_25 => "18-25" | Age26_35 => "26-35" | Age36_45 => "36-45"
  | Age46_55 => "46-55" | Age56plus => "56+" | AgeUnknown => "unknown"
  end.

Definition interestText (i : Interest) : string :=
  match i with
  | Blockchain => "Blockchain" | AI => "AI"
  | FullStackDevelopment => "Full-Stack Development"
  | Ecommerce => "E-commerce" | Startups => "Startups"
  | Technology => "Technology" | Business => "Business" | Other => "Other"
  end.

Definition createPrompt (profile : CustomerProfile.t) : string :=
  "Generate a personalized message for this YCStartupSchool member:" ++ nl ++ nl
  ++ "Name: " ++ CustomerProfile.name profile ++ nl
  ++ match CustomerProfile.country profile with
     | Some c => if truthyString c then "Location: " ++ c ++ nl else EmptyString
     | None => EmptyString
     end
  ++ match CustomerProfile.ageGroup profile with
     | Some AgeUnknown | None => EmptyString
     | Some g => "Age Group: " ++ ageGroupText g ++ nl
     end
  ++ match CustomerProfile.interests profile with
     | Some (i :: rest) =>
         "Interests: " ++ join ", " (map interestText (i :: rest)) ++ nl
     | _ => EmptyString
     end
  ++ match CustomerProfile.bio profile with
     | Some b => if truthyString b then "Bio: " ++ b ++ nl else EmptyString
     | None => EmptyString
     end
  ++ nl ++ "Write a brief, personalized message that feels natural and genuine. Make it specific to their profile.".

Section Service.
(** The host: its time zone, the answers of the OpenAI API with the time
    they take, and the strings [Math.random().toString(36).substr(2, 9)]
    yields, draw after draw. *)
Variable tz : Z.
Variable chat : string -> string -> ChatOutcome.
Variable chatLatency : string -> string -> Z.
Variable random36 : nat -> string.
(** [this.settings]. *)
Variable settings : AutomationSettings.t.

Definition random : M string := fun w =>
  (random36 (randomDraws w),
   mkWorld (clock w) (openaiClient w) (ledger w) (messageTemplates w)
           (messageHistory w) (profiles w) (S (randomDraws w)) (trace w)).

Definition isOpenAIConfigured : M bool := fun w =>
  (match openaiClient w with Some _ => true | None => false end, w).

(** What [generatePersonalizedMessage] makes of the answer:
    [response.choices[0]?.message?.content?.trim()], an error where that
    is missing or empty, and the rejection thrown again. *)
Definition readCompletion (o : ChatOutcome) : Completion string :=
  match o with
  | ChatContent content =>
      match option_map trim content with
      | Some (String c s) => Normal (String c s)
      | _ => Throws (ErrorObject "No message generated from OpenAI")
      end
  | ChatRejects e => Throws e
  end.

Definition generatePersonalizedMessage (profile : CustomerProfile.t)
    (model : string) : M (Completion string) :=
  configured <- isOpenAIConfigured ;;
  if negb configured
  then ret (Throws (ErrorObject "OpenAI client not initialized. Please set API key."))
  else
    let prompt := createPrompt profile in
    emit (EvChatCompletion model prompt) ;;;
    elapse (chatLatency model prompt) ;;;
    ret (readCompletion (chat model prompt)).

Definition applyNameTemplate (message : string) (profile : CustomerProfile.t)
  : string :=
  let sender :=
    orElse (trim (orDefault (AutomationSettings.senderName settings) EmptyString))
           "Your Name" in
  let receiver :=
    orElse (trim (orElse (CustomerProfile.name profile) EmptyString)) "there" in
  let body :=
    trim
      (replaceAllCI "<Recipient>" receiver
      (replaceAllCI "{Recipient}" receiver
      (replaceAllCI "[Recipient]" receiver
      (replaceAllCI "<Your Name>" sender
      (replaceAllCI "{Your Name}" sender
      (replaceAllCI "[Your Name]" sender message)))))) in
  let hasGreeting := greetingRegexTest body in
  let salutation :=
    if hasGreeting then EmptyString else "Hi " ++ receiver ++ "," ++ nl ++ nl in
  let closing := nl ++ nl ++ "Best," ++ nl ++ sender in
  salutation ++ body ++ closing.

(** The placeholder of the sources: it logs and reports success. *)
Definition actuallySendMessage (profile : CustomerProfile.t) (message : string)
  : M bool :=
  emit (EvSend (CustomerProfile.name profile) message) ;;;
  ret true.

(** [list.push(x); if (list.length > cap) list.shift()]. *)
Definition pushCapped {A} (cap : Z) (xs : list A) (x : A) : list A :=
  let pushed := (xs ++ [x])%list in
  if cap <? Z.of_nat (List.length pushed) then tl pushed else pushed.

Definition saveMessageTemplate (profile : CustomerProfile.t) (message : string)
    (ok : bool) (err : option string) : M unit :=
  stamp <- now ;;
  r <- random ;;
  generated <- now ;;
  let template :=
    {| MessageTemplate.id := "msg-" ++ decimal stamp ++ "-" ++ r;
       MessageTemplate.content := message;
       MessageTemplate.generatedAt := generated;
       MessageTemplate.profileId := CustomerProfile.id profile;
       MessageTemplate.profileName := CustomerProfile.name profile;
       MessageTemplate.openaiModel := AutomationSettings.openaiModel settings;
       MessageTemplate.success := ok;
       MessageTemplate.error := err |} in
  fun w => setTemplates (pushCapped 1000 (messageTemplates w) template) w.

Definition saveMessageHistory (profile : CustomerProfile.t) (message : string)
    (ok : bool) (err : option string) : M unit :=
  stamp <- now ;;
  r <- random ;;
  sent <- now ;;
  let history :=
    {| MessageHistory.id := "hist-" ++ decimal stamp ++ "-" ++ r;
       MessageHistory.profileId := CustomerProfile.id profile;
       MessageHistory.profileName := CustomerProfile.name profile;
       MessageHistory.message := message;
       MessageHistory.sentAt := sent;
       MessageHistory.success := ok;
       MessageHistory.error := err;
       MessageHistory.openaiModel := AutomationSettings.openaiModel settings |} in
  fun w => setHistory (pushCapped 500 (messageHistory w) history) w.

(** [profiles[index] = profile] at the first index whose [id] is that of
    [profile], [profiles.push(profile)] where there is none. *)
Fixpoint upsert (profile : CustomerProfile.t) (ps : list CustomerProfile.t)
  : list CustomerProfile.t :=
  match ps with
  | [] => [profile]
  | p :: rest =>
      if String.eqb (CustomerProfile.id p) (CustomerProfile.id profile)
      then profile :: rest
      else p :: upsert profile rest
  end.

(** The profile object is changed in place: the changed object is
    returned. *)
Definition updateProfileMessageCount (profile : CustomerProfile.t)
  : M CustomerProfile.t :=
  t <- now ;;
  let profile' :=
    {| CustomerProfile.id := CustomerProfile.id profile;
       CustomerProfile.name := CustomerProfile.name profile;
       CustomerProfile.email := CustomerProfile.email profile;
       CustomerProfile.country := CustomerProfile.country profile;
       CustomerProfile.age := CustomerProfile.age profile;
       CustomerProfile.ageGroup := CustomerProfile.ageGroup profile;
       CustomerProfile.interests := CustomerProfile.interests profile;
       CustomerProfile.bio := CustomerProfile.bio profile;
       CustomerProfile.profileUrl := CustomerProfile.profileUrl profile;
       CustomerProfile.collectedAt := CustomerProfile.collectedAt profile;
       CustomerProfile.lastMessageSent := DLDate (Some t);
       CustomerProfile.messageCount := CustomerProfile.messageCount profile + 1 |} in
  (fun w => setProfiles (upsert profile' (profiles w)) w) ;;;
  ret profile'.

Definition delay (ms : Z) : M unit :=
  emit (EvDelay ms) ;;; elapse ms.

Definition canSendMessage : M RateLimiter.Admission :=
  t <- now ;;
  onLedger (RateLimiter.canSendMessage tz settings t).

Definition recordMessageSent : M unit :=
  t <- now ;;
  onLedger (fun l => (tt, RateLimiter.recordMessageSent t l)).

Definition recordMessageFailed : M unit :=
  onLedger (fun l => (tt, RateLimiter.recordMessageFailed l)).

Definition failure (err : string) : SendResult :=
  {| success := false; message := None; error := Some err |}.

(** The second half of [sendMessage]: the pacing delay and the send.
    Nothing inside the second [try] throws (storage is reliable and
    [actuallySendMessage] catches its own errors), so its [catch] has no
    counterpart here. *)
Definition deliver (profile : CustomerProfile.t) (text : string)
  : M (SendResult * CustomerProfile.t) :=
  (if 0 <? RateLimit.delayBetweenMessages (AutomationSettings.rateLimit settings)
   then delay (RateLimit.delayBetweenMessages (AutomationSettings.rateLimit settings))
   else ret tt) ;;;
  ok <- actuallySendMessage profile text ;;
  if ok then
    recordMessageSent ;;;
    saveMessageTemplate profile text true None ;;;
    saveMessageHistory profile text true None ;;;
    profile' <- updateProfileMessageCount profile ;;
    ret ({| success := true; message := Some text; error := None |}, profile')
  else
    recordMessageFailed ;;;
    saveMessageTemplate profile text false (Some "Failed to send message") ;;;
    saveMessageHistory profile text false (Some "Failed to send message") ;;;
    ret (failure "Failed to send message", profile).

(** [sendMessage(profile, customMessage?)]: the result and the profile
    object as the call leaves it. *)
Definition sendMessage (profile : CustomerProfile.t)
    (customMessage : option string) : M (SendResult * CustomerProfile.t) :=
  canSend <- canSendMessage ;;
  if negb (RateLimiter.allowed canSend) then
    ret (failure (orDefault (RateLimiter.reason canSend) "Rate limit exceeded"),
         profile)
  else
    match customMessage with
    | Some (String c s) => deliver profile (String c s)
    | _ =>
        configured <- isOpenAIConfigured ;;
        if negb configured then
          ret (failure "OpenAI API key not configured", profile)
        else
          generated <- generatePersonalizedMessage profile
                         (AutomationSettings.openaiModel settings) ;;
          match generated with
          | Normal text => deliver profile (applyNameTemplate text profile)
          | Throws e =>
              let errorMsg := errorMessage e in
              recordMessageFailed ;;;
              saveMessageHistory profile EmptyString false
                (Some ("Failed to generate: " ++ errorMsg)) ;;;
              ret (failure ("Failed to generate message: " ++ errorMsg), profile)
          end
    end.

End Service.
End Delivery.

(* ===================================================================== *)
(** * [utils/filter.ts] *)
(* ===================================================================== *)

Module Filter.
Import CustomerProfile.

Record FilterSettings : Type := mkFilters {
  countries : option (list string);
  ageGroups : option (list AgeGroup);
  interests : option (list Interest);
  minAge : option Z;
  maxAge : option Z
}.

Definition ageGroupEqb (a b : AgeGroup) : bool :=
  match a, b with
  | Age18_25, Age18_25 | Age26_35, Age26_35 | Age36_45, Age36_45
  | Age46_55, Age46_55 | Age56plus, Age56plus | AgeUnknown, AgeUnknown => true
  | _, _ => false
  end.

Definition interestEqb (a b : Interest) : bool :=
  match a, b with
  | Blockchain, Blockchain | AI, AI
  | FullStackDevelopment, FullStackDevelopment | Ecommerce, Ecommerce
  | Startups, Startups | Technology, Technology | Business, Business
  | Other, Other => true
  | _, _ => false
  end.

(** [!age]: the age is missing or 0. *)
Definition noAge (age : option Z) : bool :=
  match age with
  | Some a => a =? 0
  | None => true
  end.

Definition categorizeAgeGroup (age : option Z) : AgeGroup :=
  match age with
  | None => AgeUnknown
  | Some a =>
      if a =? 0 then AgeUnknown
      else if (18 <=? a) && (a <=? 25) then Age18_25
      else if (26 <=? a) && (a <=? 35) then Age26_35
      else if (36 <=? a) && (a <=? 45) then Age36_45
      else if (46 <=? a) && (a <=? 55) then Age46_55
      else if 56 <=? a then Age56plus
      else AgeUnknown
  end.

(** [xs && xs.length > 0]. *)
Definition inForce {A} (xs : option (list A)) : option (list A) :=
  match xs with
  | Some (x :: rest) => Some (x :: rest)
  | _ => None
  end.

Definition countryPasses (profile : CustomerProfile.t) (f : FilterSettings) : bool :=
  match inForce (countries f) with
  | Some wanted =>
      match country profile with
      | Some c => truthyString c && existsb (String.eqb c) wanted
      | None => false
      end
  | None => true
  end.

Definition ageGroupPasses (profile : CustomerProfile.t) (f : FilterSettings) : bool :=
  match inForce (ageGroups f) with
  | Some wanted =>
      let profileAgeGroup :=
        match ageGroup profile with
        | Some g => g
        | None => categorizeAgeGroup (age profile)
        end in
      existsb (ageGroupEqb profileAgeGroup) wanted
  | None => true
  end.

(** [bound && test]: a bound that is missing or 0 tests nothing. *)
Definition boundFails (bound : option Z) (test : Z -> bool) : bool :=
  match bound with
  | Some b => negb (b =? 0) && test b
  | None => false
  end.

Definition ageRangePasses (profile : CustomerProfile.t) (f : FilterSettings) : bool :=
  match age profile with
  | Some a =>
      if a =? 0 then true
      else if boundFails (minAge f) (fun b => a <? b) then false
      else if boundFails (maxAge f) (fun b => b <? a) then false
      else true
  | None => true
  end.

Definition interestPasses (profile : CustomerProfile.t) (f : FilterSettings) : bool :=
  match inForce (interests f) with
  | Some wanted =>
      match CustomerProfile.interests profile with
      | Some (i :: rest) =>
          existsb (fun interest => existsb (interestEqb interest) wanted) (i :: rest)
      | _ => false
      end
  | None => true
  end.

(** [matchesFilters]: the four tests in the order of the source, each
    returning [false] at once. *)
Definition matchesFilters (profile : CustomerProfile.t) (filters : FilterSettings)
  : bool :=
  if negb (countryPasses profile filters) then false
  else if negb (ageGroupPasses profile filters) then false
  else if negb (ageRangePasses profile filters) then false
  else if negb (interestPasses profile filters) then false
  else true.

Definition filterProfiles (profiles : list CustomerProfile.t)
    (filters : FilterSettings) : list CustomerProfile.t :=
  filter (fun profile => matchesFilters profile filters) profiles.

End Filter.

(* ===================================================================== *)
(** * [utils/storage.ts] *)
(* ===================================================================== *)

Module Storage.
Import Delivery.

Definition DEFAULT_FILTERS : Filter.FilterSettings :=
  {| Filter.countries := Some []; Filter.ageGroups := Some [];
     Filter.interests := Some []; Filter.minAge := None; Filter.maxAge := None |}.

(** [{ ...DEFAULT_FILTERS, ...stored }]: a key the stored object lacks
    keeps its default. *)
Definition getFilterSettings (stored : option Filter.FilterSettings)
  : Filter.FilterSettings :=
  match stored with
  | Some f =>
      {| Filter.countries :=
           match Filter.countries f with Some l => Some l | None => Some [] end;
         Filter.ageGroups :=
           match Filter.ageGroups f with Some l => Some l | None => Some [] end;
         Filter.interests :=
           match Filter.interests f with Some l => Some l | None => Some [] end;
         Filter.minAge := Filter.minAge f;
         Filter.maxAge := Filter.maxAge f |}
  | None => DEFAULT_FILTERS
  end.

(** What [getProfiles] makes of a stored profile:
    [{ ...p, collectedAt: new Date(p.collectedAt), lastMessageSent:
       p.lastMessageSent ? new Date(p.lastMessageSent) : undefined }]. *)
Definition revive (p : CustomerProfile.t) : CustomerProfile.t :=
  {| CustomerProfile.id := CustomerProfile.id p;
     CustomerProfile.name := CustomerProfile.name p;
     CustomerProfile.email := CustomerProfile.email p;
     CustomerProfile.country := CustomerProfile.country p;
     CustomerProfile.age := CustomerProfile.age p;
     CustomerProfile.ageGroup := CustomerProfile.ageGroup p;
     CustomerProfile.interests := CustomerProfile.interests p;
     CustomerProfile.bio := CustomerProfile.bio p;
     CustomerProfile.profileUrl := CustomerProfile.profileUrl p;
     CustomerProfile.collectedAt := DLDate (newDate (CustomerProfile.collectedAt p));
     CustomerProfile.lastMessageSent :=
       if truthy (CustomerProfile.lastMessageSent p)
       then DLDate (newDate (CustomerProfile.lastMessageSent p))
       else DLUndefined;
     CustomerProfile.messageCount := CustomerProfile.messageCount p |}.

Definition getProfiles : M (list CustomerProfile.t) :=
  fun w => (map revive (profiles w), w).

(** Two profiles that differ in their dates at most. *)
Definition sameButDates (p q : CustomerProfile.t) : Prop :=
  CustomerProfile.id p = CustomerProfile.id q
  /\ CustomerProfile.name p = CustomerProfile.name q
  /\ CustomerProfile.email p = CustomerProfile.email q
  /\ CustomerProfile.country p = CustomerProfile.country q
  /\ CustomerProfile.age p = CustomerProfile.age q
  /\ CustomerProfile.ageGroup p = CustomerProfile.ageGroup q
  /\ CustomerProfile.interests p = CustomerProfile.interests q
  /\ CustomerProfile.bio p = CustomerProfile.bio q
  /\ CustomerProfile.profileUrl p = CustomerProfile.profileUrl q
  /\ CustomerProfile.messageCount p = CustomerProfile.messageCount q.

(** [saveProfile]: the list read by [getProfiles] is written back with
    the profile put in place of the first one of the same [id], or at the
    end. *)
Definition saveProfile (profile : CustomerProfile.t) : M unit :=
  stored <- getProfiles ;;
  setProfiles (upsert profile stored).

Definition saveProfiles (ps : list CustomerProfile.t) : M unit :=
  setProfiles ps.

(** [array.sort((a, b) => b.sentAt.getTime() - a.sentAt.getTime())]: the
    sort is stable, so its result is the one of this insertion sort: most
    recent first, records of the same time in the order they had. *)
Fixpoint insertBySentAt (h : MessageHistory.t) (sorted : list MessageHistory.t)
  : list MessageHistory.t :=
  match sorted with
  | [] => [h]
  | h' :: rest =>
      if MessageHistory.sentAt h <? MessageHistory.sentAt h'
      then h' :: insertBySentAt h rest
      else h :: h' :: rest
  end.

Definition sortMostRecentFirst (hs : list MessageHistory.t) : list MessageHistory.t :=
  fold_right insertBySentAt [] hs.

Definition getMessageHistory : M (list MessageHistory.t) :=
  fun w => (sortMostRecentFirst (messageHistory w), w).


Definition getMessageStats : M MessageStats.t :=
  fun w => (match RateLimiter.stored (ledger w) with
            | Some s => s
            | None => RateLimiter.initialStats
            end, w).

(** [chrome.storage.local.clear()]: every key goes; what is in memory
    stays. *)
Definition clearAllData : M unit :=
  fun w => (tt, mkWorld (clock w) (openaiClient w)
                  (RateLimiter.clearStorage (ledger w)) [] [] []
                  (randomDraws w) (trace w)).

End Storage.

(* ===================================================================== *)
(** * [services/profileCollector.ts]: the mapping of tags to interests *)
(* ===================================================================== *)

Module Collector.
Import Text.

(** [toLowerCase] on the characters below 256: the ASCII capitals and the
    Latin-1 ones (192 to 222 but 215). *)
Definition lowerChar (c : ascii) : ascii :=
  let n := code c in
  if ((65 <=? n) && (n <=? 90))
     || ((192 <=? n) && (n <=? 222) && negb (n =? 215))
  then ascii_of_N (Z.to_N (n + 32)) else c.

Fixpoint toLowerCase (s : string) : string :=
  match s with
  | EmptyString => EmptyString
  | String c s' => String (lowerChar c) (toLowerCase s')
  end.

(** [hay.includes(needle)]. *)
Fixpoint includes (needle hay : string) : bool :=
  if String.prefix needle hay then true
  else match hay with
       | EmptyString => false
       | String _ hay' => includes needle hay'
       end.

Definition mapToInterest (text : string) : Interest :=
  let lowerText := toLowerCase text in
  if includes "blockchain" lowerText || includes "crypto" lowerText
     || includes "web3" lowerText
  then Blockchain
  else if includes "ai" lowerText || includes "artificial intelligence" lowerText
          || includes "machine learning" lowerText || includes "ml" lowerText
  then AI
  else if includes "full stack" lowerText || includes "fullstack" lowerText
          || includes "full-stack" lowerText
          || includes "software development" lowerText
          || includes "web development" lowerText
  then FullStackDevelopment
  else if includes "ecommerce" lowerText || includes "e-commerce" lowerText
          || includes "ecommerce" lowerText || includes "online store" lowerText
  then Ecommerce
  else if includes "startup" lowerText || includes "entrepreneur" lowerText
  then Startups
  else if includes "tech" lowerText || includes "technology" lowerText
          || includes "software" lowerText
  then Technology
  else if includes "business" lowerText || includes "marketing" lowerText
          || includes "sales" lowerText
  then Business
  else Other.

End Collector.

(* ===================================================================== *)
(** * The rest of [services/messageDelivery.ts] and of [background.ts] *)
(* ===================================================================== *)

Module Background.
Import Delivery.

Section Service.
Variable tz : Z.
Variable chat : string -> string -> ChatOutcome.
Variable chatLatency : string -> string -> Z.
Variable random36 : nat -> string.
(** The values of [Math.random()], draw after draw. *)
Variable randomUnit : nat -> Q.

(** [MessageDeliveryService.generateDraft]. *)
Definition generateDraft (settings : AutomationSettings.t)
    (profile : CustomerProfile.t) : M (Completion string) :=
  configured <- isOpenAIConfigured ;;
  if negb configured
  then ret (Throws (ErrorObject "OpenAI API key not configured"))
  else
    generated <- generatePersonalizedMessage chat chatLatency profile
                   (AutomationSettings.openaiModel settings) ;;
    match generated with
    | Normal text => ret (Normal (applyNameTemplate settings text profile))
    | Throws e => ret (Throws e)
    end.

(** [handleProfileExtracted]: the profile received is deserialised and
    saved. *)
Definition handleProfileExtracted (profileData : CustomerProfile.t) : M unit :=
  t <- now ;;
  Storage.saveProfile (Serialization.deserializeProfile t profileData).

Definition mathRandom : M Q := fun w =>
  (randomUnit (randomDraws w),
   mkWorld (clock w) (openaiClient w) (ledger w) (messageTemplates w)
           (messageHistory w) (profiles w) (S (randomDraws w)) (trace w)).

(** [Math.floor(Math.random() * n)]. *)
Definition randomIndex (r : Q) (n : nat) : Z := Qfloor (r * inject_Z (Z.of_nat n)).

(** [runAutomationCycle], for the stored filter settings and the
    [messageDeliveryService] of the module (the settings it was made
    with, or none).  [Math.random()] is below 1, so the index is one of
    the list; the other case stands for the error the [catch] swallows. *)
Definition runAutomationCycle (storedFilters : option Filter.FilterSettings)
    (service : option AutomationSettings.t) : M unit :=
  stored <- Storage.getProfiles ;;
  let filtered :=
    Filter.filterProfiles stored (Storage.getFilterSettings storedFilters) in
  t <- now ;;
  let eligibleProfiles := Eligibility.eligibleProfiles t filtered in
  match eligibleProfiles with
  | [] => ret tt
  | _ =>
      r <- mathRandom ;;
      match nth_error eligibleProfiles
              (Z.to_nat (randomIndex r (List.length eligibleProfiles))) with
      | Some profile =>
          match service with
          | Some settings =>
              sendMessage tz chat chatLatency random36 settings profile None ;;;
              ret tt
          | None => ret tt
          end
      | None => ret tt
      end
  end.

End Service.

(** ** The timer of the automation *)

(** The module variables [automationInterval] and
    [messageDeliveryService] (the settings the service was made with), and
    the intervals the run-time holds: handle and period, in the order they
    were set.  Handles are positive numbers, never reused. *)
Record Scheduler : Type := mkScheduler {
  automationInterval : option positive;
  messageDeliveryService : option AutomationSettings.t;
  intervals : list (positive * Z);
  nextHandle : positive
}.

Definition idle : Scheduler :=
  {| automationInterval := None; messageDeliveryService := None;
     intervals := []; nextHandle := 1%positive |}.

Definition clearInterval (h : positive) (s : Scheduler) : Scheduler :=
  {| automationInterval := automationInterval s;
     messageDeliveryService := messageDeliveryService s;
     intervals := filter (fun e => negb (Pos.eqb (fst e) h)) (intervals s);
     nextHandle := nextHandle s |}.

Definition stopAutomation (s : Scheduler) : Scheduler :=
  match automationInterval s with
  | Some h =>
      let s' := clearInterval h s in
      {| automationInterval := None;
         messageDeliveryService := messageDeliveryService s';
         intervals := intervals s';
         nextHandle := nextHandle s' |}
  | None => s
  end.

(** [delayBetweenMessages || 60000]. *)
Definition period (settings : AutomationSettings.t) : Z :=
  let d := RateLimit.delayBetweenMessages (AutomationSettings.rateLimit settings) in
  if d =? 0 then 60000 else d.

(** [startAutomation], up to the first cycle it then runs. *)
Definition startAutomation (settings : AutomationSettings.t) (s : Scheduler)
  : Scheduler :=
  let s := stopAutomation s in
  if negb (AutomationSettings.enabled settings) then s
  else
    {| automationInterval := Some (nextHandle s);
       messageDeliveryService := Some settings;
       intervals := (intervals s ++ [(nextHandle s, period settings)])%list;
       nextHandle := Pos.succ (nextHandle s) |}.

(** The calls that reach the timer: the messages [startAutomation] and
    [stopAutomation], and a change of the stored settings, which starts
    or stops by [enabled]. *)
Inductive Command : Type :=
| Start (settings : AutomationSettings.t)
| Stop
| SettingsChanged (newSettings : AutomationSettings.t).

Definition handle (c : Command) (s : Scheduler) : Scheduler :=
  match c with
  | Start settings => startAutomation settings s
  | Stop => stopAutomation s
  | SettingsChanged newSettings =>
      if AutomationSettings.enabled newSettings
      then startAutomation newSettings s
      else stopAutomation s
  end.

Definition handleAll (cs : list Command) (s : Scheduler) : Scheduler :=
  fold_left (fun s c => handle c s) cs s.

End Background.

(* ===================================================================== *)
(** * The service in use *)
(* ===================================================================== *)

Module Usage.
Import RateLimiter.

(** What the calls of [sendMessage] that are under way do to the limiter
    of the service, in the order in which it happens.  A call asks
    [canSendMessage] when it starts ([Check]).  A call that was allowed
    ends with [recordMessageSent] ([Sent]), with [recordMessageFailed]
    ([Failed]) or, where there is no API key, without a word to the limiter
    ([GaveUp]).  Calls overlap where a later one starts before an earlier
    one has ended, as the cycles of the timer do. *)
Inductive Event : Type :=
| Check (t : Z)
| Sent (t : Z)
| Failed (t : Z)
| GaveUp (t : Z).

Definition timeOf (e : Event) : Z :=
  match e with
  | Check t | Sent t | Failed t | GaveUp t => t
  end.

(** The limiter, the time of the last event, the number of calls that were
    allowed and have not ended, and the times of the sends recorded
    (latest first). *)
Record State : Type := mkState {
  ledger : Ledger;
  time : Z;
  inFlight : Z;
  sends : list Z
}.

Definition start (l : Ledger) (t : Z) : State :=
  {| ledger := l; time := t; inFlight := 0; sends := [] |}.

Section Service.
Variable tz : Z.
Variable settings : AutomationSettings.t.

Definition perform (e : Event) (s : State) : State :=
  match e with
  | Check t =>
      let r := RateLimiter.canSendMessage tz settings t (ledger s) in
      {| ledger := snd r; time := t;
         inFlight := if allowed (fst r) then inFlight s + 1 else inFlight s;
         sends := sends s |}
  | Sent t =>
      {| ledger := RateLimiter.recordMessageSent t (ledger s); time := t;
         inFlight := inFlight s - 1; sends := t :: sends s |}
  | Failed t =>
      {| ledger := RateLimiter.recordMessageFailed (ledger s); time := t;
         inFlight := inFlight s - 1; sends := sends s |}
  | GaveUp t =>
      {| ledger := ledger s; time := t;
         inFlight := inFlight s - 1; sends := sends s |}
  end.

Definition run (es : list Event) (s : State) : State :=
  fold_left (fun s e => perform e s) es s.

(** The events are in order for at most [k] calls at once: time does not
    go back, a call ends only if one that was allowed is under way, and
    no more than [k] allowed calls are under way at any time. *)
Fixpoint orderly (k : Z) (es : list Event) (s : State) : Prop :=
  match es with
  | [] => True
  | e :: rest =>
      time s <= timeOf e
      /\ match e with
         | Check _ => True
         | _ => 0 < inFlight s
         end
      /\ inFlight (perform e s) <= k
      /\ orderly k rest (perform e s)
  end.

End Service.

(** How many of the times [ts] pass the test [f]. *)
Definition count (f : Z -> bool) (ts : list Z) : Z :=
  Z.of_nat (List.length (filter f ts)).

(** The counters of the limiter account for the sends [sends] at time
    [t]: the counters are not negative, the last send and the sends are not
    after [t], and at [t] or later the rolled hour counter is at least the
    number of sends less than an hour back, the rolled day counter at
    least the number of sends of that local day. *)
Definition accountsFor (tz t : Z) (s : MessageStats.t) (sends : list Z) : Prop :=
  0 <= MessageStats.messagesThisHour s
  /\ 0 <= MessageStats.messagesToday s
  /\ (forall last, newDate (MessageStats.lastSentAt s) = Some last -> last <= t)
  /\ (forall x, In x sends -> x <= t)
  /\ (forall now, t <= now ->
        count (fun x => now - JsDate.msPerHour <? x) sends
        <= MessageStats.messagesThisHour
             (RateLimiter.updateTimeBasedCounts tz now s))
  /\ (forall now, t <= now ->
        count (fun x => JsDate.Day (x + tz) =? JsDate.Day (now + tz)) sends
        <= MessageStats.messagesToday
             (RateLimiter.updateTimeBasedCounts tz now s)).

(** No more than [perHour] of the sends in any hour, no more than [perDay]
    on any local day. *)
Definition withinLimits (tz perHour perDay : Z) (sends : list Z) : Prop :=
  (forall a, count (fun x => (a <=? x) && (x <? a + JsDate.msPerHour)) sends
             <= perHour)
  /\ (forall d, count (fun x => JsDate.Day (x + tz) =? d) sends <= perDay).

(** What every event keeps, with at most [k] allowed calls under way: the
    counters account for the sends; a counter and the calls still to be
    recorded together stay within the limit and the [k - 1] calls that may
    have been allowed beside the one the limit counted on; and so do the
    sends of any hour and of any day. *)
Definition keepsAccount (tz : Z) (settings : AutomationSettings.t) (k : Z)
    (s : State) : Prop :=
  let limits := AutomationSettings.rateLimit settings in
  accountsFor tz (time s) (stats (ledger s)) (sends s)
  /\ 0 <= inFlight s
  /\ MessageStats.messagesThisHour (stats (ledger s)) + inFlight s
     <= RateLimit.messagesPerHour limits + k - 1
  /\ MessageStats.messagesToday (stats (ledger s)) + inFlight s
     <= RateLimit.messagesPerDay limits + k - 1
  /\ withinLimits tz (RateLimit.messagesPerHour limits + k - 1)
       (RateLimit.messagesPerDay limits + k - 1) (sends s).

End Usage.

(* ===================================================================== *)
(** * Concrete inputs *)
(* ===================================================================== *)

Module Samples.
Import Delivery.

(** 2024-11-01, UTC: 08:00, 10:50, 10:55, 12:00, 20:00 and 22:00; the day
    before at 22:00. *)
Definition at0800 : Z := 1730448000000.
Definition at1050 : Z := 1730458200000.
Definition at1055 : Z := 1730458500000.
Definition at1200 : Z := 1730462400000.
Definition at2000 : Z := 1730491200000.
Definition at2200 : Z := 1730498400000.
Definition eve2200 : Z := 1730412000000.

(** The default settings of [utils/storage.ts], with a sender name. *)
Definition settings : AutomationSettings.t :=
  {| AutomationSettings.enabled := true;
     AutomationSettings.rateLimit :=
       {| RateLimit.messagesPerHour := 5;
          RateLimit.messagesPerDay := 50;
          RateLimit.delayBetweenMessages := 60000 |};
     AutomationSettings.openaiApiKey := Some "sk-test";
     AutomationSettings.openaiModel := "gpt-4o-mini";
     AutomationSettings.messageVariation := true;
     AutomationSettings.retryAttempts := 3;
     AutomationSettings.senderName := Some "Ada" |}.

(** The policy of scenario A of the specification: one message an hour,
    five a day, no pacing. *)
Definition onePerHour : AutomationSettings.t :=
  {| AutomationSettings.enabled := true;
     AutomationSettings.rateLimit :=
       {| RateLimit.messagesPerHour := 1;
          RateLimit.messagesPerDay := 5;
          RateLimit.delayBetweenMessages := 0 |};
     AutomationSettings.openaiApiKey := Some "sk-test";
     AutomationSettings.openaiModel := "gpt-4o-mini";
     AutomationSettings.messageVariation := true;
     AutomationSettings.retryAttempts := 3;
     AutomationSettings.senderName := Some "Ada" |}.

Definition statsAt (sent failed today thisHour last : Z) : MessageStats.t :=
  {| MessageStats.totalSent := sent;
     MessageStats.totalFailed := failed;
     MessageStats.lastSentAt := DLDate (Some last);
     MessageStats.messagesToday := today;
     MessageStats.messagesThisHour := thisHour |}.

Definition ledgerOf (s : MessageStats.t) : RateLimiter.Ledger :=
  {| RateLimiter.stats := s; RateLimiter.stored := Some s |}.

(** Five messages by 10:50: the hour is used up. *)
Definition hourUsedUp : RateLimiter.Ledger := ledgerOf (statsAt 12 0 5 5 at1050).

(** Three messages by 08:00, nothing since. *)
Definition quietSince0800 : RateLimiter.Ledger := ledgerOf (statsAt 12 0 3 3 at0800).

(** Fifty messages by 10:50, five of them in the last hour: day and hour
    are both used up. *)
Definition bothUsedUp : RateLimiter.Ledger := ledgerOf (statsAt 50 0 50 5 at1050).

(** Fifty messages by 20:00, the last five in a row: the day is used up,
    and two hours later the hour is not. *)
Definition dayUsedUp : RateLimiter.Ledger := ledgerOf (statsAt 50 1 50 5 at2000).

Definition recipient (count : Z) (last : DateLike) : CustomerProfile.t :=
  {| CustomerProfile.id := "u-1";
     CustomerProfile.name := "Grace";
     CustomerProfile.email := None;
     CustomerProfile.country := Some "Canada";
     CustomerProfile.age := Some 31;
     CustomerProfile.ageGroup := Some Age26_35;
     CustomerProfile.interests := Some [AI; Startups];
     CustomerProfile.bio := None;
     CustomerProfile.profileUrl := "https://www.startupschool.org/users/u-1";
     CustomerProfile.collectedAt := DLDate (Some eve2200);
     CustomerProfile.lastMessageSent := last;
     CustomerProfile.messageCount := count |}.

Definition fresh : CustomerProfile.t := recipient 0 DLUndefined.

Definition worldAt (t : Z) (l : RateLimiter.Ledger) : World :=
  {| clock := t; openaiClient := Some "sk-test"; ledger := l;
     messageTemplates := []; messageHistory := []; profiles := [fresh];
     randomDraws := 0; trace := [] |}.

(** First use: nothing sent, nothing stored. *)
Definition firstUse : RateLimiter.Ledger :=
  {| RateLimiter.stats := RateLimiter.initialStats; RateLimiter.stored := None |}.

Definition chatAnswers (model prompt : string) : ChatOutcome :=
  ChatContent (Some "Loved your work on [Recipient] tooling.").

Definition chatDown (model prompt : string) : ChatOutcome :=
  ChatRejects (ErrorObject "429 Too Many Requests").

Definition latency (model prompt : string) : Z := 800.

Definition random36 (n : nat) : string := "k3j9x0q1z".

End Samples.

(* ===================================================================== *)
(** * More concrete inputs *)
(* ===================================================================== *)

Module MoreSamples.
Import Delivery.

(** No API key has been set: [initializeOpenAI] has not run. *)
Definition worldWithoutKey (t : Z) (l : RateLimiter.Ledger) : World :=
  {| clock := t; openaiClient := None; ledger := l;
     messageTemplates := []; messageHistory := []; profiles := [Samples.fresh];
     randomDraws := 0; trace := [] |}.

(** A [Math.random()] that draws one half each time. *)
Definition randomUnit (n : nat) : Q := 1 # 2.

(** Four sent in the hour, the last at 10:50. *)
Definition oneLeft : RateLimiter.Ledger :=
  Samples.ledgerOf (Samples.statsAt 12 0 4 4 Samples.at1050).

(** Two cycles of the timer a minute apart, each sending a minute after it
    asked: the second asks before the first has recorded. *)
Definition twoOverlapping : list Usage.Event :=
  [ Usage.Check Samples.at1055;
    Usage.Check (Samples.at1055 + 60000);
    Usage.Sent (Samples.at1055 + 60800);
    Usage.Sent (Samples.at1055 + 120800) ].

(** New York in the autumn of 2024: four hours west of UTC until
    2024-11-03 06:00 UTC (02:00 on the local clock, which then shows 01:00
    again), five hours from then on. *)
Definition newYork2024 : JsDate.Zone :=
  {| JsDate.offsetAt := fun t =>
       if t <? 1730613600000 then -14400000 else -18000000;
     JsDate.offsetOfLocal := fun local =>
       if local <? 1730599200000 then -14400000 else -18000000 |}.

End MoreSamples.

(* ===================================================================== *)
(** * Facts about dates *)
(* ===================================================================== *)

Section DateFacts.
Import JsDate.

Lemma yearOfEra_range (doe : Z) :
  0 <= doe <= 146096 -> 0 <= yearOfEra doe <= 399.
Proof. unfold yearOfEra. intros. Z.div_mod_to_equations. lia. Qed.

Lemma dayOfYear_range (doe : Z) :
  0 <= doe <= 146096 -> 0 <= dayOfYear doe (yearOfEra doe) <= 365.
Proof. unfold yearOfEra, dayOfYear. intros. Z.div_mod_to_equations. lia. Qed.

Lemma monthIndex_range (doy : Z) :
  0 <= doy <= 365 ->
  0 <= monthIndex doy <= 11
  /\ 1 <= doy - (153 * monthIndex doy + 2) / 5 + 1 <= 31.
Proof. unfold monthIndex. intros. Z.div_mod_to_equations. lia. Qed.

(** The calendar date of a day number is a date, and [days_from_civil]
    finds the day number again. *)
Lemma civil_from_days_spec (z : Z) :
  let c := civil_from_days z in
  1 <= snd (fst c) <= 12 /\ 1 <= snd c <= 31
  /\ days_from_civil (fst (fst c)) (snd (fst c)) (snd c) = z
  /\ (z + 719468) / 146097 * 400 <= fst (fst c)
     <= (z + 719468) / 146097 * 400 + 400.
Proof.
  unfold civil_from_days.
  set (z' := z + 719468).
  set (era := z' / 146097).
  set (doe := z' - era * 146097).
  assert (Hdoe : 0 <= doe <= 146096).
  { unfold doe, era. pose proof (Z.mod_pos_bound z' 146097 eq_refl).
    pose proof (Z.div_mod z' 146097). lia. }
  pose proof (yearOfEra_range Hdoe) as Hyoe.
  pose proof (dayOfYear_range Hdoe) as Hdoy.
  pose proof (monthIndex_range Hdoy) as [Hmp Hd].
  set (yoe := yearOfEra doe) in *.
  set (doy := dayOfYear doe yoe) in *.
  set (mp := monthIndex doy) in *.
  set (m := if mp <? 10 then mp + 3 else mp - 9).
  set (d := doy - (153 * mp + 2) / 5 + 1) in *.
  cbv zeta. cbn [fst snd].
  assert (Hm : 1 <= m <= 12)
    by (unfold m; destruct (Z.ltb_spec mp 10); lia).
  assert (Hmp' : (if 2 <? m then m - 3 else m + 9) = mp).
  { unfold m. destruct (Z.ltb_spec mp 10).
    - destruct (Z.ltb_spec 2 (mp + 3)); lia.
    - destruct (Z.ltb_spec 2 (mp - 9)); lia. }
  split; [exact Hm |]. split; [exact Hd |]. split.
  - unfold days_from_civil. cbv zeta.
    replace (yoe + era * 400 + (if m <=? 2 then 1 else 0)
             - (if m <=? 2 then 1 else 0)) with (yoe + era * 400) by lia.
    assert (Hera : (yoe + era * 400) / 400 = era).
    { symmetry. apply Z.div_unique with (r := yoe); lia. }
    rewrite Hera, Hmp'.
    replace (yoe + era * 400 - era * 400) with yoe by lia.
    unfold d, doy, dayOfYear. unfold doe, z'. lia.
  - destruct (m <=? 2); lia.
Qed.

Lemma digitVal_digitChar (d : Z) :
  0 <= d < 10 -> digitVal (digitChar d) = Some d.
Proof.
  intros H.
  assert (E : d = 0 \/ d = 1 \/ d = 2 \/ d = 3 \/ d = 4 \/ d = 5 \/ d = 6
              \/ d = 7 \/ d = 8 \/ d = 9) by lia.
  repeat (destruct E as [E | E]; [subst d; reflexivity |]).
  subst d; reflexivity.
Qed.

Lemma digitChar_not_sign (d : Z) :
  0 <= d < 10 ->
  Ascii.eqb (digitChar d) "+" = false /\ Ascii.eqb (digitChar d) "-" = false.
Proof.
  intros H.
  assert (E : d = 0 \/ d = 1 \/ d = 2 \/ d = 3 \/ d = 4 \/ d = 5 \/ d = 6
              \/ d = 7 \/ d = 8 \/ d = 9) by lia.
  repeat (destruct E as [E | E]; [subst d; split; reflexivity |]).
  subst d; split; reflexivity.
Qed.

(** Reading back the digits [padTo] wrote. *)
Lemma readDigits_padTo (k : nat) :
  forall j n acc rest, 0 <= n < 10 ^ Z.of_nat k ->
  readDigits (k + j) acc (padTo k n rest)
  = readDigits j (acc * 10 ^ Z.of_nat k + n) rest.
Proof.
  induction k as [| k IH]; intros j n acc rest Hn.
  - simpl in *. f_equal. lia.
  - rewrite Nat2Z.inj_succ, Z.pow_succ_r in Hn by lia.
    cbn [padTo].
    replace (S k + j)%nat with (k + S j)%nat by lia.
    rewrite IH by (Z.div_mod_to_equations; lia).
    cbn [readDigits].
    rewrite digitVal_digitChar by (apply Z.mod_pos_bound; lia).
    f_equal.
    rewrite Nat2Z.inj_succ, Z.pow_succ_r by lia.
    pose proof (Z.div_mod n 10). lia.
Qed.

Lemma readDigits_padTo_exact (k : nat) (n : Z) (rest : string) :
  0 <= n < 10 ^ Z.of_nat k ->
  readDigits k 0 (padTo k n rest) = Some (n, rest).
Proof.
  intros H. pose proof (readDigits_padTo k 0%nat 0 rest H) as E.
  rewrite Nat.add_0_r in E. rewrite E. simpl. reflexivity.
Qed.

Lemma readDigits_two (n : Z) (rest : string) :
  0 <= n <= 99 -> readDigits 2 0 (padTo 2 n rest) = Some (n, rest).
Proof.
  intros H. apply readDigits_padTo_exact. change (10 ^ Z.of_nat 2) with 100. lia.
Qed.

Lemma readDigits_three (n : Z) (rest : string) :
  0 <= n <= 999 -> readDigits 3 0 (padTo 3 n rest) = Some (n, rest).
Proof.
  intros H. apply readDigits_padTo_exact. change (10 ^ Z.of_nat 3) with 1000. lia.
Qed.

Lemma expect_same (c : ascii) (s : string) : expect c (String c s) = Some s.
Proof. unfold expect. rewrite Ascii.eqb_refl. reflexivity. Qed.

Lemma readYear_yearString (y : Z) (rest : string) :
  -999999 <= y <= 999999 -> readYear (yearString y rest) = Some (y, rest).
Proof.
  intros Hy. unfold yearString.
  destruct (Z.leb_spec 0 y) as [H0 | H0]; cbn [andb].
  - destruct (Z.leb_spec y 9999) as [H1 | H1].
    + assert (Hread : readDigits 4 0 (padTo 4 y rest) = Some (y, rest))
        by (apply readDigits_padTo_exact; change (10 ^ Z.of_nat 4) with 10000; lia).
      assert (Hs : exists d s', padTo 4 y rest = String (digitChar d) s'
                                /\ 0 <= d < 10).
      { eexists. eexists. split; [cbn [padTo]; reflexivity |].
        apply Z.mod_pos_bound. lia. }
      destruct Hs as (d & s' & Hs & Hd).
      destruct (digitChar_not_sign Hd) as [Hplus Hminus].
      unfold readYear. rewrite Hs, Hplus, Hminus, <- Hs. exact Hread.
    + destruct (Z.ltb_spec y 0) as [H2 | H2]; [lia |].
      unfold readYear. cbn [Ascii.eqb Bool.eqb].
      apply readDigits_padTo_exact. change (10 ^ Z.of_nat 6) with 1000000. lia.
  - destruct (Z.ltb_spec y 0) as [H2 | H2]; [| lia].
    unfold readYear. cbn [Ascii.eqb Bool.eqb].
    rewrite readDigits_padTo_exact
      by (change (10 ^ Z.of_nat 6) with 1000000; lia).
    destruct (Z.eqb_spec (- y) 0) as [E | E]; [lia |].
    rewrite Z.opp_involutive. reflexivity.
Qed.

(** Every time value in the range of [Date] has a year of at most six
    digits. *)
Lemma YearFromTime_range (t : Z) :
  validTime t = true -> -999999 <= YearFromTime t <= 999999.
Proof.
  unfold validTime, maxTime, YearFromTime. intros H.
  apply andb_prop in H as [Hlo Hhi].
  apply Z.leb_le in Hlo, Hhi.
  pose proof (civil_from_days_spec (Day t)) as (_ & _ & _ & Hy).
  cbv zeta in Hy. revert Hy. unfold Day, msPerDay.
  set (y := fst (fst (civil_from_days (t / 86400000)))).
  intros Hy. Z.div_mod_to_equations. lia.
Qed.

(** [Date.parse(x.toISOString())] is the time value of [x]. *)
Lemma parseISO_isoOfTime (t : Z) :
  validTime t = true -> parseISO (isoOfTime t) = Some t.
Proof.
  intros Hv.
  pose proof (YearFromTime_range t Hv) as Hy.
  pose proof (civil_from_days_spec (Day t)) as (Hm & Hd & Hback & _).
  cbv zeta in Hm, Hd, Hback.
  assert (Htwd : 0 <= TimeWithinDay t < msPerDay)
    by (apply Z.mod_pos_bound; reflexivity).
  assert (Hh : 0 <= HourFromTime t <= 23).
  { unfold HourFromTime, msPerHour, msPerDay in *. Z.div_mod_to_equations. lia. }
  assert (Hmi : 0 <= MinFromTime t <= 59).
  { unfold MinFromTime. pose proof (Z.mod_pos_bound (TimeWithinDay t / msPerMinute) 60). lia. }
  assert (Hs : 0 <= SecFromTime t <= 59).
  { unfold SecFromTime. pose proof (Z.mod_pos_bound (TimeWithinDay t / msPerSecond) 60). lia. }
  assert (Hms : 0 <= msFromTime t <= 999).
  { unfold msFromTime. pose proof (Z.mod_pos_bound (TimeWithinDay t) 1000). lia. }
  assert (Htime : MakeTime (HourFromTime t) (MinFromTime t) (SecFromTime t)
                    (msFromTime t) = TimeWithinDay t).
  { unfold MakeTime, HourFromTime, MinFromTime, SecFromTime, msFromTime,
      msPerHour, msPerMinute, msPerSecond, msPerDay in *.
    Z.div_mod_to_equations. lia. }
  unfold isoOfTime, parseISO.
  rewrite readYear_yearString by exact Hy. cbn [bind].
  rewrite expect_same. cbn [bind].
  rewrite readDigits_two by (unfold MonthFromTime; lia). cbn [bind].
  rewrite expect_same. cbn [bind].
  rewrite readDigits_two by (unfold DateFromTime; lia). cbn [bind].
  rewrite expect_same. cbn [bind].
  rewrite readDigits_two by lia. cbn [bind].
  rewrite expect_same. cbn [bind].
  rewrite readDigits_two by lia. cbn [bind].
  rewrite expect_same. cbn [bind].
  rewrite readDigits_two by lia. cbn [bind].
  rewrite expect_same. cbn [bind].
  rewrite readDigits_three by lia. cbn [bind].
  rewrite expect_same. cbn [bind].
  unfold MonthFromTime, DateFromTime in *.
  replace (1 <=? snd (fst (civil_from_days (Day t))) - 1 + 1) with true
    by (symmetry; apply Z.leb_le; lia).
  replace (snd (fst (civil_from_days (Day t))) - 1 + 1 <=? 12) with true
    by (symmetry; apply Z.leb_le; lia).
  replace (1 <=? snd (civil_from_days (Day t))) with true
    by (symmetry; apply Z.leb_le; lia).
  replace (snd (civil_from_days (Day t)) <=? 31) with true
    by (symmetry; apply Z.leb_le; lia).
  replace (HourFromTime t <=? 23) with true by (symmetry; apply Z.leb_le; lia).
  replace (MinFromTime t <=? 59) with true by (symmetry; apply Z.leb_le; lia).
  replace (SecFromTime t <=? 59) with true by (symmetry; apply Z.leb_le; lia).
  cbn [andb]. f_equal.
  rewrite Htime.
  replace (snd (fst (civil_from_days (Day t))) - 1 + 1)
    with (snd (fst (civil_from_days (Day t)))) by lia.
  unfold YearFromTime. rewrite Hback.
  unfold MakeDate, Day, TimeWithinDay.
  pose proof (Z.div_mod t msPerDay). unfold msPerDay in *. lia.
Qed.

Lemma parse_toISOString (t : Z) :
  validTime t = true ->
  option_map parse (toISOString (Some t)) = Some (Some t).
Proof.
  intros Hv. cbn [toISOString option_map]. unfold parse.
  rewrite parseISO_isoOfTime by exact Hv. cbn [bind].
  unfold TimeClip. rewrite Hv. reflexivity.
Qed.

End DateFacts.

(* ===================================================================== *)
(** * The rate limiter *)
(* ===================================================================== *)

Section LimiterFacts.
Import RateLimiter MessageStats.
Variable tz : Z.

Lemma isDifferentHour_spec (t1 t2 : Z) :
  isDifferentHour (Some t1) (Some t2) = (JsDate.msPerHour <=? Z.abs (t1 - t2)).
Proof.
  unfold isDifferentHour, JsDate.msPerHour.
  destruct (Z.leb_spec 3600000 (Z.abs (t1 - t2))) as [H | H].
  - apply Qle_bool_iff. unfold Qle, Qdiv, Qmult, Qinv, inject_Z. simpl. lia.
  - destruct (Qle_bool _ _) eqn:E; [| reflexivity].
    apply Qle_bool_iff in E. revert E.
    unfold Qle, Qdiv, Qmult, Qinv, inject_Z. simpl. lia.
Qed.

Lemma updateTimeBasedCounts_idempotent (now : Z) (s : MessageStats.t) :
  updateTimeBasedCounts tz now (updateTimeBasedCounts tz now s)
  = updateTimeBasedCounts tz now s.
Proof.
  unfold updateTimeBasedCounts. cbn [lastSentAt messagesToday messagesThisHour
    totalSent totalFailed].
  destruct (truthy (lastSentAt s)); [| reflexivity].
  destruct (isDifferentDay tz (Some now) (newDate (lastSentAt s)));
    destruct (isDifferentHour (Some now) (newDate (lastSentAt s))); reflexivity.
Qed.

Lemma updateTimeBasedCounts_frame (now : Z) (s : MessageStats.t) :
  let s' := updateTimeBasedCounts tz now s in
  totalSent s' = totalSent s /\ totalFailed s' = totalFailed s
  /\ lastSentAt s' = lastSentAt s
  /\ (messagesToday s' = messagesToday s \/ messagesToday s' = 0)
  /\ (messagesThisHour s' = messagesThisHour s \/ messagesThisHour s' = 0).
Proof.
  unfold updateTimeBasedCounts. cbn [lastSentAt messagesToday messagesThisHour
    totalSent totalFailed].
  destruct (truthy (lastSentAt s)); [| tauto].
  destruct (isDifferentDay tz (Some now) (newDate (lastSentAt s)));
    destruct (isDifferentHour (Some now) (newDate (lastSentAt s))); tauto.
Qed.

Lemma canSendMessage_ledger (settings : AutomationSettings.t) (now : Z) (l : Ledger) :
  snd (canSendMessage tz settings now l)
  = {| stats := updateTimeBasedCounts tz now (stats l); stored := stored l |}.
Proof.
  unfold canSendMessage.
  destruct (_ <=? messagesToday _); [reflexivity |].
  destruct (_ <=? messagesThisHour _); reflexivity.
Qed.

(** The time to the next clock hour of the host. *)
Lemma getTimeUntilNextHour_spec (now : Z) :
  getTimeUntilNextHour tz now
  = JsDate.msPerHour - (now + tz) mod JsDate.msPerHour.
Proof.
  unfold getTimeUntilNextHour, JsDate.startOfNextHour, JsDate.UTC,
    JsDate.MakeDate, JsDate.MakeTime, JsDate.getHours, JsDate.HourFromTime,
    JsDate.TimeWithinDay, JsDate.Day, JsDate.LocalTime,
    JsDate.msPerDay, JsDate.msPerHour, JsDate.msPerMinute, JsDate.msPerSecond.
  Z.div_mod_to_equations. lia.
Qed.

(** The time to the next midnight of the host. *)
Lemma getTimeUntilNextDay_spec (now : Z) :
  getTimeUntilNextDay tz now
  = JsDate.msPerDay - (now + tz) mod JsDate.msPerDay.
Proof.
  unfold getTimeUntilNextDay, JsDate.startOfNextDay, JsDate.UTC,
    JsDate.MakeDate, JsDate.Day, JsDate.LocalTime, JsDate.msPerDay.
  Z.div_mod_to_equations. lia.
Qed.

End LimiterFacts.

(** The definitions at a fixed offset are those for any zone, at the zone
    that keeps that offset. *)
Lemma startOfNextHourIn_fixedOffset (tz t : Z) :
  JsDate.startOfNextHourIn (JsDate.fixedOffset tz) t = JsDate.startOfNextHour tz t.
Proof. reflexivity. Qed.

Lemma startOfNextDayIn_fixedOffset (tz t : Z) :
  JsDate.startOfNextDayIn (JsDate.fixedOffset tz) t = JsDate.startOfNextDay tz t.
Proof.
  unfold JsDate.startOfNextDayIn, JsDate.startOfNextDay, JsDate.LocalTimeIn,
    JsDate.UTCIn, JsDate.fixedOffset, JsDate.LocalTime, JsDate.UTC,
    JsDate.MakeDate, JsDate.MakeTime, JsDate.Day, JsDate.TimeWithinDay,
    JsDate.msPerDay, JsDate.msPerHour, JsDate.msPerMinute, JsDate.msPerSecond.
  cbn [JsDate.offsetAt JsDate.offsetOfLocal].
  Z.div_mod_to_equations. lia.
Qed.

(** Where the offset changes, the next clock hour and the next midnight can
    be further away than an hour and a day.  In New York on 2024-11-03, as
    daylight saving ends: from 01:30 (05:30 UTC) the clock next shows a
    full hour at 02:00 standard time, an hour and a half later; from 00:30
    (04:30 UTC) the next midnight is 24 hours and a half away. *)
Example next_hour_as_daylight_saving_ends :
  JsDate.startOfNextHourIn MoreSamples.newYork2024 1730611800000 - 1730611800000
  = 5400000.
Proof. reflexivity. Qed.

Example next_day_as_daylight_saving_ends :
  JsDate.startOfNextDayIn MoreSamples.newYork2024 1730608200000 - 1730608200000
  = 88200000.
Proof. reflexivity. Qed.

Import RateLimiter.

(** C1.  For every ledger and every settings, [canSendMessage] checks the
    day before the hour.  With the counters as the rollover at the time of
    the call leaves them (the values the checks read): a day counter at or
    above [messagesPerDay] denies with the daily reason, whatever the hour
    counter; below it, an hour counter at or above [messagesPerHour]
    denies with the hourly reason; otherwise the send is allowed. *)
Theorem canSendMessage_daily_then_hourly
    (tz : Z) (settings : AutomationSettings.t) (now : Z) (l : Ledger) :
  let s := updateTimeBasedCounts tz now (stats l) in
  let r := fst (canSendMessage tz settings now l) in
  let perDay := RateLimit.messagesPerDay (AutomationSettings.rateLimit settings) in
  let perHour := RateLimit.messagesPerHour (AutomationSettings.rateLimit settings) in
  (MessageStats.messagesToday s >= perDay ->
     r = {| allowed := false;
            reason := Some "Daily message limit reached";
            waitTime := Some (getTimeUntilNextDay tz now) |})
  /\ (MessageStats.messagesToday s < perDay ->
      MessageStats.messagesThisHour s >= perHour ->
     r = {| allowed := false;
            reason := Some "Hourly message limit reached";
            waitTime := Some (getTimeUntilNextHour tz now) |})
  /\ (MessageStats.messagesToday s < perDay ->
      MessageStats.messagesThisHour s < perHour ->
     r = {| allowed := true; reason := None; waitTime := None |}).
Proof.
  cbv zeta. unfold canSendMessage.
  destruct (Z.leb_spec
              (RateLimit.messagesPerDay (AutomationSettings.rateLimit settings))
              (MessageStats.messagesToday (updateTimeBasedCounts tz now (stats l))))
    as [Hd | Hd].
  - repeat split; intros; try lia; reflexivity.
  - destruct (Z.leb_spec
                (RateLimit.messagesPerHour (AutomationSettings.rateLimit settings))
                (MessageStats.messagesThisHour
                   (updateTimeBasedCounts tz now (stats l))))
      as [Hh | Hh]; repeat split; intros; try lia; reflexivity.
Qed.

(** At 10:55, with day and hour both used up, the denial is the daily
    one, with the 13 h 05 min to midnight as the wait. *)
Lemma canSendMessage_daily_then_hourly_witness :
  fst (canSendMessage 0 Samples.settings Samples.at1055 Samples.bothUsedUp)
  = {| allowed := false;
       reason := Some "Daily message limit reached";
       waitTime := Some 47100000 |}.
Proof.
  apply (proj1 (canSendMessage_daily_then_hourly 0 Samples.settings
                  Samples.at1055 Samples.bothUsedUp)).
  vm_compute. discriminate.
Defined.

(** C5, as the specification states it, fails: five minutes after a send
    at 10:50 that used up the hour, the wait returned is the 5 minutes to
    11:00, not the 55 minutes until an hour has passed since the send. *)
Lemma waitTime_not_anchored_on_lastSentAt :
  let l := Samples.hourUsedUp in
  let r := fst (canSendMessage 0 Samples.settings Samples.at1055 l) in
  MessageStats.lastSentAt (stats l) = DLDate (Some Samples.at1050)
  /\ Samples.at1055 - JsDate.msPerHour < Samples.at1050 <= Samples.at1055
  /\ reason r = Some "Hourly message limit reached"
  /\ waitTime r = Some 300000
  /\ waitTime r <> Some (Samples.at1050 + JsDate.msPerHour - Samples.at1055).
Proof.
  vm_compute. repeat split; discriminate.
Qed.

(** C5, amended.  On a host that keeps one offset from UTC ([tz], the zone
    [fixedOffset tz]): whenever [canSendMessage] denies for the hourly
    limit, the wait it returns is the time to the next full clock hour of
    the host: more than 0 and at most one hour, ending on a clock hour, and
    not depending on [lastSentAt].  (Where the offset changes the wait can
    be longer than an hour: [next_hour_as_daylight_saving_ends].) *)
Theorem hourly_waitTime_until_next_clock_hour
    (tz : Z) (settings : AutomationSettings.t) (now : Z) (l : Ledger) :
  reason (fst (canSendMessage tz settings now l))
    = Some "Hourly message limit reached" ->
  let w := JsDate.msPerHour - (now + tz) mod JsDate.msPerHour in
  waitTime (fst (canSendMessage tz settings now l)) = Some w
  /\ w = JsDate.startOfNextHourIn (JsDate.fixedOffset tz) now - now
  /\ 0 < w <= JsDate.msPerHour
  /\ (now + w + tz) mod JsDate.msPerHour = 0.
Proof.
  cbv zeta. unfold canSendMessage.
  destruct (_ <=? MessageStats.messagesToday _); cbn [fst reason waitTime].
  - discriminate.
  - destruct (_ <=? MessageStats.messagesThisHour _); cbn [fst reason waitTime].
    + intros _. rewrite getTimeUntilNextHour_spec.
      split; [reflexivity |].
      split.
      { rewrite startOfNextHourIn_fixedOffset.
        rewrite <- getTimeUntilNextHour_spec. reflexivity. }
      unfold JsDate.msPerHour.
      Z.div_mod_to_equations. lia.
    + discriminate.
Qed.

Lemma hourly_waitTime_until_next_clock_hour_witness :
  waitTime (fst (canSendMessage 0 Samples.settings Samples.at1055
                   Samples.hourUsedUp)) = Some 300000.
Proof.
  apply (hourly_waitTime_until_next_clock_hour 0 Samples.settings
           Samples.at1055 Samples.hourUsedUp).
  reflexivity.
Defined.

(** C6, as the specification states it, fails: at 10:55, for a limiter
    whose last send was at 08:00, [canSendMessage] answers and leaves the
    hour counter in memory at 0 where it was 3. *)
Lemma canSendMessage_rolls_counters_in_memory :
  let l := Samples.quietSince0800 in
  let l' := snd (canSendMessage 0 Samples.settings Samples.at1055 l) in
  MessageStats.messagesThisHour (stats l) = 3
  /\ MessageStats.messagesThisHour (stats l') = 0
  /\ stats l' <> stats l.
Proof.
  vm_compute. repeat split; discriminate.
Qed.

(** C6, amended.  [canSendMessage] never touches the stored statistics, nor
    [totalSent], [totalFailed] and [lastSentAt] in memory; the two window
    counters in memory become what the rollover at the time of the call
    makes of them (each unchanged or zero), and are unchanged where they
    were current, so that [getStats] reports at that time what it would
    have reported without the call.  A second call at the same time
    returns the same answer and changes nothing more. *)
Theorem canSendMessage_frame
    (tz : Z) (settings : AutomationSettings.t) (now : Z) (l : Ledger) :
  let r := fst (canSendMessage tz settings now l) in
  let l' := snd (canSendMessage tz settings now l) in
  stored l' = stored l
  /\ stats l' = updateTimeBasedCounts tz now (stats l)
  /\ MessageStats.totalSent (stats l') = MessageStats.totalSent (stats l)
  /\ MessageStats.totalFailed (stats l') = MessageStats.totalFailed (stats l)
  /\ MessageStats.lastSentAt (stats l') = MessageStats.lastSentAt (stats l)
  /\ (MessageStats.messagesToday (stats l') = MessageStats.messagesToday (stats l)
      \/ MessageStats.messagesToday (stats l') = 0)
  /\ (MessageStats.messagesThisHour (stats l') = MessageStats.messagesThisHour (stats l)
      \/ MessageStats.messagesThisHour (stats l') = 0)
  /\ (updateTimeBasedCounts tz now (stats l) = stats l -> l' = l)
  /\ fst (getStats tz now l') = fst (getStats tz now l)
  /\ canSendMessage tz settings now l' = (r, l').
Proof.
  cbv zeta. rewrite canSendMessage_ledger. cbn [stats stored].
  pose proof (updateTimeBasedCounts_frame tz now (stats l)) as F.
  cbv zeta in F. destruct F as (F1 & F2 & F3 & F4 & F5).
  repeat split; try assumption.
  { intros E. rewrite E. destruct l; reflexivity. }
  { unfold getStats. cbn [fst stats].
    apply updateTimeBasedCounts_idempotent. }
  unfold canSendMessage. cbn [stats stored].
  rewrite updateTimeBasedCounts_idempotent.
  destruct (_ <=? MessageStats.messagesToday _); [reflexivity |].
  destruct (_ <=? MessageStats.messagesThisHour _); reflexivity.
Qed.

Lemma updateTimeBasedCounts_inOrder (tz now : Z) (s : MessageStats.t) :
  countersInOrder s -> countersInOrder (updateTimeBasedCounts tz now s).
Proof.
  unfold countersInOrder. intros H.
  pose proof (updateTimeBasedCounts_frame tz now s) as F. cbv zeta in F.
  destruct F as (F1 & _ & _ & F4 & F5). rewrite F1.
  destruct F4 as [-> | ->]; destruct F5 as [-> | ->]; lia.
Qed.

Lemma step_inOrder (tz : Z) (l l' : Ledger) :
  step tz l l' -> ledgerInOrder l -> ledgerInOrder l'.
Proof.
  intros Hstep [Hmem Hdisk]. destruct Hstep.
  - (* recordMessageSent *)
    assert (G : countersInOrder (stats (recordMessageSent now l))).
    { unfold countersInOrder in *. cbn. lia. }
    split; [exact G |]. intros s E. cbn in E. injection E as <-. exact G.
  - (* recordMessageFailed *)
    assert (G : countersInOrder (stats (recordMessageFailed l))).
    { unfold countersInOrder in *. cbn. lia. }
    split; [exact G |]. intros s E. cbn in E. injection E as <-. exact G.
  - (* getStats *)
    split; [| exact Hdisk]. cbn. apply updateTimeBasedCounts_inOrder, Hmem.
  - (* canSendMessage *)
    rewrite canSendMessage_ledger.
    split; [| exact Hdisk]. cbn. apply updateTimeBasedCounts_inOrder, Hmem.
  - (* resetStats *)
    assert (G : countersInOrder initialStats) by (unfold countersInOrder; cbn; lia).
    split; [exact G |]. intros s E. cbn in E. injection E as <-. exact G.
  - (* a new limiter *)
    split; [unfold countersInOrder; cbn; lia | exact Hdisk].
  - (* loadStats *)
    unfold loadStats.
    destruct (stored l) as [theirs |] eqn:E.
    2:{ split; [exact Hmem |]. intros s Es. rewrite E in Es. discriminate. }
    split; [| exact Hdisk].
    cbn [stats]. apply updateTimeBasedCounts_inOrder.
    specialize (Hdisk theirs eq_refl). unfold countersInOrder in *. cbn. lia.
  - (* clearStorage *)
    split; [exact Hmem |]. intros s Es. discriminate.
Qed.

Lemma reachable_inOrder (tz : Z) (l : Ledger) :
  reachable tz l -> ledgerInOrder l.
Proof.
  induction 1 as [| l l' _ IH Hstep].
  - split; [unfold countersInOrder; cbn; lia | intros s E; discriminate].
  - exact (step_inOrder Hstep IH).
Qed.

(** C7.  [messagesThisHour <= totalSent] and [messagesToday <= totalSent]
    hold for the zero statistics of first use; every operation of the
    ledger (recording a send or a failure, the rollover of [getStats] and
    [canSendMessage], the reset, a new limiter and its load of the stored
    statistics, the wipe of the storage), applied in a reachable state,
    gives a state where they hold; so they hold in every reachable state,
    in memory and in storage. *)
Theorem windowsWithinTotal_always (tz : Z) :
  windowsWithinTotal initialStats
  /\ (forall l l', reachable tz l -> step tz l l' ->
        windowsWithinTotal (stats l'))
  /\ (forall l, reachable tz l ->
        windowsWithinTotal (stats l)
        /\ forall s, stored l = Some s -> windowsWithinTotal s).
Proof.
  assert (W : forall s, countersInOrder s -> windowsWithinTotal s)
    by (unfold countersInOrder, windowsWithinTotal; intros; lia).
  split; [unfold windowsWithinTotal; cbn; lia |]. split.
  - intros l l' Hr Hs. apply W.
    exact (proj1 (reachable_inOrder (ReachStep Hr Hs))).
  - intros l Hr. destruct (reachable_inOrder Hr) as [Hmem Hdisk].
    split; [apply W, Hmem |]. intros s E. apply W, Hdisk, E.
Qed.

(** After a first send at 08:00 and a look at the limits at 10:55 the
    counters are within the total. *)
Lemma windowsWithinTotal_always_witness :
  windowsWithinTotal
    (stats (snd (canSendMessage 0 Samples.settings Samples.at1055
                   (recordMessageSent Samples.at0800
                      {| stats := initialStats; stored := None |})))).
Proof.
  apply (proj1 (proj2 (windowsWithinTotal_always 0))
           (recordMessageSent Samples.at0800
              {| stats := initialStats; stored := None |})).
  - eapply ReachStep; [apply ReachInitial | apply StepSent].
  - apply StepCanSend.
Defined.

(* ===================================================================== *)
(** * The eligibility test *)
(* ===================================================================== *)

Import Eligibility.

Lemma sevenDays_spec (x : Z) :
  Qle_bool 7 (inject_Z x / inject_Z (1000 * 60 * 60 * 24)) = (7 * JsDate.msPerDay <=? x).
Proof.
  unfold JsDate.msPerDay.
  destruct (Z.leb_spec (7 * 86400000) x) as [H | H].
  - apply Qle_bool_iff. unfold Qle, Qdiv, Qmult, Qinv, inject_Z. simpl. lia.
  - destruct (Qle_bool _ _) eqn:E; [| reflexivity].
    apply Qle_bool_iff in E. revert E.
    unfold Qle, Qdiv, Qmult, Qinv, inject_Z. simpl. lia.
Qed.

Lemma isEligible_spec (now : Z) (p : CustomerProfile.t) :
  isEligible now p = true
  <-> CustomerProfile.messageCount p = 0
      \/ truthy (CustomerProfile.lastMessageSent p) = false
      \/ exists last, newDate (CustomerProfile.lastMessageSent p) = Some last
                      /\ now - last >= 7 * JsDate.msPerDay.
Proof.
  unfold isEligible, daysSinceLastMessage.
  destruct (Z.eqb_spec (CustomerProfile.messageCount p) 0) as [E | E];
    [tauto |].
  destruct (truthy (CustomerProfile.lastMessageSent p)); cbn [negb];
    [| intuition].
  destruct (newDate (CustomerProfile.lastMessageSent p)) as [last |].
  - rewrite sevenDays_spec, Z.leb_le. split.
    + intros H. right. right. exists last. split; [reflexivity | lia].
    + intros [H | [H | (x & Hx & H)]]; [contradiction | discriminate |].
      injection Hx as <-. lia.
  - split; [discriminate |].
    intros [H | [H | (x & Hx & H)]]; [contradiction | discriminate | discriminate].
Qed.

(** C8, as the specification states it, fails for a cooldown other than
    seven days: a recipient contacted three days ago is not eligible,
    though three days are more than a cooldown of one day. *)
Lemma isEligible_ignores_other_cooldowns :
  let cooldownPerRecipient := 1 * JsDate.msPerDay in
  let last := Samples.at1055 - 3 * JsDate.msPerDay in
  let p := Samples.recipient 2 (DLDate (Some last)) in
  isEligible Samples.at1055 p = false
  /\ Samples.at1055 - last >= cooldownPerRecipient
  /\ ~ (isEligible Samples.at1055 p = true
        <-> CustomerProfile.messageCount p = 0
            \/ CustomerProfile.lastMessageSent p = DLUndefined
            \/ Samples.at1055 - last >= cooldownPerRecipient).
Proof.
  cbv zeta. split; [reflexivity |]. split; [vm_compute; discriminate |].
  intros [_ H].
  assert (E : isEligible Samples.at1055
                (Samples.recipient 2
                   (DLDate (Some (Samples.at1055 - 3 * JsDate.msPerDay)))) = false)
    by reflexivity.
  rewrite H in E; [discriminate |].
  right. right. vm_compute. discriminate.
Qed.

(** C8, amended.  The cooldown is the constant of seven days (there is no
    [cooldownPerRecipient] setting).  For every recipient the eligibility
    test is true exactly when [messageCount] is 0, or [lastMessageSent] is
    absent (falsy), or seven days or more have passed since it.  So it is
    true for a recipient never contacted, and for one contacted at [last]
    it is false before [last] plus seven days and true from that very
    millisecond on. *)
Theorem isEligible_seven_day_cooldown (now : Z) (p : CustomerProfile.t) :
  (isEligible now p = true
   <-> CustomerProfile.messageCount p = 0
       \/ truthy (CustomerProfile.lastMessageSent p) = false
       \/ exists last, newDate (CustomerProfile.lastMessageSent p) = Some last
                       /\ now - last >= 7 * JsDate.msPerDay)
  /\ (CustomerProfile.lastMessageSent p = DLUndefined -> isEligible now p = true)
  /\ (forall last,
        CustomerProfile.messageCount p <> 0 ->
        CustomerProfile.lastMessageSent p = DLDate (Some last) ->
        (now - last < 7 * JsDate.msPerDay -> isEligible now p = false)
        /\ (now - last = 7 * JsDate.msPerDay -> isEligible now p = true)
        /\ (now - last >= 7 * JsDate.msPerDay -> isEligible now p = true)).
Proof.
  split; [apply isEligible_spec |]. split.
  - intros E. apply isEligible_spec. right. left. rewrite E. reflexivity.
  - intros last Hc Hl.
    assert (R : isEligible now p = (7 * JsDate.msPerDay <=? now - last)).
    { unfold isEligible, daysSinceLastMessage. rewrite Hl. cbn [truthy negb newDate].
      destruct (Z.eqb_spec (CustomerProfile.messageCount p) 0); [contradiction |].
      apply sevenDays_spec. }
    rewrite R. repeat split; intros H.
    + apply Z.leb_gt. lia.
    + apply Z.leb_le. lia.
    + apply Z.leb_le. lia.
Qed.

(** A recipient contacted exactly seven days before 10:55 is eligible at
    10:55. *)
Lemma isEligible_seven_day_cooldown_witness :
  isEligible Samples.at1055
    (Samples.recipient 2 (DLDate (Some (Samples.at1055 - 7 * JsDate.msPerDay))))
  = true.
Proof.
  refine (proj1 (proj2 (proj2 (proj2
            (isEligible_seven_day_cooldown Samples.at1055
               (Samples.recipient 2
                  (DLDate (Some (Samples.at1055 - 7 * JsDate.msPerDay))))))
            (Samples.at1055 - 7 * JsDate.msPerDay) _ _)) _).
  - cbn. discriminate.
  - reflexivity.
  - vm_compute. reflexivity.
Defined.

(* ===================================================================== *)
(** * Serialisation of profiles *)
(* ===================================================================== *)

Import Serialization.

Lemma padTo_truthy (k : nat) :
  forall n rest, truthyString rest = true -> truthyString (JsDate.padTo k n rest) = true.
Proof.
  induction k as [| k IH]; intros n rest H; [exact H |].
  cbn [JsDate.padTo]. apply IH. reflexivity.
Qed.

Lemma isoOfTime_truthy (t : Z) : truthyString (JsDate.isoOfTime t) = true.
Proof.
  unfold JsDate.isoOfTime, JsDate.yearString.
  destruct (_ && _); [apply padTo_truthy; reflexivity |].
  destruct (_ <? 0); reflexivity.
Qed.

Lemma newDate_isoOfTime (t : Z) :
  JsDate.validTime t = true -> newDate (DLString (JsDate.isoOfTime t)) = Some t.
Proof.
  intros Hv. cbn [newDate]. unfold JsDate.parse.
  rewrite parseISO_isoOfTime by exact Hv. cbn [JsDate.bind].
  unfold JsDate.TimeClip. rewrite Hv. reflexivity.
Qed.

Lemma deserializeDate_iso (t : Z) :
  JsDate.validTime t = true ->
  truthy (DLString (JsDate.isoOfTime t)) = true
  /\ deserializeDate (DLString (JsDate.isoOfTime t)) = DLDate (Some t).
Proof.
  intros Hv. split; [apply isoOfTime_truthy |].
  unfold deserializeDate. rewrite newDate_isoOfTime by exact Hv. reflexivity.
Qed.

Lemma orZero_id (n : Z) : orZero n = n.
Proof. unfold orZero. destruct (Z.eqb_spec n 0); congruence. Qed.

Lemma copyArray_id {A} (xs : option (list A)) : copyArray xs = xs.
Proof. destruct xs; [cbn; rewrite map_id |]; reflexivity. Qed.

(** C9.  For every recipient with valid timestamps ([collectedAt] a valid
    [Date], [lastMessageSent] absent or a valid [Date]) [serializeProfile]
    does not throw and [deserializeProfile] of its result is the recipient
    again, field for field, both timestamps included; whatever the clock
    shows at either call. *)
Theorem deserialize_serialize_roundtrip
    (now now' : Z) (p : CustomerProfile.t) :
  wellFormed p = true ->
  option_map (deserializeProfile now') (serializeProfile now p) = Some p.
Proof.
  destruct p as [pid pname pemail pcountry page pgroup pinterests pbio purl
                   pcollected plast pcount].
  unfold wellFormed. cbn [CustomerProfile.collectedAt CustomerProfile.lastMessageSent].
  intros H. apply andb_prop in H as [Hc Hl].
  destruct pcollected as [[tc |] | | |]; try discriminate Hc.
  cbn [validDate] in Hc.
  destruct (deserializeDate_iso tc Hc) as [Tc Dc].
  assert (L : exists v,
             serializeLastMessageSent plast = Some v
             /\ (if truthy v then deserializeDate v else DLUndefined) = plast).
  { destruct plast as [[tl |] | | |]; try discriminate Hl.
    - cbn [validDate] in Hl. destruct (deserializeDate_iso tl Hl) as [Tl Dl].
      exists (DLString (JsDate.isoOfTime tl)). split; [reflexivity |].
      rewrite Tl. exact Dl.
    - exists DLUndefined. split; reflexivity. }
  destruct L as (v & Sv & Dv).
  unfold serializeProfile.
  cbn [CustomerProfile.collectedAt CustomerProfile.lastMessageSent
       serializeCollectedAt JsDate.toISOString].
  rewrite Sv. cbn [option_map]. unfold deserializeProfile.
  cbn [CustomerProfile.id CustomerProfile.name CustomerProfile.email
       CustomerProfile.country CustomerProfile.age CustomerProfile.ageGroup
       CustomerProfile.interests CustomerProfile.bio CustomerProfile.profileUrl
       CustomerProfile.collectedAt CustomerProfile.lastMessageSent
       CustomerProfile.messageCount].
  rewrite Tc, Dc, Dv, !orZero_id, !copyArray_id. reflexivity.
Qed.

(** A recipient collected the evening before and last contacted at 08:00
    comes back from the round trip as it was. *)
Lemma deserialize_serialize_roundtrip_witness :
  option_map (deserializeProfile Samples.at1200)
    (serializeProfile Samples.at1055
       (Samples.recipient 2 (DLDate (Some Samples.at0800))))
  = Some (Samples.recipient 2 (DLDate (Some Samples.at0800))).
Proof.
  apply (deserialize_serialize_roundtrip Samples.at1055 Samples.at1200
           (Samples.recipient 2 (DLDate (Some Samples.at0800)))).
  vm_compute. reflexivity.
Defined.

(** X23.  The version of [serializeProfile] with [safeDate] makes the same
    round trip: for a recipient with valid timestamps, [deserializeProfile]
    of what it returns is the recipient again, whatever the clock shows at
    either call. *)
Lemma deserialize_serializeSafe_roundtrip
    (now now' : Z) (p : CustomerProfile.t) :
  wellFormed p = true ->
  deserializeProfile now' (serializeProfileSafe now p) = p.
Proof.
  destruct p as [pid pname pemail pcountry page pgroup pinterests pbio purl
                   pcollected plast pcount].
  unfold wellFormed. cbn [CustomerProfile.collectedAt CustomerProfile.lastMessageSent].
  intros H. apply andb_prop in H as [Hc Hl].
  destruct pcollected as [[tc |] | | |]; try discriminate Hc.
  cbn [validDate] in Hc.
  destruct (deserializeDate_iso tc Hc) as [Tc Dc].
  unfold serializeProfileSafe, deserializeProfile.
  cbn [CustomerProfile.id CustomerProfile.name CustomerProfile.email
       CustomerProfile.country CustomerProfile.age CustomerProfile.ageGroup
       CustomerProfile.interests CustomerProfile.bio CustomerProfile.profileUrl
       CustomerProfile.collectedAt CustomerProfile.lastMessageSent
       CustomerProfile.messageCount safeDate].
  rewrite Tc, Dc, !orZero_id, !copyArray_id.
  destruct plast as [[tl |] | | |]; try discriminate Hl.
  - cbn [validDate] in Hl. destruct (deserializeDate_iso tl Hl) as [Tl Dl].
    cbn [safeDate]. rewrite Tl, Dl. reflexivity.
  - reflexivity.
Qed.

Lemma deserialize_serializeSafe_roundtrip_witness :
  deserializeProfile Samples.at1200
    (serializeProfileSafe Samples.at1055
       (Samples.recipient 2 (DLDate (Some Samples.at0800))))
  = Samples.recipient 2 (DLDate (Some Samples.at0800)).
Proof.
  apply (deserialize_serializeSafe_roundtrip Samples.at1055 Samples.at1200
           (Samples.recipient 2 (DLDate (Some Samples.at0800)))).
  vm_compute. reflexivity.
Defined.

(* ===================================================================== *)
(** * The delivery service *)
(* ===================================================================== *)

Section DeliveryFacts.
Import Delivery.
Variable tz : Z.
Variable chat : string -> string -> ChatOutcome.
Variable chatLatency : string -> string -> Z.
Variable random36 : nat -> string.
Variable settings : AutomationSettings.t.

Lemma canSendMessage_run (w : World) :
  Delivery.canSendMessage tz settings w
  = (fst (RateLimiter.canSendMessage tz settings (clock w) (ledger w)),
     withLedger
       {| stats := updateTimeBasedCounts tz (clock w) (stats (ledger w));
          stored := stored (ledger w) |} w).
Proof.
  unfold Delivery.canSendMessage, bind, now, onLedger.
  rewrite <- canSendMessage_ledger with (settings := settings).
  destruct (RateLimiter.canSendMessage tz settings (clock w) (ledger w)).
  reflexivity.
Qed.

Lemma pushCapped_last {A} (xs : list A) (x : A) :
  In x (pushCapped 500 xs x).
Proof.
  unfold pushCapped.
  destruct (500 <? Z.of_nat (List.length (xs ++ [x])%list)) eqn:E.
  - destruct xs as [| a xs']; cbn [app tl].
    + cbn in E. discriminate.
    + apply in_or_app. right. left. reflexivity.
  - apply in_or_app. right. left. reflexivity.
Qed.

(** The send itself: after the pacing delay the text goes out as it is,
    and the send is recorded. *)
Lemma deliver_spec (profile : CustomerProfile.t) (text : string) (w : World) :
  let run := deliver random36 settings profile text w in
  fst (fst run) = {| success := true; message := Some text; error := None |}
  /\ trace (snd run)
     = (trace w
        ++ (if 0 <? RateLimit.delayBetweenMessages
                      (AutomationSettings.rateLimit settings)
            then [EvDelay (RateLimit.delayBetweenMessages
                             (AutomationSettings.rateLimit settings))]
            else [])
        ++ [EvSend (CustomerProfile.name profile) text])%list
  /\ openaiClient (snd run) = openaiClient w.
Proof.
  cbv zeta. unfold deliver, bind.
  destruct (0 <? RateLimit.delayBetweenMessages (AutomationSettings.rateLimit settings)).
  - cbn. rewrite <- app_assoc. repeat split; reflexivity.
  - cbn. repeat split; reflexivity.
Qed.

Lemma generatePersonalizedMessage_run
    (profile : CustomerProfile.t) (model key : string) (w : World) :
  openaiClient w = Some key ->
  generatePersonalizedMessage chat chatLatency profile model w
  = (readCompletion (chat model (createPrompt profile)),
     mkWorld (clock w + chatLatency model (createPrompt profile))
       (openaiClient w) (ledger w) (messageTemplates w) (messageHistory w)
       (profiles w) (randomDraws w)
       (trace w ++ [EvChatCompletion model (createPrompt profile)])%list).
Proof.
  intros Hc. unfold generatePersonalizedMessage, bind, isOpenAIConfigured.
  destruct (openaiClient w) eqn:E; [| discriminate].
  cbn. rewrite E. reflexivity.
Qed.

(** A permitted send without override text, with the client configured:
    the generator is called, and its answer decides between the send of
    the templated text and the record of a failure. *)
Lemma sendMessage_generates
    (profile : CustomerProfile.t) (key : string) (w : World) :
  allowed (fst (RateLimiter.canSendMessage tz settings (clock w) (ledger w))) = true ->
  openaiClient w = Some key ->
  let model := AutomationSettings.openaiModel settings in
  let prompt := createPrompt profile in
  let w2 :=
    mkWorld (clock w + chatLatency model prompt) (openaiClient w)
      {| stats := updateTimeBasedCounts tz (clock w) (stats (ledger w));
         stored := stored (ledger w) |}
      (messageTemplates w) (messageHistory w) (profiles w) (randomDraws w)
      (trace w ++ [EvChatCompletion model prompt])%list in
  sendMessage tz chat chatLatency random36 settings profile None w
  = match readCompletion (chat model prompt) with
    | Normal text =>
        deliver random36 settings profile
          (applyNameTemplate settings text profile) w2
    | Throws e =>
        (Delivery.recordMessageFailed ;;;
         saveMessageHistory random36 settings profile EmptyString false
           (Some ("Failed to generate: " ++ errorMessage e)) ;;;
         ret (failure ("Failed to generate message: " ++ errorMessage e),
              profile)) w2
    end.
Proof.
  intros Hallowed Hclient. cbv zeta.
  set (w1 := withLedger
               {| stats := updateTimeBasedCounts tz (clock w) (stats (ledger w));
                  stored := stored (ledger w) |} w).
  assert (Hclient1 : openaiClient w1 = Some key) by exact Hclient.
  unfold sendMessage. unfold bind at 1.
  rewrite canSendMessage_run, Hallowed. fold w1. cbn [negb].
  unfold bind at 1. unfold isOpenAIConfigured at 1.
  rewrite Hclient1. cbn [negb].
  unfold bind at 1.
  rewrite generatePersonalizedMessage_run with (key := key) by exact Hclient1.
  destruct (readCompletion _); reflexivity.
Qed.

End DeliveryFacts.

Import Delivery Text.

(** C2, as the specification states it, fails: at 22:00, with the day used
    up by 20:00, the send is denied for the daily limit and the hour
    counter in memory, 5 before the call, is 0 after it. *)
Lemma denied_send_rolls_hour_counter :
  let w := Samples.worldAt Samples.at2200 Samples.dayUsedUp in
  let run := sendMessage 0 Samples.chatAnswers Samples.latency Samples.random36
               Samples.settings Samples.fresh None w in
  fst (fst run) = failure "Daily message limit reached"
  /\ MessageStats.messagesThisHour (stats (ledger w)) = 5
  /\ MessageStats.messagesThisHour (stats (ledger (snd run))) = 0.
Proof.
  vm_compute. repeat split; reflexivity.
Qed.

(** C2, amended.  Whenever the limiter denies, [sendMessage] returns a
    failure with the limiter's reason, and nothing is recorded: the
    history, the templates, the stored profiles and the profile object, the
    stored statistics, [totalSent], [totalFailed] and [lastSentAt] are as
    before and nothing leaves the service.  The window counters in memory
    are as the rollover of the admission check leaves them (each unchanged
    or zero; unchanged where they were current), so that [getStats]
    reports after the call what it would have reported before it. *)
Theorem denied_send_records_nothing
    (tz : Z) (chat : string -> string -> ChatOutcome)
    (chatLatency : string -> string -> Z) (random36 : nat -> string)
    (settings : AutomationSettings.t) (profile : CustomerProfile.t)
    (customMessage : option string) (w : World) :
  let admission := fst (RateLimiter.canSendMessage tz settings (clock w) (ledger w)) in
  allowed admission = false ->
  let run := sendMessage tz chat chatLatency random36 settings profile
               customMessage w in
  let r := fst (fst run) in
  let w' := snd run in
  (success r = false /\ message r = None /\ error r = reason admission
   /\ (error r = Some "Daily message limit reached"
       \/ error r = Some "Hourly message limit reached"))
  /\ snd (fst run) = profile
  /\ messageHistory w' = messageHistory w
  /\ messageTemplates w' = messageTemplates w
  /\ profiles w' = profiles w
  /\ trace w' = trace w
  /\ clock w' = clock w
  /\ stored (ledger w') = stored (ledger w)
  /\ MessageStats.totalSent (stats (ledger w')) = MessageStats.totalSent (stats (ledger w))
  /\ MessageStats.totalFailed (stats (ledger w')) = MessageStats.totalFailed (stats (ledger w))
  /\ MessageStats.lastSentAt (stats (ledger w')) = MessageStats.lastSentAt (stats (ledger w))
  /\ stats (ledger w') = updateTimeBasedCounts tz (clock w) (stats (ledger w))
  /\ (MessageStats.messagesToday (stats (ledger w'))
        = MessageStats.messagesToday (stats (ledger w))
      \/ MessageStats.messagesToday (stats (ledger w')) = 0)
  /\ (MessageStats.messagesThisHour (stats (ledger w'))
        = MessageStats.messagesThisHour (stats (ledger w))
      \/ MessageStats.messagesThisHour (stats (ledger w')) = 0)
  /\ (updateTimeBasedCounts tz (clock w) (stats (ledger w)) = stats (ledger w) ->
      ledger w' = ledger w)
  /\ fst (getStats tz (clock w') (ledger w'))
     = fst (getStats tz (clock w) (ledger w)).
Proof.
  cbv zeta. intros Hdenied.
  unfold sendMessage, bind. rewrite canSendMessage_run, Hdenied.
  cbn [negb ret fst snd withLedger ledger stats stored messageHistory
       messageTemplates profiles trace clock failure success message error].
  pose proof (updateTimeBasedCounts_frame tz (clock w) (stats (ledger w))) as F.
  cbv zeta in F. destruct F as (F1 & F2 & F3 & F4 & F5).
  assert (R : orDefault
                (reason (fst (RateLimiter.canSendMessage tz settings (clock w) (ledger w))))
                "Rate limit exceeded"
              = "Daily message limit reached"
                /\ reason (fst (RateLimiter.canSendMessage tz settings (clock w) (ledger w)))
                   = Some "Daily message limit reached"
              \/ orDefault
                   (reason (fst (RateLimiter.canSendMessage tz settings (clock w) (ledger w))))
                   "Rate limit exceeded"
                 = "Hourly message limit reached"
                 /\ reason (fst (RateLimiter.canSendMessage tz settings (clock w) (ledger w)))
                    = Some "Hourly message limit reached").
  { revert Hdenied. unfold RateLimiter.canSendMessage.
    destruct (_ <=? MessageStats.messagesToday _); [left; split; reflexivity |].
    destruct (_ <=? MessageStats.messagesThisHour _); [right; split; reflexivity |].
    cbn. discriminate. }
  repeat split; try assumption; try reflexivity.
  - destruct R as [[-> ->] | [-> ->]]; reflexivity.
  - destruct R as [[-> _] | [-> _]]; [left | right]; reflexivity.
  - intros E. rewrite E. destruct (ledger w); reflexivity.
  - unfold getStats. cbn [fst stats].
    apply updateTimeBasedCounts_idempotent.
Qed.

Lemma denied_send_records_nothing_witness :
  let w := Samples.worldAt Samples.at2200 Samples.dayUsedUp in
  messageHistory
    (snd (sendMessage 0 Samples.chatAnswers Samples.latency Samples.random36
            Samples.settings Samples.fresh None w))
  = messageHistory w.
Proof.
  cbv zeta.
  refine (proj1 (proj2 (proj2
            (denied_send_records_nothing 0 Samples.chatAnswers Samples.latency
               Samples.random36 Samples.settings Samples.fresh None
               (Samples.worldAt Samples.at2200 Samples.dayUsedUp) _)))).
  reflexivity.
Defined.

(** C3, as the specification states it, fails: with the default delay of
    one minute, a send with the override text [Hello] waits that minute
    before the text goes out. *)
Lemma override_send_is_paced :
  let w := Samples.worldAt Samples.at1200 Samples.quietSince0800 in
  let run := sendMessage 0 Samples.chatAnswers Samples.latency Samples.random36
               Samples.settings Samples.fresh (Some "Hello") w in
  fst (fst run) = {| success := true; message := Some "Hello"; error := None |}
  /\ trace (snd run) = [EvDelay 60000; EvSend "Grace" "Hello"]
  /\ clock (snd run) = clock w + 60000.
Proof.
  vm_compute. repeat split; reflexivity.
Qed.

(** C3, amended.  For every recipient and every non-empty override text,
    [sendMessage] never calls the generator, and where the limiter allows
    the send it succeeds with the override text as it is, unchanged, as
    the text sent and as the text returned.  The pacing delay is made on
    this path as on the other: once, before the send, whenever
    [delayBetweenMessages] is positive. *)
Theorem override_sent_verbatim
    (tz : Z) (chat : string -> string -> ChatOutcome)
    (chatLatency : string -> string -> Z) (random36 : nat -> string)
    (settings : AutomationSettings.t) (profile : CustomerProfile.t)
    (c : ascii) (s : string) (w : World) :
  let text := String c s in
  let run := sendMessage tz chat chatLatency random36 settings profile
               (Some text) w in
  let permitted :=
    allowed (fst (RateLimiter.canSendMessage tz settings (clock w) (ledger w))) in
  let pause :=
    RateLimit.delayBetweenMessages (AutomationSettings.rateLimit settings) in
  trace (snd run)
  = (trace w
     ++ (if permitted
         then (if 0 <? pause then [EvDelay pause] else [])
              ++ [EvSend (CustomerProfile.name profile) text]
         else []))%list
  /\ (permitted = true ->
      fst (fst run) = {| success := true; message := Some text; error := None |})
  /\ (forall model prompt,
        In (EvChatCompletion model prompt) (trace (snd run)) ->
        In (EvChatCompletion model prompt) (trace w)).
Proof.
  cbv zeta.
  assert (T : trace
                (snd (sendMessage tz chat chatLatency random36 settings profile
                        (Some (String c s)) w))
              = (trace w
                 ++ (if allowed (fst (RateLimiter.canSendMessage tz settings
                                        (clock w) (ledger w)))
                     then (if 0 <? RateLimit.delayBetweenMessages
                                     (AutomationSettings.rateLimit settings)
                           then [EvDelay (RateLimit.delayBetweenMessages
                                            (AutomationSettings.rateLimit settings))]
                           else [])
                          ++ [EvSend (CustomerProfile.name profile) (String c s)]
                     else []))%list
              /\ (allowed (fst (RateLimiter.canSendMessage tz settings
                                  (clock w) (ledger w))) = true ->
                  fst (fst (sendMessage tz chat chatLatency random36 settings
                              profile (Some (String c s)) w))
                  = {| success := true; message := Some (String c s);
                       error := None |})).
  { unfold sendMessage, bind. rewrite canSendMessage_run.
    destruct (allowed _); cbn [negb].
    - destruct (deliver_spec random36 settings profile (String c s)
                  (withLedger
                     {| stats := updateTimeBasedCounts tz (clock w) (stats (ledger w));
                        stored := stored (ledger w) |} w)) as (R & Tr & _).
      cbv zeta in R, Tr. split; [exact Tr | intros _; exact R].
    - cbn. rewrite app_nil_r. split; [reflexivity | discriminate]. }
  destruct T as [T R]. split; [exact T |]. split; [exact R |].
  intros model prompt. rewrite T. intros H.
  apply in_app_or in H as [H | H]; [exact H |].
  exfalso. destruct (allowed _); [| contradiction].
  apply in_app_or in H as [H | [H | []]]; [| discriminate].
  destruct (0 <? _); [destruct H as [H | []]; discriminate | contradiction].
Qed.

Lemma override_sent_verbatim_witness :
  fst (fst (sendMessage 0 Samples.chatAnswers Samples.latency Samples.random36
              Samples.settings Samples.fresh (Some "Hello")
              (Samples.worldAt Samples.at1200 Samples.quietSince0800)))
  = {| success := true; message := Some "Hello"; error := None |}.
Proof.
  refine (proj1 (proj2
            (override_sent_verbatim 0 Samples.chatAnswers Samples.latency
               Samples.random36 Samples.settings Samples.fresh "H" "ello"
               (Samples.worldAt Samples.at1200 Samples.quietSince0800))) _).
  reflexivity.
Defined.

(** C4, as the specification states it, fails: at 10:55, for a limiter
    whose last send was at 08:00, a send whose generation fails is counted
    as failed, and the hour counter, 3 before the call, is 0 after it, in
    memory and in storage. *)
Lemma failed_generation_rolls_hour_counter :
  let w := Samples.worldAt Samples.at1055 Samples.quietSince0800 in
  let run := sendMessage 0 Samples.chatDown Samples.latency Samples.random36
               Samples.settings Samples.fresh None w in
  fst (fst run) = failure "Failed to generate message: 429 Too Many Requests"
  /\ MessageStats.totalFailed (stats (ledger (snd run))) = 1
  /\ MessageStats.messagesThisHour (stats (ledger w)) = 3
  /\ MessageStats.messagesThisHour (stats (ledger (snd run))) = 0
  /\ option_map MessageStats.messagesThisHour (stored (ledger (snd run))) = Some 0.
Proof.
  vm_compute. repeat split; reflexivity.
Qed.

(** C4, amended.  For every recipient, when a send without override text
    (none, or the empty one) is permitted and the generator, called, fails
    with [e]: the result is a failure with an error text; [totalFailed]
    grows by exactly 1; [totalSent] and [lastSentAt] are unchanged; the
    recipient, its [messageCount] and [lastMessageSent], the stored
    profiles and the templates are unchanged; a history record with
    [success] false, an empty message and the error is appended; the
    statistics are stored.  The window counters are those the rollover of
    the admission check leaves (unchanged where they were current), not
    counted up. *)
Theorem generation_failure_recorded
    (tz : Z) (chat : string -> string -> ChatOutcome)
    (chatLatency : string -> string -> Z) (random36 : nat -> string)
    (settings : AutomationSettings.t) (profile : CustomerProfile.t)
    (customMessage : option string) (key : string) (e : Thrown) (w : World) :
  customMessage = None \/ customMessage = Some EmptyString ->
  allowed (fst (RateLimiter.canSendMessage tz settings (clock w) (ledger w))) = true ->
  openaiClient w = Some key ->
  fst (generatePersonalizedMessage chat chatLatency profile
         (AutomationSettings.openaiModel settings) w) = Throws e ->
  let run := sendMessage tz chat chatLatency random36 settings profile
               customMessage w in
  let r := fst (fst run) in
  let w' := snd run in
  let rolled := updateTimeBasedCounts tz (clock w) (stats (ledger w)) in
  (success r = false
   /\ error r = Some ("Failed to generate message: " ++ errorMessage e)
   /\ message r = None)
  /\ MessageStats.totalFailed (stats (ledger w'))
     = MessageStats.totalFailed (stats (ledger w)) + 1
  /\ MessageStats.totalSent (stats (ledger w'))
     = MessageStats.totalSent (stats (ledger w))
  /\ MessageStats.lastSentAt (stats (ledger w'))
     = MessageStats.lastSentAt (stats (ledger w))
  /\ MessageStats.messagesToday (stats (ledger w')) = MessageStats.messagesToday rolled
  /\ MessageStats.messagesThisHour (stats (ledger w'))
     = MessageStats.messagesThisHour rolled
  /\ (rolled = stats (ledger w) ->
      MessageStats.messagesToday (stats (ledger w'))
      = MessageStats.messagesToday (stats (ledger w))
      /\ MessageStats.messagesThisHour (stats (ledger w'))
         = MessageStats.messagesThisHour (stats (ledger w)))
  /\ stored (ledger w') = Some (stats (ledger w'))
  /\ snd (fst run) = profile
  /\ profiles w' = profiles w
  /\ messageTemplates w' = messageTemplates w
  /\ exists h,
       messageHistory w' = pushCapped 500 (messageHistory w) h
       /\ In h (messageHistory w')
       /\ MessageHistory.success h = false
       /\ MessageHistory.error h = Some ("Failed to generate: " ++ errorMessage e)
       /\ MessageHistory.message h = EmptyString
       /\ MessageHistory.profileId h = CustomerProfile.id profile.
Proof.
  intros Hcustom Hallowed Hclient Hgen. cbv zeta.
  rewrite (generatePersonalizedMessage_run chat chatLatency profile
             (AutomationSettings.openaiModel settings) w Hclient) in Hgen.
  cbn [fst] in Hgen.
  assert (Hrun : sendMessage tz chat chatLatency random36 settings profile
                   customMessage w
                 = sendMessage tz chat chatLatency random36 settings profile
                     None w)
    by (destruct Hcustom as [-> | ->]; reflexivity).
  rewrite Hrun, (sendMessage_generates tz chat chatLatency random36 settings
                   profile w Hallowed Hclient), Hgen.
  cbn -[updateTimeBasedCounts pushCapped append decimal createPrompt].
  repeat split; try reflexivity; try congruence.
  eexists. split; [reflexivity |]. split; [apply pushCapped_last |].
  repeat split; reflexivity.
Qed.

Lemma generation_failure_recorded_witness :
  MessageStats.totalFailed
    (stats (ledger (snd (sendMessage 0 Samples.chatDown Samples.latency
                           Samples.random36 Samples.settings Samples.fresh None
                           (Samples.worldAt Samples.at1055 Samples.quietSince0800)))))
  = 0 + 1.
Proof.
  refine (proj1 (proj2
            (generation_failure_recorded 0 Samples.chatDown Samples.latency
               Samples.random36 Samples.settings Samples.fresh
               (customMessage := None) (key := "sk-test")
               (e := ErrorObject "429 Too Many Requests")
               (Samples.worldAt Samples.at1055 Samples.quietSince0800)
               _ _ _ _))).
  - left. reflexivity.
  - reflexivity.
  - reflexivity.
  - reflexivity.
Defined.

Lemma append_truthy_r (a b : string) :
  truthyString b = true -> truthyString (a ++ b) = true.
Proof. destruct a; intros H; [exact H | reflexivity]. Qed.

(** A templated text is never empty: it ends with the closing. *)
Lemma applyNameTemplate_truthy
    (settings : AutomationSettings.t) (text : string) (profile : CustomerProfile.t) :
  truthyString (applyNameTemplate settings text profile) = true.
Proof.
  unfold applyNameTemplate.
  apply append_truthy_r, append_truthy_r. reflexivity.
Qed.

(** C10.  A send with the empty string as override text is the send
    without override text: same result, same final state, whatever the
    state and the host.  So, where the send is permitted and the generator,
    configured, answers [text], the generator is called and what is sent
    and returned is the templated [text], which is not empty, rather than
    the empty override. *)
Theorem empty_override_is_no_override
    (tz : Z) (chat : string -> string -> ChatOutcome)
    (chatLatency : string -> string -> Z) (random36 : nat -> string)
    (settings : AutomationSettings.t) (profile : CustomerProfile.t) (w : World) :
  let run := sendMessage tz chat chatLatency random36 settings profile
               (Some EmptyString) w in
  let model := AutomationSettings.openaiModel settings in
  let pause :=
    RateLimit.delayBetweenMessages (AutomationSettings.rateLimit settings) in
  run = sendMessage tz chat chatLatency random36 settings profile None w
  /\ (forall key text,
        allowed (fst (RateLimiter.canSendMessage tz settings (clock w) (ledger w)))
          = true ->
        openaiClient w = Some key ->
        fst (generatePersonalizedMessage chat chatLatency profile model w)
          = Normal text ->
        let sent := applyNameTemplate settings text profile in
        fst (fst run) = {| success := true; message := Some sent; error := None |}
        /\ trace (snd run)
           = (trace w
              ++ [EvChatCompletion model (createPrompt profile)]
              ++ (if 0 <? pause then [EvDelay pause] else [])
              ++ [EvSend (CustomerProfile.name profile) sent])%list
        /\ sent <> EmptyString).
Proof.
  cbv zeta. split; [reflexivity |].
  intros key text Hallowed Hclient Hgen.
  rewrite (generatePersonalizedMessage_run chat chatLatency profile
             (AutomationSettings.openaiModel settings) w Hclient) in Hgen.
  cbn [fst] in Hgen.
  change (sendMessage tz chat chatLatency random36 settings profile
            (Some EmptyString) w)
    with (sendMessage tz chat chatLatency random36 settings profile None w).
  rewrite (sendMessage_generates tz chat chatLatency random36 settings
             profile w Hallowed Hclient), Hgen.
  match goal with
  | |- context [deliver random36 settings profile ?txt ?W] =>
      destruct (deliver_spec random36 settings profile txt W) as (R & T & _)
  end.
  cbv zeta in R, T. cbn [trace] in T.
  split; [exact R |]. split.
  - rewrite T, <- app_assoc. reflexivity.
  - intros E.
    pose proof (applyNameTemplate_truthy settings text profile) as N.
    rewrite E in N. discriminate.
Qed.

Lemma empty_override_is_no_override_witness :
  fst (fst (sendMessage 0 Samples.chatAnswers Samples.latency Samples.random36
              Samples.settings Samples.fresh (Some EmptyString)
              (Samples.worldAt Samples.at1200 Samples.quietSince0800)))
  = {| success := true;
       message := Some (applyNameTemplate Samples.settings
                          "Loved your work on [Recipient] tooling."
                          Samples.fresh);
       error := None |}.
Proof.
  refine (proj1 (proj2
            (empty_override_is_no_override 0 Samples.chatAnswers Samples.latency
               Samples.random36 Samples.settings Samples.fresh
               (Samples.worldAt Samples.at1200 Samples.quietSince0800))
            "sk-test" "Loved your work on [Recipient] tooling." _ _ _)).
  - reflexivity.
  - reflexivity.
  - reflexivity.
Defined.

(* ===================================================================== *)
(** * Runs on concrete inputs *)
(* ===================================================================== *)

Example toISOString_at1055 :
  JsDate.toISOString (Some Samples.at1055) = Some "2024-11-01T10:55:00.000Z".
Proof. reflexivity. Qed.

Example toISOString_before_epoch :
  JsDate.toISOString (Some (-1)) = Some "1969-12-31T23:59:59.999Z".
Proof. reflexivity. Qed.

Example toISOString_last_time :
  JsDate.toISOString (Some JsDate.maxTime) = Some "+275760-09-13T00:00:00.000Z"
  /\ JsDate.toISOString (Some (- JsDate.maxTime))
     = Some "-271821-04-20T00:00:00.000Z".
Proof. split; reflexivity. Qed.

Example parse_leap_day :
  JsDate.parse "2024-02-29T12:30:15.250Z" = Some 1709209815250.
Proof. reflexivity. Qed.

(** In a zone five and a half hours east of UTC, 23:00:00.123 UTC is
    04:30:00.123 of the next local day: the next clock hour is 29 min
    59.877 s away and the next midnight 19 h 29 min 59.877 s. *)
Example waits_in_half_hour_zone :
  RateLimiter.getTimeUntilNextHour 19800000 1730502000123 = 1799877
  /\ RateLimiter.getTimeUntilNextDay 19800000 1730502000123 = 70199877.
Proof. split; reflexivity. Qed.

Example applyNameTemplate_sample :
  applyNameTemplate Samples.settings
    "Loved your work on [recipient] tooling. <Your Name>" Samples.fresh
  = "Hi Grace," ++ nl ++ nl ++ "Loved your work on Grace tooling. Ada"
    ++ nl ++ nl ++ "Best," ++ nl ++ "Ada".
Proof. reflexivity. Qed.

Example applyNameTemplate_keeps_greeting :
  applyNameTemplate Samples.settings "Hello Grace, nice profile." Samples.fresh
  = "Hello Grace, nice profile." ++ nl ++ nl ++ "Best," ++ nl ++ "Ada".
Proof. reflexivity. Qed.

(** Scenario A of the specification: with one message an hour and five a
    day, of two sends in the same hour the first succeeds and the second is
    denied for the hourly limit. *)
Example scenario_two_sends_in_an_hour :
  let send := sendMessage 0 Samples.chatAnswers Samples.latency Samples.random36
                Samples.onePerHour in
  let first := send Samples.fresh None
                 (Samples.worldAt Samples.at1050 Samples.firstUse) in
  let second := send (snd (fst first)) None (snd first) in
  success (fst (fst first)) = true
  /\ CustomerProfile.messageCount (snd (fst first)) = 1
  /\ fst (fst second) = failure "Hourly message limit reached"
  /\ MessageStats.totalSent (stats (ledger (snd second))) = 1
  /\ List.length (messageHistory (snd second)) = 1%nat.
Proof. vm_compute. repeat split; reflexivity. Qed.

(** The checks read the counters after the rollover: fifty messages sent
    by 22:00 the day before do not count against the fifty of today. *)
Example stale_day_counter_is_rolled_first :
  let l := Samples.ledgerOf (Samples.statsAt 50 0 50 5 Samples.eve2200) in
  RateLimiter.canSendMessage 0 Samples.settings Samples.at0800 l
  = ({| allowed := true; reason := None; waitTime := None |},
     {| stats := Samples.statsAt 50 0 0 0 Samples.eve2200;
        stored := Some (Samples.statsAt 50 0 50 5 Samples.eve2200) |}).
Proof. reflexivity. Qed.

(** Scenario B of the specification: two messages so far, the last one
    three days ago. *)
Example scenario_contacted_three_days_ago :
  isEligible Samples.at1055
    (Samples.recipient 2
       (DLDate (Some (Samples.at1055 - 3 * JsDate.msPerDay)))) = false.
Proof. reflexivity. Qed.

(** A send that goes through: the counters, the history, the templates and
    the recipient after it. *)
Example scenario_successful_send :
  let run := sendMessage 0 Samples.chatAnswers Samples.latency Samples.random36
               Samples.settings Samples.fresh None
               (Samples.worldAt Samples.at1055 Samples.quietSince0800) in
  let w' := snd run in
  success (fst (fst run)) = true
  /\ stats (ledger w')
     = Samples.statsAt 13 0 4 1 (Samples.at1055 + 800 + 60000)
  /\ stored (ledger w') = Some (stats (ledger w'))
  /\ List.length (messageHistory w') = 1%nat
  /\ List.length (messageTemplates w') = 1%nat
  /\ CustomerProfile.messageCount (snd (fst run)) = 1
  /\ CustomerProfile.lastMessageSent (snd (fst run))
     = DLDate (Some (Samples.at1055 + 800 + 60000))
  /\ profiles w' = [snd (fst run)].
Proof. vm_compute. repeat split; reflexivity. Qed.

(* ===================================================================== *)
(** * More on the rate limiter *)
(* ===================================================================== *)

Section MoreLimiterFacts.
Variable tz : Z.

Lemma civil_from_days_inj (a b : Z) :
  JsDate.civil_from_days a = JsDate.civil_from_days b -> a = b.
Proof.
  intros E.
  pose proof (civil_from_days_spec a) as (_ & _ & Ha & _).
  pose proof (civil_from_days_spec b) as (_ & _ & Hb & _).
  cbv zeta in Ha, Hb. rewrite E in Ha. congruence.
Qed.

(** Two dates are on different days for the limiter exactly when their
    local calendar days differ: year, month and day of the month together
    tell the days apart. *)
Lemma isDifferentDay_local_day (t1 t2 : Z) :
  isDifferentDay tz (Some t1) (Some t2)
  = negb (JsDate.Day (JsDate.LocalTime tz t1) =? JsDate.Day (JsDate.LocalTime tz t2)).
Proof.
  unfold isDifferentDay, JsDate.getFullYear, JsDate.getMonth, JsDate.getDate,
    JsDate.YearFromTime, JsDate.MonthFromTime, JsDate.DateFromTime.
  set (d1 := JsDate.Day (JsDate.LocalTime tz t1)).
  set (d2 := JsDate.Day (JsDate.LocalTime tz t2)).
  destruct (Z.eqb_spec d1 d2) as [E | N].
  - rewrite E, !Z.eqb_refl. reflexivity.
  - cbn [negb].
    destruct (Z.eqb_spec (fst (fst (JsDate.civil_from_days d1)))
                (fst (fst (JsDate.civil_from_days d2)))) as [Ey | Ny];
      [| reflexivity].
    destruct (Z.eqb_spec (snd (fst (JsDate.civil_from_days d1)) - 1)
                (snd (fst (JsDate.civil_from_days d2)) - 1)) as [Em | Nm];
      [| reflexivity].
    destruct (Z.eqb_spec (snd (JsDate.civil_from_days d1))
                (snd (JsDate.civil_from_days d2))) as [Ed | Nd];
      [| reflexivity].
    exfalso. apply N, civil_from_days_inj.
    destruct (JsDate.civil_from_days d1) as [[y1 m1] dd1].
    destruct (JsDate.civil_from_days d2) as [[y2 m2] dd2].
    cbn [fst snd] in *. f_equal; [f_equal |]; lia.
Qed.

(** X1.  The rollover, with the last send at [t]: the day counter is kept
    exactly while [now] is on the local calendar day of [t], and the hour
    counter exactly while less than an hour lies between [now] and [t];
    otherwise they are reset to 0.  Without a last send both are reset. *)
Theorem updateTimeBasedCounts_windows (now : Z) (s : MessageStats.t) :
  (forall t, MessageStats.lastSentAt s = DLDate (Some t) ->
     updateTimeBasedCounts tz now s
     = {| MessageStats.totalSent := MessageStats.totalSent s;
          MessageStats.totalFailed := MessageStats.totalFailed s;
          MessageStats.lastSentAt := DLDate (Some t);
          MessageStats.messagesToday :=
            if JsDate.Day (now + tz) =? JsDate.Day (t + tz)
            then MessageStats.messagesToday s else 0;
          MessageStats.messagesThisHour :=
            if Z.abs (now - t) <? JsDate.msPerHour
            then MessageStats.messagesThisHour s else 0 |})
  /\ (MessageStats.lastSentAt s = DLUndefined ->
      updateTimeBasedCounts tz now s
      = {| MessageStats.totalSent := MessageStats.totalSent s;
           MessageStats.totalFailed := MessageStats.totalFailed s;
           MessageStats.lastSentAt := DLUndefined;
           MessageStats.messagesToday := 0;
           MessageStats.messagesThisHour := 0 |}).
Proof.
  split.
  - intros t E. unfold updateTimeBasedCounts. rewrite E.
    cbn [truthy newDate].
    rewrite isDifferentDay_local_day, isDifferentHour_spec.
    unfold JsDate.LocalTime. rewrite Z.leb_antisym.
    destruct (JsDate.Day (now + tz) =? JsDate.Day (t + tz));
      destruct (Z.abs (now - t) <? JsDate.msPerHour); reflexivity.
  - intros E. unfold updateTimeBasedCounts. rewrite E. reflexivity.
Qed.

End MoreLimiterFacts.

(** X2.  On a host that keeps one offset from UTC ([tz], the zone
    [fixedOffset tz]), the wait returned with a daily denial is enough: it
    ends on the next local midnight, and a call at that time, with nothing
    sent in between, is not denied for the daily limit any more (the last
    send, if any, being in the past and the daily limit positive).  (Where
    the offset changes the wait can be longer than a day:
    [next_day_as_daylight_saving_ends].) *)
Theorem daily_wait_is_enough
    (tz : Z) (settings : AutomationSettings.t) (now : Z) (l : Ledger) :
  0 < RateLimit.messagesPerDay (AutomationSettings.rateLimit settings) ->
  (forall t, newDate (MessageStats.lastSentAt (stats l)) = Some t -> t <= now) ->
  reason (fst (RateLimiter.canSendMessage tz settings now l))
    = Some "Daily message limit reached" ->
  exists w,
    waitTime (fst (RateLimiter.canSendMessage tz settings now l)) = Some w
    /\ w = JsDate.startOfNextDayIn (JsDate.fixedOffset tz) now - now
    /\ 0 < w <= JsDate.msPerDay
    /\ (now + w + tz) mod JsDate.msPerDay = 0
    /\ reason (fst (RateLimiter.canSendMessage tz settings (now + w)
                      (snd (RateLimiter.canSendMessage tz settings now l))))
       <> Some "Daily message limit reached".
Proof.
  intros Hlimit Hpast Hdenied.
  exists (JsDate.msPerDay - (now + tz) mod JsDate.msPerDay).
  assert (Hw : 0 < JsDate.msPerDay - (now + tz) mod JsDate.msPerDay <= JsDate.msPerDay
               /\ (now + (JsDate.msPerDay - (now + tz) mod JsDate.msPerDay) + tz)
                    mod JsDate.msPerDay = 0
               /\ JsDate.Day (now + (JsDate.msPerDay - (now + tz) mod JsDate.msPerDay) + tz)
                  = JsDate.Day (now + tz) + 1).
  { unfold JsDate.Day, JsDate.msPerDay. Z.div_mod_to_equations. lia. }
  destruct Hw as (Hw1 & Hw2 & Hw3).
  split.
  { revert Hdenied. unfold RateLimiter.canSendMessage.
    destruct (_ <=? MessageStats.messagesToday _); cbn [fst reason waitTime].
    - intros _. rewrite getTimeUntilNextDay_spec. reflexivity.
    - destruct (_ <=? MessageStats.messagesThisHour _); discriminate. }
  split.
  { rewrite startOfNextDayIn_fixedOffset.
    rewrite <- (getTimeUntilNextDay_spec tz now). reflexivity. }
  split; [exact Hw1 |]. split; [exact Hw2 |].
  rewrite canSendMessage_ledger.
  set (now' := now + (JsDate.msPerDay - (now + tz) mod JsDate.msPerDay)) in *.
  assert (Z0 : MessageStats.messagesToday
                 (updateTimeBasedCounts tz now'
                    (updateTimeBasedCounts tz now (stats l))) = 0).
  { unfold updateTimeBasedCounts at 1.
    cbn [MessageStats.messagesToday].
    replace (MessageStats.lastSentAt (updateTimeBasedCounts tz now (stats l)))
      with (MessageStats.lastSentAt (stats l)) by reflexivity.
    destruct (truthy (MessageStats.lastSentAt (stats l))); [| reflexivity].
    destruct (newDate (MessageStats.lastSentAt (stats l))) as [t |] eqn:E;
      [| reflexivity].
    rewrite isDifferentDay_local_day. unfold JsDate.LocalTime.
    specialize (Hpast t eq_refl).
    assert (JsDate.Day (t + tz) <= JsDate.Day (now + tz))
      by (unfold JsDate.Day, JsDate.msPerDay; Z.div_mod_to_equations; lia).
    destruct (Z.eqb_spec (JsDate.Day (now' + tz)) (JsDate.Day (t + tz)));
      [lia | reflexivity]. }
  unfold RateLimiter.canSendMessage. cbn [stats stored].
  rewrite Z0.
  destruct (Z.leb_spec
              (RateLimit.messagesPerDay (AutomationSettings.rateLimit settings)) 0);
    [lia |].
  destruct (_ <=? MessageStats.messagesThisHour _); cbn; discriminate.
Qed.

Lemma daily_wait_is_enough_witness :
  exists w,
    waitTime (fst (RateLimiter.canSendMessage 0 Samples.settings Samples.at1055
                     Samples.bothUsedUp)) = Some w
    /\ w = JsDate.startOfNextDayIn (JsDate.fixedOffset 0) Samples.at1055
           - Samples.at1055
    /\ 0 < w <= JsDate.msPerDay
    /\ (Samples.at1055 + w + 0) mod JsDate.msPerDay = 0
    /\ reason (fst (RateLimiter.canSendMessage 0 Samples.settings
                      (Samples.at1055 + w)
                      (snd (RateLimiter.canSendMessage 0 Samples.settings
                              Samples.at1055 Samples.bothUsedUp))))
       <> Some "Daily message limit reached".
Proof.
  apply (@daily_wait_is_enough 0 Samples.settings Samples.at1055 Samples.bothUsedUp).
  - reflexivity.
  - intros t E. vm_compute in E. injection E as <-. vm_compute. discriminate.
  - reflexivity.
Defined.

(* ===================================================================== *)
(** * More on the delivery service *)
(* ===================================================================== *)

Section MoreDeliveryFacts.
Variable tz : Z.
Variable chat : string -> string -> ChatOutcome.
Variable chatLatency : string -> string -> Z.
Variable random36 : nat -> string.
Variable settings : AutomationSettings.t.

(** The paths of [sendMessage], by what decides them: the answer of the
    limiter, the override text, the client and the answer of the
    generator. *)
Lemma sendMessage_paths
    (profile : CustomerProfile.t) (customMessage : option string) (w : World) :
  let a := fst (RateLimiter.canSendMessage tz settings (clock w) (ledger w)) in
  let model := AutomationSettings.openaiModel settings in
  let prompt := createPrompt profile in
  let w1 :=
    withLedger
      {| stats := updateTimeBasedCounts tz (clock w) (stats (ledger w));
         stored := stored (ledger w) |} w in
  let w2 :=
    mkWorld (clock w + chatLatency model prompt) (openaiClient w)
      {| stats := updateTimeBasedCounts tz (clock w) (stats (ledger w));
         stored := stored (ledger w) |}
      (messageTemplates w) (messageHistory w) (profiles w) (randomDraws w)
      (trace w ++ [EvChatCompletion model prompt])%list in
  sendMessage tz chat chatLatency random36 settings profile customMessage w
  = if negb (allowed a)
    then ((failure (orDefault (reason a) "Rate limit exceeded"), profile), w1)
    else
      match customMessage with
      | Some (String c s) => deliver random36 settings profile (String c s) w1
      | _ =>
          match openaiClient w with
          | None => ((failure "OpenAI API key not configured", profile), w1)
          | Some _ =>
              match readCompletion (chat model prompt) with
              | Normal text =>
                  deliver random36 settings profile
                    (applyNameTemplate settings text profile) w2
              | Throws e =>
                  (Delivery.recordMessageFailed ;;;
                   saveMessageHistory random36 settings profile EmptyString false
                     (Some ("Failed to generate: " ++ errorMessage e)) ;;;
                   ret (failure ("Failed to generate message: " ++ errorMessage e),
                        profile)) w2
              end
          end
      end.
Proof.
  cbv zeta.
  destruct (allowed (fst (RateLimiter.canSendMessage tz settings (clock w) (ledger w))))
    eqn:Hallowed; cbn [negb].
  - assert (Hgen : forall key, openaiClient w = Some key ->
              sendMessage tz chat chatLatency random36 settings profile None w
              = match readCompletion
                        (chat (AutomationSettings.openaiModel settings)
                           (createPrompt profile)) with
                | Normal text =>
                    deliver random36 settings profile
                      (applyNameTemplate settings text profile)
                      (mkWorld
                         (clock w + chatLatency (AutomationSettings.openaiModel settings)
                                      (createPrompt profile))
                         (openaiClient w)
                         {| stats := updateTimeBasedCounts tz (clock w) (stats (ledger w));
                            stored := stored (ledger w) |}
                         (messageTemplates w) (messageHistory w) (profiles w)
                         (randomDraws w)
                         (trace w ++ [EvChatCompletion
                                        (AutomationSettings.openaiModel settings)
                                        (createPrompt profile)])%list)
                | Throws e =>
                    (Delivery.recordMessageFailed ;;;
                     saveMessageHistory random36 settings profile EmptyString false
                       (Some ("Failed to generate: " ++ errorMessage e)) ;;;
                     ret (failure ("Failed to generate message: " ++ errorMessage e),
                          profile))
                      (mkWorld
                         (clock w + chatLatency (AutomationSettings.openaiModel settings)
                                      (createPrompt profile))
                         (openaiClient w)
                         {| stats := updateTimeBasedCounts tz (clock w) (stats (ledger w));
                            stored := stored (ledger w) |}
                         (messageTemplates w) (messageHistory w) (profiles w)
                         (randomDraws w)
                         (trace w ++ [EvChatCompletion
                                        (AutomationSettings.openaiModel settings)
                                        (createPrompt profile)])%list)
                end).
    { intros key Hclient.
      exact (sendMessage_generates tz chat chatLatency random36 settings
               profile w Hallowed Hclient). }
    assert (Hnone : openaiClient w = None ->
              sendMessage tz chat chatLatency random36 settings profile None w
              = ((failure "OpenAI API key not configured", profile),
                 withLedger
                   {| stats := updateTimeBasedCounts tz (clock w) (stats (ledger w));
                      stored := stored (ledger w) |} w)).
    { intros Hclient. unfold sendMessage. unfold bind at 1.
      rewrite canSendMessage_run, Hallowed. cbn [negb].
      unfold bind at 1. unfold isOpenAIConfigured at 1.
      cbn [openaiClient withLedger]. rewrite Hclient. reflexivity. }
    assert (Hoverride : forall c s,
              sendMessage tz chat chatLatency random36 settings profile
                (Some (String c s)) w
              = deliver random36 settings profile (String c s)
                  (withLedger
                     {| stats := updateTimeBasedCounts tz (clock w) (stats (ledger w));
                        stored := stored (ledger w) |} w)).
    { intros c s. unfold sendMessage. unfold bind at 1.
      rewrite canSendMessage_run, Hallowed. reflexivity. }
    destruct customMessage as [[| c s] |].
    + change (sendMessage tz chat chatLatency random36 settings profile
                (Some EmptyString) w)
        with (sendMessage tz chat chatLatency random36 settings profile None w).
      destruct (openaiClient w) as [key |] eqn:Hclient;
        [exact (Hgen key eq_refl) | exact (Hnone eq_refl)].
    + apply Hoverride.
    + destruct (openaiClient w) as [key |] eqn:Hclient;
        [exact (Hgen key eq_refl) | exact (Hnone eq_refl)].
  - unfold sendMessage. unfold bind at 1.
    rewrite canSendMessage_run, Hallowed. reflexivity.
Qed.

(** What the send itself leaves behind. *)
Lemma deliver_effects (profile : CustomerProfile.t) (text : string) (w : World) :
  let run := deliver random36 settings profile text w in
  let pause :=
    RateLimit.delayBetweenMessages (AutomationSettings.rateLimit settings) in
  let t := clock w + (if 0 <? pause then pause else 0) in
  let profile' := snd (fst run) in
  fst (fst run) = {| success := true; message := Some text; error := None |}
  /\ clock (snd run) = t
  /\ ledger (snd run) = RateLimiter.recordMessageSent t (ledger w)
  /\ (exists h,
        messageHistory (snd run) = pushCapped 500 (messageHistory w) h
        /\ MessageHistory.success h = true
        /\ MessageHistory.message h = text
        /\ MessageHistory.error h = None
        /\ MessageHistory.sentAt h = t
        /\ MessageHistory.profileId h = CustomerProfile.id profile)
  /\ (exists m,
        messageTemplates (snd run) = pushCapped 1000 (messageTemplates w) m
        /\ MessageTemplate.success m = true
        /\ MessageTemplate.content m = text
        /\ MessageTemplate.profileId m = CustomerProfile.id profile)
  /\ profiles (snd run) = upsert profile' (profiles w)
  /\ CustomerProfile.id profile' = CustomerProfile.id profile
  /\ CustomerProfile.messageCount profile' = CustomerProfile.messageCount profile + 1
  /\ CustomerProfile.lastMessageSent profile' = DLDate (Some t)
  /\ openaiClient (snd run) = openaiClient w.
Proof.
  cbv zeta. unfold deliver, bind.
  destruct (0 <? RateLimit.delayBetweenMessages (AutomationSettings.rateLimit settings)).
  - cbn -[pushCapped append decimal RateLimiter.recordMessageSent upsert].
    repeat split; try reflexivity.
    + eexists. split; [reflexivity |]. repeat split; reflexivity.
    + eexists. split; [reflexivity |]. repeat split; reflexivity.
  - cbn -[pushCapped append decimal RateLimiter.recordMessageSent upsert].
    rewrite Z.add_0_r.
    repeat split; try reflexivity.
    + eexists. split; [reflexivity |]. repeat split; reflexivity.
    + eexists. split; [reflexivity |]. repeat split; reflexivity.
Qed.

(** What a failed generation leaves behind. *)
Lemma generation_failure_effects
    (profile : CustomerProfile.t) (e : Thrown) (w : World) :
  let run :=
    (Delivery.recordMessageFailed ;;;
     saveMessageHistory random36 settings profile EmptyString false
       (Some ("Failed to generate: " ++ errorMessage e)) ;;;
     ret (failure ("Failed to generate message: " ++ errorMessage e), profile)) w in
  fst run = (failure ("Failed to generate message: " ++ errorMessage e), profile)
  /\ clock (snd run) = clock w
  /\ ledger (snd run) = RateLimiter.recordMessageFailed (ledger w)
  /\ (exists h,
        messageHistory (snd run) = pushCapped 500 (messageHistory w) h
        /\ MessageHistory.success h = false)
  /\ messageTemplates (snd run) = messageTemplates w
  /\ profiles (snd run) = profiles w
  /\ trace (snd run) = trace w.
Proof.
  cbv zeta.
  cbn -[pushCapped append decimal RateLimiter.recordMessageFailed].
  repeat split; try reflexivity.
  eexists. split; reflexivity.
Qed.

End MoreDeliveryFacts.

Lemma allowed_iff_below_limits
    (tz : Z) (settings : AutomationSettings.t) (now : Z) (l : Ledger) :
  allowed (fst (RateLimiter.canSendMessage tz settings now l)) = true
  <-> MessageStats.messagesToday (updateTimeBasedCounts tz now (stats l))
      < RateLimit.messagesPerDay (AutomationSettings.rateLimit settings)
      /\ MessageStats.messagesThisHour (updateTimeBasedCounts tz now (stats l))
         < RateLimit.messagesPerHour (AutomationSettings.rateLimit settings).
Proof.
  unfold RateLimiter.canSendMessage.
  destruct (Z.leb_spec
              (RateLimit.messagesPerDay (AutomationSettings.rateLimit settings))
              (MessageStats.messagesToday (updateTimeBasedCounts tz now (stats l))));
    cbn [fst allowed].
  - split; [discriminate | lia].
  - destruct (Z.leb_spec
                (RateLimit.messagesPerHour (AutomationSettings.rateLimit settings))
                (MessageStats.messagesThisHour (updateTimeBasedCounts tz now (stats l))));
      cbn [fst allowed].
    + split; [discriminate | lia].
    + split; [lia | reflexivity].
Qed.

(** The ledger after [sendMessage]: the rolled one as it is, or with one
    send recorded (on success only, and only when the limiter allowed it),
    or with one failure recorded. *)
Lemma sendMessage_ledger
    (tz : Z) (chat : string -> string -> ChatOutcome)
    (chatLatency : string -> string -> Z) (random36 : nat -> string)
    (settings : AutomationSettings.t) (profile : CustomerProfile.t)
    (customMessage : option string) (w : World) :
  let run := sendMessage tz chat chatLatency random36 settings profile
               customMessage w in
  let rolled :=
    {| stats := updateTimeBasedCounts tz (clock w) (stats (ledger w));
       stored := stored (ledger w) |} in
  (success (fst (fst run)) = true
   /\ allowed (fst (RateLimiter.canSendMessage tz settings (clock w) (ledger w))) = true
   /\ ledger (snd run) = RateLimiter.recordMessageSent (clock (snd run)) rolled)
  \/ (success (fst (fst run)) = false
      /\ (ledger (snd run) = rolled
          \/ ledger (snd run) = RateLimiter.recordMessageFailed rolled)).
Proof.
  cbv zeta. rewrite sendMessage_paths. cbv zeta.
  destruct (allowed _) eqn:Hallowed; cbn [negb].
  - assert (D : forall text w0,
              ledger w0
              = {| stats := updateTimeBasedCounts tz (clock w) (stats (ledger w));
                   stored := stored (ledger w) |} ->
              success (fst (fst (deliver random36 settings profile text w0))) = true
              /\ true = true
              /\ ledger (snd (deliver random36 settings profile text w0))
                 = RateLimiter.recordMessageSent
                     (clock (snd (deliver random36 settings profile text w0)))
                     {| stats := updateTimeBasedCounts tz (clock w) (stats (ledger w));
                        stored := stored (ledger w) |}).
    { intros text w0 E.
      destruct (deliver_effects random36 settings profile text w0)
        as (R & C & L & _).
      cbv zeta in R, C, L. rewrite R, C, L, E. repeat split. }
    destruct customMessage as [[| c s] |].
    + destruct (openaiClient w); [| right; split; [reflexivity | left; reflexivity]].
      destruct (readCompletion _).
      * left. apply D. reflexivity.
      * right. split; [reflexivity | right; reflexivity].
    + left. apply D. reflexivity.
    + destruct (openaiClient w); [| right; split; [reflexivity | left; reflexivity]].
      destruct (readCompletion _).
      * left. apply D. reflexivity.
      * right. split; [reflexivity | right; reflexivity].
  - right. split; [reflexivity | left; reflexivity].
Qed.

Section SendOutcomes.
Variable tz : Z.
Variable chat : string -> string -> ChatOutcome.
Variable chatLatency : string -> string -> Z.
Variable random36 : nat -> string.
Variable settings : AutomationSettings.t.

(** A successful [sendMessage] is a [deliver] from a world whose stores are
    those of the start. *)
Lemma sendMessage_success
    (profile : CustomerProfile.t) (customMessage : option string) (w : World) :
  success (fst (fst (sendMessage tz chat chatLatency random36 settings profile
                       customMessage w))) = true ->
  exists text w0,
    sendMessage tz chat chatLatency random36 settings profile customMessage w
    = deliver random36 settings profile text w0
    /\ messageHistory w0 = messageHistory w
    /\ messageTemplates w0 = messageTemplates w
    /\ profiles w0 = profiles w.
Proof.
  rewrite sendMessage_paths. cbv zeta.
  destruct (allowed _); cbn [negb]; [| discriminate].
  destruct customMessage as [[| c s] |].
  - destruct (openaiClient w); [| discriminate].
    destruct (readCompletion _); [| discriminate].
    intros _. eexists. eexists. split; [reflexivity |]. repeat split.
  - intros _. eexists. eexists. split; [reflexivity |]. repeat split.
  - destruct (openaiClient w); [| discriminate].
    destruct (readCompletion _); [| discriminate].
    intros _. eexists. eexists. split; [reflexivity |]. repeat split.
Qed.

(** A [sendMessage] that fails hands the profile back as it was and leaves
    templates and profiles alone; the history is as it was, or has one
    record of a failure more. *)
Lemma sendMessage_failure
    (profile : CustomerProfile.t) (customMessage : option string) (w : World) :
  let run := sendMessage tz chat chatLatency random36 settings profile
               customMessage w in
  success (fst (fst run)) = false ->
  snd (fst run) = profile
  /\ messageTemplates (snd run) = messageTemplates w
  /\ profiles (snd run) = profiles w
  /\ (messageHistory (snd run) = messageHistory w
      \/ exists h,
           messageHistory (snd run) = pushCapped 500 (messageHistory w) h
           /\ MessageHistory.success h = false
           /\ MessageHistory.profileId h = CustomerProfile.id profile).
Proof.
  cbv zeta. rewrite sendMessage_paths. cbv zeta.
  assert (D : forall text w0,
            success (fst (fst (deliver random36 settings profile text w0)))
            <> false).
  { intros text w0.
    destruct (deliver_effects random36 settings profile text w0) as (R & _).
    cbv zeta in R. rewrite R. discriminate. }
  assert (G : forall e w0,
            messageHistory w0 = messageHistory w ->
            messageTemplates w0 = messageTemplates w ->
            profiles w0 = profiles w ->
            let run :=
              (Delivery.recordMessageFailed ;;;
               saveMessageHistory random36 settings profile EmptyString false
                 (Some ("Failed to generate: " ++ errorMessage e)) ;;;
               ret (failure ("Failed to generate message: " ++ errorMessage e),
                    profile)) w0 in
            snd (fst run) = profile
            /\ messageTemplates (snd run) = messageTemplates w
            /\ profiles (snd run) = profiles w
            /\ (messageHistory (snd run) = messageHistory w
                \/ exists h,
                     messageHistory (snd run) = pushCapped 500 (messageHistory w) h
                     /\ MessageHistory.success h = false
                     /\ MessageHistory.profileId h = CustomerProfile.id profile)).
  { intros e w0 E1 E2 E3. cbv zeta.
    cbn -[pushCapped append decimal RateLimiter.recordMessageFailed].
    rewrite E1, E2, E3. repeat split.
    right. eexists. split; [reflexivity |]. split; reflexivity. }
  destruct (allowed _); cbn [negb].
  - destruct customMessage as [[| c s] |].
    + destruct (openaiClient w).
      * destruct (readCompletion _).
        -- intros H. destruct (D _ _ H).
        -- intros _. apply G; reflexivity.
      * intros _. cbn. repeat split. left. reflexivity.
    + intros H. destruct (D _ _ H).
    + destruct (openaiClient w).
      * destruct (readCompletion _).
        -- intros H. destruct (D _ _ H).
        -- intros _. apply G; reflexivity.
      * intros _. cbn. repeat split. left. reflexivity.
  - intros _. cbn. repeat split. left. reflexivity.
Qed.

End SendOutcomes.

Lemma upsert_In (p : CustomerProfile.t) (ps : list CustomerProfile.t) :
  In p (upsert p ps).
Proof.
  induction ps as [| q rest IH]; cbn [upsert].
  - left. reflexivity.
  - destruct (String.eqb _ _); [left; reflexivity | right; exact IH].
Qed.

Lemma pushCapped_length {A} (cap : Z) (xs : list A) (x : A) :
  Z.of_nat (List.length xs) <= cap ->
  Z.of_nat (List.length (pushCapped cap xs x)) <= cap.
Proof.
  intros H. unfold pushCapped.
  destruct (Z.ltb_spec cap (Z.of_nat (List.length (xs ++ [x])%list))) as [E | E];
    [| exact E].
  rewrite length_app in E. cbn [List.length] in E.
  destruct xs as [| a xs']; cbn [app tl List.length] in *.
  - lia.
  - rewrite length_app. cbn [List.length]. lia.
Qed.

(** X7.  What a call of [sendMessage] writes down.  On success: one
    history record and one template, both holding the message that is
    returned and marked successful, the record dated at the time of the
    send; the recipient's profile, with one message more and that time as
    its last message, is in the stored profiles.  On failure: no template,
    no change to the stored profiles or to the profile, and at most one
    history record, marked failed. *)
Theorem sendMessage_bookkeeping
    (tz : Z) (chat : string -> string -> ChatOutcome)
    (chatLatency : string -> string -> Z) (random36 : nat -> string)
    (settings : AutomationSettings.t) (profile : CustomerProfile.t)
    (customMessage : option string) (w : World) :
  let run := sendMessage tz chat chatLatency random36 settings profile
               customMessage w in
  let result := fst (fst run) in
  let profile' := snd (fst run) in
  let w' := snd run in
  if success result
  then
    (exists h m,
       messageHistory w' = pushCapped 500 (messageHistory w) h
       /\ messageTemplates w' = pushCapped 1000 (messageTemplates w) m
       /\ MessageHistory.success h = true
       /\ MessageTemplate.success m = true
       /\ message result = Some (MessageHistory.message h)
       /\ MessageTemplate.content m = MessageHistory.message h
       /\ MessageHistory.sentAt h = clock w'
       /\ MessageHistory.profileId h = CustomerProfile.id profile)
    /\ error result = None
    /\ In profile' (profiles w')
    /\ CustomerProfile.id profile' = CustomerProfile.id profile
    /\ CustomerProfile.messageCount profile'
       = CustomerProfile.messageCount profile + 1
    /\ CustomerProfile.lastMessageSent profile' = DLDate (Some (clock w'))
    /\ MessageStats.lastSentAt (stats (ledger w')) = DLDate (Some (clock w'))
  else
    profile' = profile
    /\ messageTemplates w' = messageTemplates w
    /\ profiles w' = profiles w
    /\ (messageHistory w' = messageHistory w
        \/ exists h,
             messageHistory w' = pushCapped 500 (messageHistory w) h
             /\ MessageHistory.success h = false
             /\ MessageHistory.profileId h = CustomerProfile.id profile).
Proof.
  cbv zeta.
  destruct (success _) eqn:S.
  - destruct (sendMessage_success tz chat chatLatency random36 settings profile
                customMessage w S) as (text & w0 & -> & E1 & E2 & E3).
    destruct (deliver_effects random36 settings profile text w0)
      as (R & C & L & (h & Hh & h1 & h2 & h3 & h4 & h5)
          & (m & Hm & m1 & m2 & m3) & P & I & N & D & _).
    cbv zeta in R, C, L, Hh, h4, Hm, P, I, N, D.
    rewrite R, C, L, Hh, Hm, P, I, N, D, E1, E2, E3.
    cbn [message error stats RateLimiter.recordMessageSent saveStats
         MessageStats.lastSentAt].
    split.
    + exists h, m. rewrite h1, h2, h4, h5, m1, m2. repeat split.
    + repeat split. apply upsert_In.
  - exact (sendMessage_failure tz chat chatLatency random36 settings profile
             customMessage w S).
Qed.

(** X8.  The caps on the stored lists: a history of at most 500 records
    and a template list of at most 1000 entries stay so through
    [sendMessage]. *)
Theorem sendMessage_keeps_caps
    (tz : Z) (chat : string -> string -> ChatOutcome)
    (chatLatency : string -> string -> Z) (random36 : nat -> string)
    (settings : AutomationSettings.t) (profile : CustomerProfile.t)
    (customMessage : option string) (w : World) :
  Z.of_nat (List.length (messageHistory w)) <= 500 ->
  Z.of_nat (List.length (messageTemplates w)) <= 1000 ->
  let w' := snd (sendMessage tz chat chatLatency random36 settings profile
                   customMessage w) in
  Z.of_nat (List.length (messageHistory w')) <= 500
  /\ Z.of_nat (List.length (messageTemplates w')) <= 1000.
Proof.
  intros Hh Ht. cbv zeta.
  destruct (success (fst (fst (sendMessage tz chat chatLatency random36 settings
                                 profile customMessage w)))) eqn:S.
  - destruct (sendMessage_success tz chat chatLatency random36 settings profile
                customMessage w S) as (text & w0 & -> & E1 & E2 & _).
    destruct (deliver_effects random36 settings profile text w0)
      as (_ & _ & _ & (h & -> & _) & (m & -> & _) & _).
    rewrite E1, E2. split; apply pushCapped_length; assumption.
  - destruct (sendMessage_failure tz chat chatLatency random36 settings profile
                customMessage w S) as (_ & -> & _ & [-> | (h & -> & _)]).
    + split; assumption.
    + split; [apply pushCapped_length |]; assumption.
Qed.

Lemma sendMessage_keeps_caps_witness :
  Z.of_nat (List.length (messageHistory
    (snd (sendMessage 0 Samples.chatAnswers Samples.latency Samples.random36
            Samples.settings Samples.fresh None
            (Samples.worldAt Samples.at1055 Samples.quietSince0800))))) <= 500.
Proof.
  refine (proj1
            (@sendMessage_keeps_caps 0 Samples.chatAnswers Samples.latency
               Samples.random36 Samples.settings Samples.fresh None
               (Samples.worldAt Samples.at1055 Samples.quietSince0800) _ _));
    vm_compute; discriminate.
Defined.

(** X9.  The weekly cooldown follows from a send: with a message count
    that is not negative, the profile a successful [sendMessage] hands
    back (the one it has stored) is not eligible for the automation at any
    time less than seven days after the send. *)
Theorem sent_profile_cools_down
    (tz : Z) (chat : string -> string -> ChatOutcome)
    (chatLatency : string -> string -> Z) (random36 : nat -> string)
    (settings : AutomationSettings.t) (profile : CustomerProfile.t)
    (customMessage : option string) (w : World) (later : Z) :
  let run := sendMessage tz chat chatLatency random36 settings profile
               customMessage w in
  0 <= CustomerProfile.messageCount profile ->
  success (fst (fst run)) = true ->
  later < clock (snd run) + 7 * JsDate.msPerDay ->
  Eligibility.isEligible later (snd (fst run)) = false
  /\ In (snd (fst run)) (profiles (snd run)).
Proof.
  cbv zeta. intros Hcount S Hlater.
  destruct (sendMessage_success tz chat chatLatency random36 settings profile
              customMessage w S) as (text & w0 & E & _).
  rewrite E in *. clear E S.
  destruct (deliver_effects random36 settings profile text w0)
    as (_ & C & _ & _ & _ & P & _ & N & D & _).
  cbv zeta in C, P, N, D.
  split; [| rewrite P; apply upsert_In].
  rewrite C in Hlater.
  destruct (Eligibility.isEligible later _) eqn:El; [| reflexivity].
  apply isEligible_spec in El. rewrite N, D in El.
  destruct El as [El | [El | (last & El & Hlast)]].
  - lia.
  - discriminate.
  - cbn [newDate] in El. injection El as <-. lia.
Qed.

Lemma sent_profile_cools_down_witness :
  Eligibility.isEligible (Samples.at1055 + 6 * JsDate.msPerDay)
    (snd (fst (sendMessage 0 Samples.chatAnswers Samples.latency Samples.random36
                 Samples.settings Samples.fresh None
                 (Samples.worldAt Samples.at1055 Samples.quietSince0800))))
  = false.
Proof.
  refine (proj1
            (@sent_profile_cools_down 0 Samples.chatAnswers Samples.latency
               Samples.random36 Samples.settings Samples.fresh None
               (Samples.worldAt Samples.at1055 Samples.quietSince0800)
               (Samples.at1055 + 6 * JsDate.msPerDay) _ _ _)).
  - vm_compute. discriminate.
  - vm_compute. reflexivity.
  - vm_compute. reflexivity.
Defined.

(** X10.  Without an API key nothing is attempted and nothing is written
    down: a permitted [sendMessage] without override text returns the
    failure "OpenAI API key not configured", and the world afterwards is
    the one before but for the rolled counters: no failure is counted, no
    history record is kept, no call is made and no time passes. *)
Theorem sendMessage_without_key
    (tz : Z) (chat : string -> string -> ChatOutcome)
    (chatLatency : string -> string -> Z) (random36 : nat -> string)
    (settings : AutomationSettings.t) (profile : CustomerProfile.t)
    (customMessage : option string) (w : World) :
  openaiClient w = None ->
  orDefault customMessage EmptyString = EmptyString ->
  allowed (fst (RateLimiter.canSendMessage tz settings (clock w) (ledger w))) = true ->
  sendMessage tz chat chatLatency random36 settings profile customMessage w
  = ((failure "OpenAI API key not configured", profile),
     withLedger
       {| stats := updateTimeBasedCounts tz (clock w) (stats (ledger w));
          stored := stored (ledger w) |} w).
Proof.
  intros Hclient Hcustom Hallowed.
  rewrite sendMessage_paths. cbv zeta. rewrite Hallowed, Hclient. cbn [negb].
  destruct customMessage as [[| c s] |]; [reflexivity | discriminate | reflexivity].
Qed.

Lemma sendMessage_without_key_witness :
  fst (fst (sendMessage 0 Samples.chatAnswers Samples.latency Samples.random36
              Samples.settings Samples.fresh None
              (MoreSamples.worldWithoutKey Samples.at1055 Samples.quietSince0800)))
  = failure "OpenAI API key not configured".
Proof.
  rewrite (@sendMessage_without_key 0 Samples.chatAnswers Samples.latency
             Samples.random36 Samples.settings Samples.fresh None
             (MoreSamples.worldWithoutKey Samples.at1055 Samples.quietSince0800)
             eq_refl eq_refl eq_refl).
  reflexivity.
Defined.

Section TextFacts.
Import Text.

Lemma trimStart_head (s : string) :
  match trimStart s with
  | EmptyString => True
  | String c _ => isWhiteSpace c = false
  end.
Proof.
  induction s as [| c s IH]; cbn [trimStart]; [exact I |].
  destruct (isWhiteSpace c) eqn:E; [exact IH | exact E].
Qed.

Lemma trimEnd_cons (c : ascii) (s : string) :
  isWhiteSpace c = false -> trimEnd (String c s) = String c (trimEnd s).
Proof.
  intros H. cbn [trimEnd]. rewrite H. destruct (trimEnd s); reflexivity.
Qed.

Lemma trimEnd_idempotent (s : string) : trimEnd (trimEnd s) = trimEnd s.
Proof.
  induction s as [| c s IH]; [reflexivity |].
  cbn [trimEnd]. destruct (trimEnd s) as [| d r] eqn:E.
  - destruct (isWhiteSpace c) eqn:W; [reflexivity |].
    cbn [trimEnd]. rewrite W. reflexivity.
  - change (trimEnd (String c (String d r))) with
      (match trimEnd (String d r) with
       | EmptyString => if isWhiteSpace c then EmptyString else String c EmptyString
       | r' => String c r'
       end).
    rewrite IH. reflexivity.
Qed.

Lemma trim_idempotent (s : string) : trim (trim s) = trim s.
Proof.
  unfold trim. pose proof (trimStart_head s) as H.
  destruct (trimStart s) as [| c r]; [reflexivity |].
  rewrite (trimEnd_cons c r H). cbn [trimStart]. rewrite H.
  rewrite <- (trimEnd_cons c r H). apply trimEnd_idempotent.
Qed.

Lemma matchPrefixCI_app (pat s rest tail : string) :
  matchPrefixCI pat s = Some rest ->
  matchPrefixCI pat (s ++ tail) = Some (rest ++ tail).
Proof.
  revert s. induction pat as [| p pat IH]; intros s; cbn [matchPrefixCI].
  - intros E. injection E as <-. reflexivity.
  - destruct s as [| c s]; [discriminate |].
    cbn [append]. destruct (Ascii.eqb _ _); [apply IH | discriminate].
Qed.

Lemma greetingRegexTest_app (s tail : string) :
  greetingRegexTest s = true -> greetingRegexTest (s ++ tail) = true.
Proof.
  unfold greetingRegexTest. rewrite !existsb_exists.
  intros (word & Hin & H). exists word. split; [exact Hin |].
  destruct (matchPrefixCI word s) as [[| c r] |] eqn:E; try discriminate.
  rewrite (matchPrefixCI_app _ _ tail E). exact H.
Qed.

End TextFacts.

(** X11.  Every templated message opens with a greeting: the text
    [applyNameTemplate] returns passes the greeting test of the code
    ([/^(hi|hello|hey)[^a-z]/i]), whatever the message, the names and the
    settings. *)
Theorem applyNameTemplate_greets
    (settings : AutomationSettings.t) (text : string) (profile : CustomerProfile.t) :
  greetingRegexTest (applyNameTemplate settings text profile) = true.
Proof.
  unfold applyNameTemplate. cbv zeta.
  match goal with
  | |- greetingRegexTest ((if greetingRegexTest ?b then _ else _) ++ _) = _ =>
      destruct (greetingRegexTest b) eqn:G
  end.
  - cbn [append]. apply greetingRegexTest_app. exact G.
  - reflexivity.
Qed.

(** X12.  A draft costs nothing of the quota and leaves no record:
    [generateDraft] changes neither the limiter nor the stored templates,
    history and profiles.  Without an API key it throws "OpenAI API key
    not configured" and the world is untouched; with one it makes exactly
    one chat completion call, for the configured model and the prompt of
    the profile. *)
Theorem generateDraft_leaves_no_record
    (chat : string -> string -> ChatOutcome) (chatLatency : string -> string -> Z)
    (settings : AutomationSettings.t) (profile : CustomerProfile.t) (w : World) :
  let run := Background.generateDraft chat chatLatency settings profile w in
  let w' := snd run in
  ledger w' = ledger w
  /\ messageTemplates w' = messageTemplates w
  /\ messageHistory w' = messageHistory w
  /\ profiles w' = profiles w
  /\ match openaiClient w with
     | None =>
         run = (Throws (ErrorObject "OpenAI API key not configured"), w)
     | Some _ =>
         trace w'
         = (trace w
            ++ [EvChatCompletion (AutomationSettings.openaiModel settings)
                  (createPrompt profile)])%list
         /\ clock w'
            = clock w
              + chatLatency (AutomationSettings.openaiModel settings)
                  (createPrompt profile)
     end.
Proof.
  cbv zeta.
  unfold Background.generateDraft, generatePersonalizedMessage,
    isOpenAIConfigured, bind.
  destruct (openaiClient w) eqn:K; cbn [fst snd negb].
  - rewrite K. cbn [negb].
    destruct (readCompletion _); cbn; repeat split.
  - cbn. repeat split.
Qed.

(** X13.  What [generatePersonalizedMessage] makes of an answer, once a
    key is set.  A text it returns is the content trimmed, is not empty and
    has no white space left to trim; content that is missing, empty or all
    white space is the error "No message generated from OpenAI"; a
    rejection is thrown on as it is. *)
Theorem generatePersonalizedMessage_text
    (chat : string -> string -> ChatOutcome) (chatLatency : string -> string -> Z)
    (profile : CustomerProfile.t) (model key : string) (w : World) :
  openaiClient w = Some key ->
  match chat model (createPrompt profile),
        fst (generatePersonalizedMessage chat chatLatency profile model w) with
  | ChatContent (Some content), Normal text =>
      text = trim content /\ text <> EmptyString /\ trim text = text
  | ChatContent (Some content), Throws e =>
      e = ErrorObject "No message generated from OpenAI"
      /\ trim content = EmptyString
  | ChatContent None, answer =>
      answer = Throws (ErrorObject "No message generated from OpenAI")
  | ChatRejects e, answer => answer = Throws e
  end.
Proof.
  intros K.
  unfold generatePersonalizedMessage, isOpenAIConfigured, bind.
  rewrite K. cbn [fst snd negb emit elapse ret].
  destruct (chat model (createPrompt profile)) as [[content |] | e];
    cbn [readCompletion option_map]; [| reflexivity | reflexivity].
  destruct (trim content) as [| c s] eqn:T.
  - split; reflexivity.
  - split; [reflexivity |]. split; [discriminate |].
    rewrite <- T. apply trim_idempotent.
Qed.

Lemma generatePersonalizedMessage_text_witness :
  fst (generatePersonalizedMessage Samples.chatAnswers Samples.latency
         Samples.fresh "gpt-4o-mini"
         (Samples.worldAt Samples.at1055 Samples.quietSince0800))
  = Normal "Loved your work on [Recipient] tooling.".
Proof.
  pose proof (@generatePersonalizedMessage_text Samples.chatAnswers
                Samples.latency Samples.fresh "gpt-4o-mini" "sk-test"
                (Samples.worldAt Samples.at1055 Samples.quietSince0800)
                eq_refl) as H.
  cbv beta iota delta [Samples.chatAnswers] in H.
  destruct (fst (generatePersonalizedMessage _ _ _ _ _)) as [text | e].
  - destruct H as (-> & _). reflexivity.
  - destruct H as (_ & H). vm_compute in H. discriminate.
Defined.

(* ===================================================================== *)
(** * The stored profiles and the message history *)
(* ===================================================================== *)

Section StorageFacts.
Import Storage.

Lemma revive_id (p : CustomerProfile.t) :
  CustomerProfile.id (revive p) = CustomerProfile.id p.
Proof. reflexivity. Qed.

Lemma revive_idempotent (p : CustomerProfile.t) : revive (revive p) = revive p.
Proof.
  unfold revive.
  cbn [CustomerProfile.id CustomerProfile.name CustomerProfile.email
       CustomerProfile.country CustomerProfile.age CustomerProfile.ageGroup
       CustomerProfile.interests CustomerProfile.bio CustomerProfile.profileUrl
       CustomerProfile.collectedAt CustomerProfile.lastMessageSent
       CustomerProfile.messageCount].
  destruct (truthy (CustomerProfile.lastMessageSent p)); reflexivity.
Qed.

Lemma revive_upsert (p : CustomerProfile.t) (ps : list CustomerProfile.t) :
  map revive (upsert p (map revive ps)) = upsert (revive p) (map revive ps).
Proof.
  induction ps as [| q rest IH]; cbn [map upsert]; [reflexivity |].
  rewrite !revive_id.
  destruct (String.eqb (CustomerProfile.id q) (CustomerProfile.id p)); cbn [map].
  - rewrite map_map. f_equal. apply map_ext. intros a. apply revive_idempotent.
  - rewrite revive_idempotent, IH. reflexivity.
Qed.

Lemma upsert_find (p : CustomerProfile.t) (ps : list CustomerProfile.t) :
  find (fun q => String.eqb (CustomerProfile.id q) (CustomerProfile.id p))
    (upsert p ps) = Some p.
Proof.
  induction ps as [| q rest IH]; cbn [upsert find].
  - rewrite String.eqb_refl. reflexivity.
  - destruct (String.eqb (CustomerProfile.id q) (CustomerProfile.id p)) eqn:E;
      cbn [find].
    + rewrite String.eqb_refl. reflexivity.
    + rewrite E. exact IH.
Qed.

Lemma upsert_others (p q : CustomerProfile.t) (ps : list CustomerProfile.t) :
  CustomerProfile.id q <> CustomerProfile.id p ->
  In q (upsert p ps) <-> In q ps.
Proof.
  intros Hq. induction ps as [| a rest IH]; cbn [upsert].
  - cbn [In]. split; [intros [<- | []]; congruence | intros []].
  - destruct (String.eqb_spec (CustomerProfile.id a) (CustomerProfile.id p)) as [E | E];
      cbn [In].
    + split; intros [<- | H]; try congruence; right; exact H.
    + rewrite IH. reflexivity.
Qed.

Lemma upsert_length (p : CustomerProfile.t) (ps : list CustomerProfile.t) :
  List.length (upsert p ps)
  = (List.length ps
     + if existsb (fun q => String.eqb (CustomerProfile.id q) (CustomerProfile.id p)) ps
       then 0 else 1)%nat.
Proof.
  induction ps as [| a rest IH]; cbn [upsert existsb List.length]; [reflexivity |].
  destruct (String.eqb (CustomerProfile.id a) (CustomerProfile.id p));
    cbn [orb List.length]; [lia | rewrite IH; lia].
Qed.

Lemma upsert_ids_In (p : CustomerProfile.t) (ps : list CustomerProfile.t) (i : string) :
  In i (map CustomerProfile.id (upsert p ps)) ->
  i = CustomerProfile.id p \/ In i (map CustomerProfile.id ps).
Proof.
  induction ps as [| a rest IH]; cbn [upsert map In].
  - intros [<- | []]. left. reflexivity.
  - destruct (String.eqb_spec (CustomerProfile.id a) (CustomerProfile.id p)) as [E | E];
      cbn [map In].
    + intros [<- | H]; [left; reflexivity | right; right; exact H].
    + intros [<- | H]; [right; left; reflexivity |].
      destruct (IH H) as [-> | H']; [left; reflexivity | right; right; exact H'].
Qed.

Lemma upsert_NoDup (p : CustomerProfile.t) (ps : list CustomerProfile.t) :
  NoDup (map CustomerProfile.id ps) ->
  NoDup (map CustomerProfile.id (upsert p ps)).
Proof.
  induction ps as [| a rest IH]; cbn [upsert map]; intros H.
  - constructor; [intros [] | constructor].
  - inversion H as [| x xs Hnotin Hrest]; subst.
    destruct (String.eqb_spec (CustomerProfile.id a) (CustomerProfile.id p)) as [E | E];
      cbn [map].
    + rewrite <- E. constructor; assumption.
    + constructor; [| apply IH; exact Hrest].
      intros Hin. apply upsert_ids_In in Hin as [Hin | Hin]; [congruence | contradiction].
Qed.






End StorageFacts.

(** X14.  [saveProfile] as [getProfiles] reads it back: the profile found
    under the id of the one saved is that one, in every field but the
    dates (of which nothing is said); a profile of another id is there
    exactly if it was before, the list is as long as it was or one longer
    (the id was new), ids that were unique stay unique, and nothing else
    of the storage changes. *)
Theorem saveProfile_then_getProfiles (p : CustomerProfile.t) (w : World) :
  let before := fst (Storage.getProfiles w) in
  let w' := snd (Storage.saveProfile p w) in
  let after := fst (Storage.getProfiles w') in
  (exists q,
     find (fun q => String.eqb (CustomerProfile.id q) (CustomerProfile.id p)) after
     = Some q
     /\ Storage.sameButDates p q)
  /\ (forall q, CustomerProfile.id q <> CustomerProfile.id p ->
                In q after <-> In q before)
  /\ List.length after
     = (List.length before
        + if existsb (fun q => String.eqb (CustomerProfile.id q) (CustomerProfile.id p))
               before
          then 0 else 1)%nat
  /\ (NoDup (map CustomerProfile.id before) -> NoDup (map CustomerProfile.id after))
  /\ ledger w' = ledger w
  /\ messageHistory w' = messageHistory w
  /\ messageTemplates w' = messageTemplates w.
Proof.
  cbv zeta. unfold Storage.saveProfile, Storage.getProfiles, setProfiles, bind.
  cbn [fst snd profiles ledger messageHistory messageTemplates].
  rewrite revive_upsert.
  split.
  { exists (Storage.revive p). split.
    - rewrite <- (revive_id p). apply upsert_find.
    - repeat split. }
  split.
  { intros q Hq. apply upsert_others. rewrite revive_id. exact Hq. }
  split.
  { rewrite upsert_length, revive_id. reflexivity. }
  split.
  { apply upsert_NoDup. }
  repeat split.
Qed.



(** X17.  [clearAllData] empties what is stored (profiles, history,
    templates, statistics) but not the counters the limiter holds in
    memory: the next send the limiter records writes the old totals back,
    one more than before the wipe. *)
Theorem clearAllData_keeps_limiter_memory (w : World) :
  let wiped := snd (Storage.clearAllData w) in
  let next := snd (Delivery.recordMessageSent wiped) in
  fst (Storage.getProfiles wiped) = []
  /\ fst (Storage.getMessageHistory wiped) = []
  /\ messageTemplates wiped = []
  /\ fst (Storage.getMessageStats wiped) = RateLimiter.initialStats
  /\ stats (ledger wiped) = stats (ledger w)
  /\ MessageStats.totalSent (fst (Storage.getMessageStats next))
     = MessageStats.totalSent (stats (ledger w)) + 1
  /\ MessageStats.totalFailed (fst (Storage.getMessageStats next))
     = MessageStats.totalFailed (stats (ledger w)).
Proof.
  cbv zeta. repeat split.
Qed.

(* ===================================================================== *)
(** * The automation *)
(* ===================================================================== *)

Section AutomationFacts.
Import Background.

(** The handle kept in [automationInterval] is the one interval that runs. *)
Lemma stopAutomation_clears (s : Scheduler) :
  match automationInterval s with
  | Some h => exists p, intervals s = [(h, p)]
  | None => intervals s = []
  end ->
  intervals (stopAutomation s) = [] /\ automationInterval (stopAutomation s) = None
  /\ nextHandle (stopAutomation s) = nextHandle s.
Proof.
  unfold stopAutomation. destruct (automationInterval s) as [h |] eqn:E.
  - intros (p & Hp). cbn [intervals automationInterval nextHandle clearInterval].
    rewrite Hp. cbn [filter fst]. rewrite Pos.eqb_refl. repeat split.
  - intros Hp. rewrite E. repeat split. exact Hp.
Qed.

Lemma handle_tidy (c : Command) (s : Scheduler) :
  match automationInterval s with
  | Some h => exists p, intervals s = [(h, p)]
  | None => intervals s = []
  end ->
  let s' := handle c s in
  match c with
  | Stop => intervals s' = [] /\ automationInterval s' = None
  | Start st | SettingsChanged st =>
      if AutomationSettings.enabled st
      then intervals s' = [(nextHandle s, period st)]
           /\ automationInterval s' = Some (nextHandle s)
           /\ messageDeliveryService s' = Some st
      else intervals s' = [] /\ automationInterval s' = None
  end.
Proof.
  intros H. destruct (stopAutomation_clears s H) as (Hi & Ha & Hn).
  destruct c as [st | | st]; cbn [handle]; cbv zeta.
  - unfold startAutomation. destruct (AutomationSettings.enabled st); cbn [negb].
    + cbn [intervals automationInterval messageDeliveryService].
      rewrite Hi, Hn. repeat split.
    + split; assumption.
  - split; assumption.
  - destruct (AutomationSettings.enabled st) eqn:E.
    + unfold startAutomation. rewrite E. cbn [negb].
      cbn [intervals automationInterval messageDeliveryService].
      rewrite Hi, Hn. repeat split.
    + split; assumption.
Qed.

Lemma handleAll_tidy (cs : list Command) (s : Scheduler) :
  match automationInterval s with
  | Some h => exists p, intervals s = [(h, p)]
  | None => intervals s = []
  end ->
  match automationInterval (handleAll cs s) with
  | Some h => exists p, intervals (handleAll cs s) = [(h, p)]
  | None => intervals (handleAll cs s) = []
  end.
Proof.
  revert s. induction cs as [| c cs IH]; intros s H; [exact H |].
  cbn [handleAll fold_left]. apply IH.
  pose proof (handle_tidy c s H) as T. cbv zeta in T.
  destruct c as [st | | st].
  - destruct (AutomationSettings.enabled st).
    + destruct T as (Hi & -> & _). eexists. exact Hi.
    + destruct T as (Hi & ->). exact Hi.
  - destruct T as (Hi & ->). exact Hi.
  - destruct (AutomationSettings.enabled st).
    + destruct T as (Hi & -> & _). eexists. exact Hi.
    + destruct T as (Hi & ->). exact Hi.
Qed.

End AutomationFacts.

(** X18.  Never two timers: after any sequence of start and stop messages
    and settings changes, from the state at load, the last of them
    decides.  After a stop, or a start or change with [enabled] off, no
    interval runs; after a start or change with [enabled] on, exactly one
    runs, its period the [delayBetweenMessages] of those settings (60000
    where that is 0), and the service is made with those settings. *)
Theorem at_most_one_timer (cs : list Background.Command) (c : Background.Command) :
  let s := Background.handleAll (cs ++ [c])%list Background.idle in
  match c with
  | Background.Stop =>
      Background.intervals s = [] /\ Background.automationInterval s = None
  | Background.Start st | Background.SettingsChanged st =>
      if AutomationSettings.enabled st
      then exists h,
             Background.intervals s = [(h, Background.period st)]
             /\ Background.automationInterval s = Some h
             /\ Background.messageDeliveryService s = Some st
             /\ Background.period st <> 0
      else Background.intervals s = [] /\ Background.automationInterval s = None
  end.
Proof.
  cbv zeta. unfold Background.handleAll. rewrite fold_left_app. cbn [fold_left].
  fold (Background.handleAll cs Background.idle).
  assert (T : match Background.automationInterval
                      (Background.handleAll cs Background.idle) with
              | Some h =>
                  exists p,
                    Background.intervals (Background.handleAll cs Background.idle)
                    = [(h, p)]
              | None =>
                  Background.intervals (Background.handleAll cs Background.idle) = []
              end).
  { apply handleAll_tidy. reflexivity. }
  pose proof (handle_tidy c _ T) as H. cbv zeta in H.
  assert (P : forall st, Background.period st <> 0).
  { intros st. unfold Background.period.
    destruct (Z.eqb_spec
                (RateLimit.delayBetweenMessages (AutomationSettings.rateLimit st)) 0);
      [discriminate | assumption]. }
  destruct c as [st | | st]; [| exact H |];
    (destruct (AutomationSettings.enabled st); [| exact H]);
    destruct H as (Hi & Ha & Hs); eexists; repeat split; eauto.
Qed.

(** [Math.floor(Math.random() * n)] is an index of a list of [n] elements. *)
Lemma randomIndex_range (r : Q) (n : nat) :
  (0 <= r)%Q -> (r < 1)%Q -> (0 < n)%nat ->
  0 <= Background.randomIndex r n < Z.of_nat n.
Proof.
  intros H0 H1 Hn. unfold Background.randomIndex.
  assert (Hpos : (0 < inject_Z (Z.of_nat n))%Q).
  { change 0%Q with (inject_Z 0). rewrite <- Zlt_Qlt. lia. }
  split.
  - change 0 with (Qfloor 0). apply Qfloor_resp_le.
    apply Qmult_le_0_compat; [exact H0 | apply Qlt_le_weak; exact Hpos].
  - rewrite Zlt_Qlt.
    apply Qle_lt_trans with (y := (r * inject_Z (Z.of_nat n))%Q);
      [apply Qfloor_le |].
    setoid_replace (inject_Z (Z.of_nat n)) with (1 * inject_Z (Z.of_nat n))%Q at 2
      by ring.
    apply Qmult_lt_compat_r; assumption.
Qed.

(** X19.  Whom a cycle of the automation writes to.  With [Math.random()]
    in its range, a cycle that finds no stored profile both matching the
    stored filters and eligible does nothing at all; otherwise it makes
    one [sendMessage], without override text, to a stored profile that
    matches the filters and is eligible at that time. *)
Theorem runAutomationCycle_sends_to_eligible
    (tz : Z) (chat : string -> string -> ChatOutcome)
    (chatLatency : string -> string -> Z) (random36 : nat -> string)
    (randomUnit : nat -> Q) (storedFilters : option Filter.FilterSettings)
    (settings : AutomationSettings.t) (w : World) :
  (0 <= randomUnit (randomDraws w))%Q ->
  (randomUnit (randomDraws w) < 1)%Q ->
  let filters := Storage.getFilterSettings storedFilters in
  let run := Background.runAutomationCycle tz chat chatLatency random36 randomUnit
               storedFilters (Some settings) w in
  match Eligibility.eligibleProfiles (clock w)
          (Filter.filterProfiles (fst (Storage.getProfiles w)) filters) with
  | [] => run = (tt, w)
  | _ :: _ =>
      exists profile,
        In profile (fst (Storage.getProfiles w))
        /\ Filter.matchesFilters profile filters = true
        /\ Eligibility.isEligible (clock w) profile = true
        /\ snd run
           = snd (sendMessage tz chat chatLatency random36 settings profile None
                    (snd (Background.mathRandom randomUnit w)))
  end.
Proof.
  intros H0 H1. cbv zeta.
  unfold Background.runAutomationCycle, Storage.getProfiles, now, bind.
  cbn [fst snd].
  destruct (Eligibility.eligibleProfiles _ _) as [| p0 rest] eqn:E; [reflexivity |].
  unfold Background.mathRandom at 1. cbn [fst snd].
  pose proof (@randomIndex_range (randomUnit (randomDraws w))
                (List.length (p0 :: rest)) H0 H1) as R.
  cbn [List.length] in R. specialize (R (Nat.lt_0_succ _)).
  destruct (nth_error (p0 :: rest) _) as [profile |] eqn:N.
  - exists profile.
    apply nth_error_In in N. rewrite <- E in N.
    unfold Eligibility.eligibleProfiles, Filter.filterProfiles in N.
    apply filter_In in N as [N Hel]. apply filter_In in N as [N Hm].
    split; [exact N |]. split; [exact Hm |]. split; [exact Hel |].
    unfold Background.mathRandom. cbn [snd].
    destruct (sendMessage _ _ _ _ _ _ _ _) as [result w']. reflexivity.
  - apply nth_error_None in N. cbn [List.length] in N. lia.
Qed.

Lemma runAutomationCycle_sends_to_eligible_witness :
  exists profile,
    In profile (fst (Storage.getProfiles
                       (Samples.worldAt Samples.at1055 Samples.quietSince0800)))
    /\ Filter.matchesFilters profile (Storage.getFilterSettings None) = true
    /\ Eligibility.isEligible Samples.at1055 profile = true
    /\ snd (Background.runAutomationCycle 0 Samples.chatAnswers Samples.latency
              Samples.random36 MoreSamples.randomUnit None (Some Samples.settings)
              (Samples.worldAt Samples.at1055 Samples.quietSince0800))
       = snd (sendMessage 0 Samples.chatAnswers Samples.latency Samples.random36
                Samples.settings profile None
                (snd (Background.mathRandom MoreSamples.randomUnit
                        (Samples.worldAt Samples.at1055 Samples.quietSince0800)))).
Proof.
  apply (@runAutomationCycle_sends_to_eligible 0 Samples.chatAnswers
           Samples.latency Samples.random36 MoreSamples.randomUnit None
           Samples.settings
           (Samples.worldAt Samples.at1055 Samples.quietSince0800)).
  - vm_compute. discriminate.
  - vm_compute. reflexivity.
Defined.

(* ===================================================================== *)
(** * More on the serialisation *)
(* ===================================================================== *)

Lemma deserializeProfile_revive (now : Z) (data : CustomerProfile.t) :
  Storage.revive (deserializeProfile now data) = deserializeProfile now data.
Proof.
  unfold Storage.revive, deserializeProfile.
  cbn [CustomerProfile.id CustomerProfile.name CustomerProfile.email
       CustomerProfile.country CustomerProfile.age CustomerProfile.ageGroup
       CustomerProfile.interests CustomerProfile.bio CustomerProfile.profileUrl
       CustomerProfile.collectedAt CustomerProfile.lastMessageSent
       CustomerProfile.messageCount].
  destruct (truthy (CustomerProfile.collectedAt data));
    destruct (truthy (CustomerProfile.lastMessageSent data));
    destruct (CustomerProfile.collectedAt data);
    destruct (CustomerProfile.lastMessageSent data); reflexivity.
Qed.

(** X21.  [deserializeProfile] always hands out [Date] objects:
    [collectedAt] is a [Date], [lastMessageSent] is a [Date] or absent,
    whatever the data received; and data that has been deserialised is
    left as it is by a second pass, at any time. *)
Theorem deserializeProfile_dates (now now' : Z) (data : CustomerProfile.t) :
  let p := deserializeProfile now data in
  (exists d, CustomerProfile.collectedAt p = DLDate d)
  /\ (CustomerProfile.lastMessageSent p = DLUndefined
      \/ exists d, CustomerProfile.lastMessageSent p = DLDate d)
  /\ deserializeProfile now' p = p.
Proof.
  cbv zeta. unfold deserializeProfile.
  cbn [CustomerProfile.id CustomerProfile.name CustomerProfile.email
       CustomerProfile.country CustomerProfile.age CustomerProfile.ageGroup
       CustomerProfile.interests CustomerProfile.bio CustomerProfile.profileUrl
       CustomerProfile.collectedAt CustomerProfile.lastMessageSent
       CustomerProfile.messageCount].
  rewrite !orZero_id, !copyArray_id.
  destruct (truthy (CustomerProfile.collectedAt data)) eqn:Tc;
    destruct (truthy (CustomerProfile.lastMessageSent data)) eqn:Tl;
    destruct (CustomerProfile.collectedAt data);
    destruct (CustomerProfile.lastMessageSent data);
    cbn [deserializeDate truthy];
    (split; [eexists; reflexivity |]);
    (split; [first [left; reflexivity | right; eexists; reflexivity] |]);
    reflexivity.
Qed.

(** X22.  The two versions of [serializeProfile] in the sources agree
    wherever the first does not throw; and it throws exactly on an Invalid
    Date: a [collectedAt] or [lastMessageSent] that is a [Date], or is
    truthy, and has no time value.  (The version with [safeDate] never
    throws.) *)
Theorem serializeProfile_versions_agree (now : Z) (profile : CustomerProfile.t) :
  let invalid v :=
    match v with
    | DLDate d => d = None
    | _ => truthy v = true /\ newDate v = None
    end in
  match serializeProfile now profile with
  | Some data => serializeProfileSafe now profile = data
  | None =>
      invalid (CustomerProfile.collectedAt profile)
      \/ invalid (CustomerProfile.lastMessageSent profile)
  end
  /\ (invalid (CustomerProfile.collectedAt profile)
      \/ invalid (CustomerProfile.lastMessageSent profile) ->
      serializeProfile now profile = None).
Proof.
  cbv zeta. unfold serializeProfile, serializeProfileSafe.
  destruct profile as [pid pname pemail pcountry page pgroup pinterests pbio purl
                         pcollected plast pcount].
  cbn [CustomerProfile.id CustomerProfile.name CustomerProfile.email
       CustomerProfile.country CustomerProfile.age CustomerProfile.ageGroup
       CustomerProfile.interests CustomerProfile.bio CustomerProfile.profileUrl
       CustomerProfile.collectedAt CustomerProfile.lastMessageSent
       CustomerProfile.messageCount].
  assert (C : match serializeCollectedAt now pcollected with
              | Some c =>
                  c = JsDate.isoOfTime
                        match safeDate now pcollected true with
                        | Some t => t
                        | None => now
                        end
                  /\ ~ match pcollected with
                       | DLDate d => d = None
                       | _ => truthy pcollected = true /\ newDate pcollected = None
                       end
              | None =>
                  match pcollected with
                  | DLDate d => d = None
                  | _ => truthy pcollected = true /\ newDate pcollected = None
                  end
              end).
  { unfold serializeCollectedAt, safeDate.
    destruct pcollected as [[t |] | s | n |]; cbn [JsDate.toISOString];
      try (split; [reflexivity | discriminate]); try reflexivity.
    - destruct (truthy (DLString s)) eqn:T.
      + destruct (newDate (DLString s)) as [t |] eqn:E; cbn [JsDate.toISOString].
        * split; [reflexivity |]. intros [_ H]. discriminate.
        * split; reflexivity.
      + cbn [JsDate.toISOString]. split; [reflexivity |]. intros [H _]. discriminate.
    - destruct (truthy (DLNumber n)) eqn:T.
      + destruct (newDate (DLNumber n)) as [t |] eqn:E; cbn [JsDate.toISOString].
        * split; [reflexivity |]. intros [_ H]. discriminate.
        * split; reflexivity.
      + cbn [JsDate.toISOString]. split; [reflexivity |]. intros [H _]. discriminate.
    - cbn [truthy JsDate.toISOString]. split; [reflexivity |]. intros [H _].
      discriminate. }
  assert (L : match serializeLastMessageSent plast with
              | Some l =>
                  l = match safeDate now plast false with
                      | Some t => DLString (JsDate.isoOfTime t)
                      | None => DLUndefined
                      end
                  /\ ~ match plast with
                       | DLDate d => d = None
                       | _ => truthy plast = true /\ newDate plast = None
                       end
              | None =>
                  match plast with
                  | DLDate d => d = None
                  | _ => truthy plast = true /\ newDate plast = None
                  end
              end).
  { unfold serializeLastMessageSent, safeDate.
    destruct plast as [[t |] | s | n |]; cbn [JsDate.toISOString option_map];
      try (split; [reflexivity | discriminate]); try reflexivity.
    - destruct (truthy (DLString s)) eqn:T.
      + destruct (newDate (DLString s)) as [t |] eqn:E;
          cbn [JsDate.toISOString option_map].
        * split; [reflexivity |]. intros [_ H]. discriminate.
        * split; reflexivity.
      + split; [reflexivity |]. intros [H _]. discriminate.
    - destruct (truthy (DLNumber n)) eqn:T.
      + destruct (newDate (DLNumber n)) as [t |] eqn:E;
          cbn [JsDate.toISOString option_map].
        * split; [reflexivity |]. intros [_ H]. discriminate.
        * split; reflexivity.
      + split; [reflexivity |]. intros [H _]. discriminate.
    - cbn [truthy]. split; [reflexivity |]. intros [H _]. discriminate. }
  destruct (serializeCollectedAt now pcollected) as [c |];
    destruct (serializeLastMessageSent plast) as [l |].
  - destruct C as [-> Cn], L as [-> Ln]. split; [reflexivity |]. tauto.
  - split; [right; exact L | reflexivity].
  - split; [left; exact C | reflexivity].
  - split; [left; exact C | reflexivity].
Qed.

(** X20.  A profile received from the content script is stored: after
    [handleProfileExtracted], [getProfiles] finds, under the id of the
    data, a profile with the fields of the data, in every field but the
    dates (of which nothing is said); the other profiles are those that
    were there, and limiter, history and templates are untouched. *)
Theorem handleProfileExtracted_stores (profileData : CustomerProfile.t) (w : World) :
  let w' := snd (Background.handleProfileExtracted profileData w) in
  let after := fst (Storage.getProfiles w') in
  (exists q,
     find (fun q => String.eqb (CustomerProfile.id q)
                      (CustomerProfile.id profileData)) after
     = Some q
     /\ Storage.sameButDates profileData q)
  /\ (forall q, CustomerProfile.id q <> CustomerProfile.id profileData ->
                In q after <-> In q (fst (Storage.getProfiles w)))
  /\ ledger w' = ledger w
  /\ messageHistory w' = messageHistory w
  /\ messageTemplates w' = messageTemplates w.
Proof.
  cbv zeta.
  unfold Background.handleProfileExtracted, Storage.saveProfile,
    Storage.getProfiles, setProfiles, now, bind.
  cbn [fst snd profiles ledger messageHistory messageTemplates].
  rewrite revive_upsert, deserializeProfile_revive.
  split.
  { exists (deserializeProfile (clock w) profileData). split.
    - change (CustomerProfile.id profileData)
        with (CustomerProfile.id (deserializeProfile (clock w) profileData)).
      apply upsert_find.
    - unfold Storage.sameButDates, deserializeProfile.
      cbn [CustomerProfile.id CustomerProfile.name CustomerProfile.email
           CustomerProfile.country CustomerProfile.age CustomerProfile.ageGroup
           CustomerProfile.interests CustomerProfile.bio
           CustomerProfile.profileUrl CustomerProfile.messageCount].
      rewrite orZero_id, copyArray_id. repeat split. }
  split.
  { intros q Hq. apply upsert_others. exact Hq. }
  repeat split.
Qed.

(* ===================================================================== *)
(** * Filters and interests *)
(* ===================================================================== *)

Section FilterFacts.
Import Filter.

Lemma ageGroupEqb_eq (a b : AgeGroup) : ageGroupEqb a b = true <-> a = b.
Proof. destruct a, b; cbn; split; congruence. Qed.

Lemma interestEqb_eq (a b : Interest) : interestEqb a b = true <-> a = b.
Proof. destruct a, b; cbn; split; congruence. Qed.

Lemma existsb_In {A} (eqb : A -> A -> bool) (x : A) (l : list A) :
  (forall a b, eqb a b = true <-> a = b) ->
  existsb (eqb x) l = true <-> In x l.
Proof.
  intros Heq. rewrite existsb_exists. split.
  - intros (y & Hin & E). apply Heq in E. subst. exact Hin.
  - intros Hin. exists x. split; [exact Hin | apply Heq; reflexivity].
Qed.

Lemma countryPasses_spec (p : CustomerProfile.t) (f : FilterSettings) :
  countryPasses p f = true
  <-> forall wanted, inForce (countries f) = Some wanted ->
        exists c, CustomerProfile.country p = Some c
                  /\ c <> EmptyString /\ In c wanted.
Proof.
  unfold countryPasses. destruct (inForce (countries f)) as [wanted |].
  - destruct (CustomerProfile.country p) as [c |].
    + rewrite andb_true_iff, (existsb_In String.eqb c wanted String.eqb_eq).
      split.
      * intros [T Hin] w E. injection E as <-. exists c.
        split; [reflexivity |]. split; [| exact Hin].
        intros ->. discriminate.
      * intros H. destruct (H wanted eq_refl) as (c' & E & Hne & Hin).
        injection E as <-. split; [| exact Hin].
        destruct c; [congruence | reflexivity].
    + split; [discriminate |].
      intros H. destruct (H wanted eq_refl) as (c' & E & _). discriminate.
  - split; [intros _ w E; discriminate | reflexivity].
Qed.

Lemma ageGroupPasses_spec (p : CustomerProfile.t) (f : FilterSettings) :
  ageGroupPasses p f = true
  <-> forall wanted, inForce (ageGroups f) = Some wanted ->
        In match CustomerProfile.ageGroup p with
           | Some g => g
           | None => categorizeAgeGroup (CustomerProfile.age p)
           end wanted.
Proof.
  unfold ageGroupPasses. destruct (inForce (ageGroups f)) as [wanted |].
  - cbv zeta. rewrite (existsb_In ageGroupEqb _ wanted ageGroupEqb_eq).
    split.
    + intros H w E. injection E as <-. exact H.
    + intros H. exact (H wanted eq_refl).
  - split; [intros _ w E; discriminate | reflexivity].
Qed.

Lemma ageRangePasses_spec (p : CustomerProfile.t) (f : FilterSettings) :
  ageRangePasses p f = true
  <-> forall a, CustomerProfile.age p = Some a -> a <> 0 ->
        (forall lo, minAge f = Some lo -> lo <> 0 -> lo <= a)
        /\ (forall hi, maxAge f = Some hi -> hi <> 0 -> a <= hi).
Proof.
  unfold ageRangePasses, boundFails.
  destruct (CustomerProfile.age p) as [a |].
  2:{ split; [intros _ a E; discriminate | reflexivity]. }
  destruct (Z.eqb_spec a 0) as [Ea | Ea].
  { split; [intros _ a' E; injection E as <-; contradiction | reflexivity]. }
  split.
  - intros H a' E _. injection E as <-. split.
    + intros lo El Hlo. rewrite El in H.
      destruct (Z.eqb_spec lo 0); [contradiction |]. cbn [negb andb] in H.
      destruct (Z.ltb_spec a lo); [discriminate | lia].
    + intros hi Eh Hhi.
      destruct (match minAge f with
                | Some b => negb (b =? 0) && (a <? b)
                | None => false
                end); [discriminate |].
      rewrite Eh in H.
      destruct (Z.eqb_spec hi 0); [contradiction |]. cbn [negb andb] in H.
      destruct (Z.ltb_spec hi a); [discriminate | lia].
  - intros H. destruct (H a eq_refl Ea) as [Hlo Hhi].
    destruct (minAge f) as [lo |].
    + destruct (Z.eqb_spec lo 0); cbn [negb andb].
      * destruct (maxAge f) as [hi |]; [| reflexivity].
        destruct (Z.eqb_spec hi 0); cbn [negb andb]; [reflexivity |].
        specialize (Hhi hi eq_refl n).
        destruct (Z.ltb_spec hi a); [lia | reflexivity].
      * specialize (Hlo lo eq_refl n).
        destruct (Z.ltb_spec a lo); [lia |].
        destruct (maxAge f) as [hi |]; [| reflexivity].
        destruct (Z.eqb_spec hi 0); cbn [negb andb]; [reflexivity |].
        specialize (Hhi hi eq_refl n0).
        destruct (Z.ltb_spec hi a); [lia | reflexivity].
    + destruct (maxAge f) as [hi |]; [| reflexivity].
      destruct (Z.eqb_spec hi 0); cbn [negb andb]; [reflexivity |].
      specialize (Hhi hi eq_refl n).
      destruct (Z.ltb_spec hi a); [lia | reflexivity].
Qed.

Lemma interestPasses_spec (p : CustomerProfile.t) (f : FilterSettings) :
  interestPasses p f = true
  <-> forall wanted, inForce (interests f) = Some wanted ->
        exists mine i, CustomerProfile.interests p = Some mine
                       /\ In i mine /\ In i wanted.
Proof.
  unfold interestPasses. destruct (inForce (interests f)) as [wanted |].
  - destruct (CustomerProfile.interests p) as [[| i rest] |].
    + split; [discriminate |].
      intros H. destruct (H wanted eq_refl) as (mine & i & E & Hin & _).
      injection E as <-. destruct Hin.
    + rewrite existsb_exists. split.
      * intros (x & Hx & Hw) w E. injection E as <-.
        exists (i :: rest), x. split; [reflexivity |]. split; [exact Hx |].
        apply (existsb_In interestEqb x wanted interestEqb_eq). exact Hw.
      * intros H. destruct (H wanted eq_refl) as (mine & x & E & Hx & Hw).
        injection E as <-. exists x. split; [exact Hx |].
        apply (existsb_In interestEqb x wanted interestEqb_eq). exact Hw.
    + split; [discriminate |].
      intros H. destruct (H wanted eq_refl) as (mine & i & E & _). discriminate.
  - split; [intros _ w E; discriminate | reflexivity].
Qed.

End FilterFacts.

(** X24.  What it means to match the filters.  A profile matches exactly
    if: where countries are listed, it has a country and that is listed;
    where age groups are listed, its age group (the one computed from its
    age where it has none) is listed; where it has an age other than 0,
    the age is not below a minimum and not above a maximum given (a bound
    of 0 tests nothing); where interests are listed, it has one of them.
    An empty list tests nothing, and a profile without age passes every
    age range. *)
Theorem matchesFilters_spec (p : CustomerProfile.t) (f : Filter.FilterSettings) :
  Filter.matchesFilters p f = true
  <-> (forall wanted, Filter.inForce (Filter.countries f) = Some wanted ->
         exists c, CustomerProfile.country p = Some c
                   /\ c <> EmptyString /\ In c wanted)
      /\ (forall wanted, Filter.inForce (Filter.ageGroups f) = Some wanted ->
            In match CustomerProfile.ageGroup p with
               | Some g => g
               | None => Filter.categorizeAgeGroup (CustomerProfile.age p)
               end wanted)
      /\ (forall a, CustomerProfile.age p = Some a -> a <> 0 ->
            (forall lo, Filter.minAge f = Some lo -> lo <> 0 -> lo <= a)
            /\ (forall hi, Filter.maxAge f = Some hi -> hi <> 0 -> a <= hi))
      /\ (forall wanted, Filter.inForce (Filter.interests f) = Some wanted ->
            exists mine i, CustomerProfile.interests p = Some mine
                           /\ In i mine /\ In i wanted).
Proof.
  rewrite <- countryPasses_spec, <- ageGroupPasses_spec, <- ageRangePasses_spec,
    <- interestPasses_spec.
  unfold Filter.matchesFilters.
  destruct (Filter.countryPasses p f), (Filter.ageGroupPasses p f),
    (Filter.ageRangePasses p f), (Filter.interestPasses p f); cbn [negb];
    intuition discriminate.
Qed.

(** X25.  The filters of a new installation let every profile through:
    with nothing stored, [getFilterSettings] gives filters under which
    [filterProfiles] returns the list it is given. *)
Theorem default_filters_keep_all (ps : list CustomerProfile.t) :
  Filter.filterProfiles ps (Storage.getFilterSettings None) = ps.
Proof.
  unfold Filter.filterProfiles.
  induction ps as [| p rest IH]; cbn [filter]; [reflexivity |].
  replace (Filter.matchesFilters p (Storage.getFilterSettings None)) with true.
  - rewrite IH. reflexivity.
  - symmetry. unfold Filter.matchesFilters, Filter.countryPasses,
      Filter.ageGroupPasses, Filter.interestPasses, Filter.ageRangePasses.
    cbn [Storage.getFilterSettings Storage.DEFAULT_FILTERS Filter.inForce
         Filter.countries Filter.ageGroups Filter.interests Filter.minAge
         Filter.maxAge Filter.boundFails negb].
    destruct (CustomerProfile.age p) as [a |]; [| reflexivity].
    destruct (a =? 0); reflexivity.
Qed.

(** X26.  [categorizeAgeGroup] sorts the ages from 18 up into the five
    groups without gap or overlap, and gives "unknown" exactly to a
    missing age and to the ages below 18 (0 and negative ones among
    them). *)
Theorem categorizeAgeGroup_spec (a : Z) :
  (Filter.categorizeAgeGroup (Some a) = Age18_25 <-> 18 <= a <= 25)
  /\ (Filter.categorizeAgeGroup (Some a) = Age26_35 <-> 26 <= a <= 35)
  /\ (Filter.categorizeAgeGroup (Some a) = Age36_45 <-> 36 <= a <= 45)
  /\ (Filter.categorizeAgeGroup (Some a) = Age46_55 <-> 46 <= a <= 55)
  /\ (Filter.categorizeAgeGroup (Some a) = Age56plus <-> 56 <= a)
  /\ (Filter.categorizeAgeGroup (Some a) = AgeUnknown <-> a < 18)
  /\ Filter.categorizeAgeGroup None = AgeUnknown.
Proof.
  unfold Filter.categorizeAgeGroup.
  destruct (Z.eqb_spec a 0);
    destruct (Z.leb_spec 18 a); destruct (Z.leb_spec a 25);
    destruct (Z.leb_spec 26 a); destruct (Z.leb_spec a 35);
    destruct (Z.leb_spec 36 a); destruct (Z.leb_spec a 45);
    destruct (Z.leb_spec 46 a); destruct (Z.leb_spec a 55);
    destruct (Z.leb_spec 56 a); cbn [andb];
    repeat split; intros; try discriminate; try lia; try reflexivity.
Qed.

(** X27.  [mapToInterest] knows every interest by its own label, in any
    mix of upper and lower case. *)
Theorem mapToInterest_own_label (i : Interest) (text : string) :
  Collector.toLowerCase text = Collector.toLowerCase (interestText i) ->
  Collector.mapToInterest text = i.
Proof.
  intros E. unfold Collector.mapToInterest. cbv zeta. rewrite E.
  destruct i; vm_compute; reflexivity.
Qed.

Lemma mapToInterest_own_label_witness :
  Collector.mapToInterest "FULL-STACK development" = FullStackDevelopment.
Proof.
  apply (@mapToInterest_own_label FullStackDevelopment "FULL-STACK development").
  vm_compute. reflexivity.
Defined.

(* ===================================================================== *)
(** * The limits over a run of sends *)
(* ===================================================================== *)

Section UsageFacts.
Import Usage.
Variable tz : Z.

Lemma rolled_hour (now : Z) (s : MessageStats.t) :
  MessageStats.messagesThisHour (updateTimeBasedCounts tz now s)
  = if truthy (MessageStats.lastSentAt s)
    then if isDifferentHour (Some now) (newDate (MessageStats.lastSentAt s))
         then 0 else MessageStats.messagesThisHour s
    else 0.
Proof.
  unfold updateTimeBasedCounts. cbn [MessageStats.messagesThisHour].
  destruct (truthy (MessageStats.lastSentAt s)); reflexivity.
Qed.

Lemma rolled_day (now : Z) (s : MessageStats.t) :
  MessageStats.messagesToday (updateTimeBasedCounts tz now s)
  = if truthy (MessageStats.lastSentAt s)
    then if isDifferentDay tz (Some now) (newDate (MessageStats.lastSentAt s))
         then 0 else MessageStats.messagesToday s
    else 0.
Proof.
  unfold updateTimeBasedCounts. cbn [MessageStats.messagesToday].
  destruct (truthy (MessageStats.lastSentAt s)); reflexivity.
Qed.

Lemma count_cons (f : Z -> bool) (x : Z) (l : list Z) :
  count f (x :: l) = (if f x then 1 else 0) + count f l.
Proof.
  unfold count. cbn [filter]. destruct (f x); cbn [List.length]; lia.
Qed.

Lemma count_nonneg (f : Z -> bool) (l : list Z) : 0 <= count f l.
Proof. unfold count. lia. Qed.

Lemma count_app (f : Z -> bool) (l l' : list Z) :
  count f (l ++ l')%list = count f l + count f l'.
Proof. unfold count. rewrite filter_app, length_app. lia. Qed.

Lemma count_le (f g : Z -> bool) (l : list Z) :
  (forall x, In x l -> f x = true -> g x = true) -> count f l <= count g l.
Proof.
  induction l as [| x l IH]; intros H; [reflexivity |].
  rewrite !count_cons.
  assert (IH' : count f l <= count g l).
  { apply IH. intros y Hy. apply H. right. exact Hy. }
  specialize (H x (or_introl eq_refl)).
  destruct (f x); destruct (g x);
    first [lia | specialize (H eq_refl); discriminate].
Qed.

Lemma count_none (f : Z -> bool) (l : list Z) :
  (forall x, In x l -> f x = false) -> count f l = 0.
Proof.
  induction l as [| x l IH]; intros H; [reflexivity |].
  rewrite count_cons, (H x (or_introl eq_refl)), IH; [reflexivity |].
  intros y Hy. apply H. right. exact Hy.
Qed.

Lemma Day_monotone (a b : Z) : a <= b -> JsDate.Day a <= JsDate.Day b.
Proof.
  intros H. unfold JsDate.Day, JsDate.msPerDay. Z.div_mod_to_equations. lia.
Qed.

(** A rollover at [t] does not change what a later rollover yields. *)
Lemma rolled_twice (t now : Z) (s : MessageStats.t) :
  (forall last, newDate (MessageStats.lastSentAt s) = Some last -> last <= t) ->
  t <= now ->
  MessageStats.messagesThisHour
    (updateTimeBasedCounts tz now (updateTimeBasedCounts tz t s))
  = MessageStats.messagesThisHour (updateTimeBasedCounts tz now s)
  /\ MessageStats.messagesToday
       (updateTimeBasedCounts tz now (updateTimeBasedCounts tz t s))
     = MessageStats.messagesToday (updateTimeBasedCounts tz now s).
Proof.
  intros Hpast Hle.
  rewrite (rolled_hour now (updateTimeBasedCounts tz t s)),
    (rolled_day now (updateTimeBasedCounts tz t s)).
  replace (MessageStats.lastSentAt (updateTimeBasedCounts tz t s))
    with (MessageStats.lastSentAt s) by reflexivity.
  rewrite !rolled_hour, !rolled_day.
  destruct (truthy (MessageStats.lastSentAt s)); [| split; reflexivity].
  destruct (newDate (MessageStats.lastSentAt s)) as [last |].
  - specialize (Hpast last eq_refl).
    rewrite !isDifferentHour_spec, !isDifferentDay_local_day.
    unfold JsDate.LocalTime. split.
    + destruct (Z.leb_spec JsDate.msPerHour (Z.abs (now - last)));
        [reflexivity |].
      destruct (Z.leb_spec JsDate.msPerHour (Z.abs (t - last)));
        [lia | reflexivity].
    + destruct (Z.eqb_spec (JsDate.Day (now + tz)) (JsDate.Day (last + tz)));
        [| reflexivity].
      cbn [negb].
      destruct (Z.eqb_spec (JsDate.Day (t + tz)) (JsDate.Day (last + tz)));
        [reflexivity |].
      pose proof (@Day_monotone (last + tz) (t + tz)).
      pose proof (@Day_monotone (t + tz) (now + tz)). lia.
  - split; reflexivity.
Qed.

Lemma accountsFor_later (t t' : Z) (s : MessageStats.t) (sends : list Z) :
  t <= t' -> accountsFor tz t s sends -> accountsFor tz t' s sends.
Proof.
  intros Hle (H1 & H2 & H3 & H4 & H5 & H6).
  repeat split; try assumption.
  - intros last E. specialize (H3 last E). lia.
  - intros x Hx. specialize (H4 x Hx). lia.
  - intros now Hnow. apply H5. lia.
  - intros now Hnow. apply H6. lia.
Qed.

Lemma accountsFor_rolled (t : Z) (s : MessageStats.t) (sends : list Z) :
  accountsFor tz t s sends ->
  accountsFor tz t (updateTimeBasedCounts tz t s) sends.
Proof.
  intros (H1 & H2 & H3 & H4 & H5 & H6).
  pose proof (updateTimeBasedCounts_frame tz t s) as F. cbv zeta in F.
  destruct F as (_ & _ & _ & F4 & F5).
  repeat split; try assumption.
  - destruct F5 as [-> | ->]; lia.
  - destruct F4 as [-> | ->]; lia.
  - intros now Hnow. rewrite (proj1 (rolled_twice s H3 Hnow)). apply H5, Hnow.
  - intros now Hnow. rewrite (proj2 (rolled_twice s H3 Hnow)). apply H6, Hnow.
Qed.

Lemma accountsFor_failed (t : Z) (l : Ledger) (sends : list Z) :
  accountsFor tz t (stats l) sends ->
  accountsFor tz t (stats (RateLimiter.recordMessageFailed l)) sends.
Proof.
  intros (H1 & H2 & H3 & H4 & H5 & H6).
  repeat split; assumption.
Qed.

(** A send recorded at [t2]. *)
Lemma accountsFor_sent (t t2 : Z) (l : Ledger) (sends : list Z) :
  accountsFor tz t (stats l) sends ->
  t <= t2 ->
  accountsFor tz t2 (stats (RateLimiter.recordMessageSent t2 l)) (t2 :: sends).
Proof.
  intros (H1 & H2 & H3 & H4 & H5 & H6) Hle.
  pose proof (updateTimeBasedCounts_frame tz) as F.
  unfold accountsFor.
  cbn [stats RateLimiter.recordMessageSent saveStats
       MessageStats.messagesThisHour MessageStats.messagesToday
       MessageStats.lastSentAt newDate].
  split; [lia |]. split; [lia |].
  split; [intros last E; injection E as <-; lia |].
  split.
  { intros x [<- | Hx]; [lia |]. specialize (H4 x Hx). lia. }
  split.
  - intros now Hnow. rewrite rolled_hour.
    cbn [MessageStats.lastSentAt MessageStats.messagesThisHour truthy newDate].
    rewrite isDifferentHour_spec, count_cons.
    destruct (Z.leb_spec JsDate.msPerHour (Z.abs (now - t2))).
    + rewrite count_none.
      { destruct (Z.ltb_spec (now - JsDate.msPerHour) t2); lia. }
      intros x Hx. specialize (H4 x Hx).
      destruct (Z.ltb_spec (now - JsDate.msPerHour) x); [lia | reflexivity].
    + specialize (H5 now ltac:(lia)).
      destruct (F now (stats l)) as (_ & _ & _ & _ & [E | E]);
        cbv zeta in E; rewrite E in H5;
        destruct (now - JsDate.msPerHour <? t2); lia.
  - intros now Hnow. rewrite rolled_day.
    cbn [MessageStats.lastSentAt MessageStats.messagesToday truthy newDate].
    rewrite isDifferentDay_local_day, count_cons. unfold JsDate.LocalTime.
    pose proof (@Day_monotone (t2 + tz) (now + tz)) as Mn.
    destruct (Z.eqb_spec (JsDate.Day (now + tz)) (JsDate.Day (t2 + tz))) as [E | E];
      cbn [negb].
    + specialize (H6 now ltac:(lia)).
      destruct (F now (stats l)) as (_ & _ & _ & [E' | E'] & _);
        cbv zeta in E'; rewrite E' in H6;
        destruct (JsDate.Day (t2 + tz) =? JsDate.Day (now + tz)); lia.
    + rewrite count_none.
      { destruct (Z.eqb_spec (JsDate.Day (t2 + tz)) (JsDate.Day (now + tz)));
          [congruence | lia]. }
      intros x Hx. specialize (H4 x Hx).
      pose proof (@Day_monotone (x + tz) (t2 + tz)).
      destruct (Z.eqb_spec (JsDate.Day (x + tz)) (JsDate.Day (now + tz)));
        [lia | reflexivity].
Qed.

(** The sends that share an hour or a day with a new send at [t2] are
    among those the rolled counters account for at [t2]. *)
Lemma withinLimits_sent
    (t t2 boundHour boundDay : Z) (s : MessageStats.t) (sends : list Z) :
  accountsFor tz t s sends ->
  t <= t2 ->
  withinLimits tz boundHour boundDay sends ->
  MessageStats.messagesThisHour s + 1 <= boundHour ->
  MessageStats.messagesToday s + 1 <= boundDay ->
  withinLimits tz boundHour boundDay (t2 :: sends).
Proof.
  intros (H1 & H2 & H3 & H4 & H5 & H6) Hle [Gh Gd] Bh Bd.
  specialize (H5 t2 Hle). specialize (H6 t2 Hle).
  pose proof (updateTimeBasedCounts_frame tz t2 s) as F. cbv zeta in F.
  destruct F as (_ & _ & _ & F4 & F5).
  split.
  - intros a. rewrite count_cons. specialize (Gh a).
    destruct ((a <=? t2) && (t2 <? a + JsDate.msPerHour)) eqn:W; [| lia].
    apply andb_prop in W as [W1 W2].
    apply Z.leb_le in W1. apply Z.ltb_lt in W2.
    assert (count (fun x => (a <=? x) && (x <? a + JsDate.msPerHour)) sends
            <= count (fun x => t2 - JsDate.msPerHour <? x) sends).
    { apply count_le. intros x _ Hx. apply andb_prop in Hx as [X1 X2].
      apply Z.leb_le in X1. apply Z.ltb_lt. lia. }
    destruct F5 as [E | E]; rewrite E in H5; lia.
  - intros d. rewrite count_cons. specialize (Gd d).
    destruct (Z.eqb_spec (JsDate.Day (t2 + tz)) d) as [E | E]; [| lia].
    subst d.
    destruct F4 as [E | E]; rewrite E in H6; lia.
Qed.

End UsageFacts.

Section RunFacts.
Import Usage.
Variable tz : Z.
Variable settings : AutomationSettings.t.
Variable k : Z.

Lemma perform_keepsAccount (e : Event) (s : State) :
  keepsAccount tz settings k s ->
  time s <= timeOf e ->
  match e with
  | Check _ => True
  | _ => 0 < inFlight s
  end ->
  inFlight (perform tz settings e s) <= k ->
  keepsAccount tz settings k (perform tz settings e s).
Proof.
  unfold keepsAccount. cbv zeta.
  intros (A & Hn & Hh & Hd & G) Ht Hend Hk.
  pose proof A as (R1 & R2 & _).
  destruct e as [t | t | t | t]; cbn [timeOf] in Ht;
    cbn [perform Usage.ledger time inFlight sends] in *.
  - rewrite canSendMessage_ledger. cbn [stats].
    pose proof (accountsFor_rolled (accountsFor_later Ht A)) as A'.
    pose proof (updateTimeBasedCounts_frame tz t (stats (Usage.ledger s))) as F.
    cbv zeta in F. destruct F as (_ & _ & _ & F4 & F5).
    split; [exact A' |].
    destruct (allowed (fst (RateLimiter.canSendMessage tz settings t
                              (Usage.ledger s)))) eqn:Al.
    + apply allowed_iff_below_limits in Al. destruct Al as [Ad Ah].
      split; [lia |]. split; [lia |]. split; [lia | exact G].
    + split; [lia |].
      split; [destruct F5 as [-> | ->]; lia |].
      split; [destruct F4 as [-> | ->]; lia | exact G].
  - split;
      [exact (@accountsFor_sent tz (time s) t (Usage.ledger s) (sends s) A Ht) |].
    cbn [stats RateLimiter.recordMessageSent saveStats
         MessageStats.messagesThisHour MessageStats.messagesToday].
    split; [lia |]. split; [lia |]. split; [lia |].
    apply (@withinLimits_sent tz (time s) t _ _ (stats (Usage.ledger s))
             (sends s) A Ht G); lia.
  - split.
    + apply accountsFor_failed. apply (accountsFor_later Ht A).
    + cbn [stats RateLimiter.recordMessageFailed saveStats
           MessageStats.messagesThisHour MessageStats.messagesToday].
      split; [lia |]. split; [lia |]. split; [lia | exact G].
  - split; [apply (accountsFor_later Ht A) |].
    split; [lia |]. split; [lia |]. split; [lia | exact G].
Qed.

Lemma run_keepsAccount (es : list Event) :
  forall s,
    keepsAccount tz settings k s ->
    orderly tz settings k es s ->
    keepsAccount tz settings k (run tz settings es s).
Proof.
  induction es as [| e rest IH]; intros s K O; [exact K |].
  cbn [orderly] in O. destruct O as (Ht & Hend & Hk & O).
  cbn [run fold_left]. apply IH; [| exact O].
  apply perform_keepsAccount; assumption.
Qed.

Lemma start_keepsAccount (l : Ledger) (t0 : Z) :
  1 <= k ->
  0 <= MessageStats.messagesThisHour (stats l)
    <= RateLimit.messagesPerHour (AutomationSettings.rateLimit settings) ->
  0 <= MessageStats.messagesToday (stats l)
    <= RateLimit.messagesPerDay (AutomationSettings.rateLimit settings) ->
  (forall last, newDate (MessageStats.lastSentAt (stats l)) = Some last ->
                last <= t0) ->
  keepsAccount tz settings k (start l t0).
Proof.
  intros Hk Hh Hd Hpast. unfold keepsAccount, start. cbv zeta.
  cbn [Usage.ledger time inFlight sends].
  pose proof (updateTimeBasedCounts_frame tz) as F.
  split.
  - unfold accountsFor.
    split; [lia |]. split; [lia |]. split; [exact Hpast |].
    split; [intros x [] |].
    split; intros now _.
    + destruct (F now (stats l)) as (_ & _ & _ & _ & [-> | ->]); cbn; lia.
    + destruct (F now (stats l)) as (_ & _ & _ & [-> | ->] & _); cbn; lia.
  - split; [lia |]. split; [lia |]. split; [lia |].
    split; intros x; cbn; lia.
Qed.

End RunFacts.

(** A call of [sendMessage] does to the limiter what its events do: the
    check at the start and, where that allowed the call, one of the three
    endings at the end. *)
Lemma sendMessage_is_a_call
    (tz : Z) (chat : string -> string -> ChatOutcome)
    (chatLatency : string -> string -> Z) (random36 : nat -> string)
    (settings : AutomationSettings.t) (profile : CustomerProfile.t)
    (customMessage : option string) (w : World) :
  let w' := snd (sendMessage tz chat chatLatency random36 settings profile
                   customMessage w) in
  exists ending,
    (ending = []
     \/ ending = [Usage.Sent (clock w')]
     \/ ending = [Usage.Failed (clock w')]
     \/ ending = [Usage.GaveUp (clock w')])
    /\ ledger w'
       = Usage.ledger
           (Usage.run tz settings (Usage.Check (clock w) :: ending)
              (Usage.start (ledger w) (clock w))).
Proof.
  cbv zeta.
  destruct (sendMessage_ledger tz chat chatLatency random36 settings profile
              customMessage w) as [(_ & _ & L) | (_ & [L | L])]; cbv zeta in L.
  - eexists. split; [right; left; reflexivity |].
    rewrite L. cbn [Usage.run fold_left Usage.perform Usage.ledger Usage.start].
    rewrite canSendMessage_ledger. reflexivity.
  - exists []. split; [left; reflexivity |].
    rewrite L. cbn [Usage.run fold_left Usage.perform Usage.ledger Usage.start].
    rewrite canSendMessage_ledger. reflexivity.
  - eexists. split; [right; right; left; reflexivity |].
    rewrite L. cbn [Usage.run fold_left Usage.perform Usage.ledger Usage.start].
    rewrite canSendMessage_ledger. reflexivity.
Qed.

(** X4.  The limits over time, for calls that overlap.  On a limiter that
    has loaded and is not replaced, with at most [k] allowed calls of
    [sendMessage] under way at any time (the next one may ask before the
    last one has recorded, as with the cycles of the timer) and time not
    running backwards: no more than [messagesPerHour + k - 1] sends are
    recorded within any hour, and no more than [messagesPerDay + k - 1] on
    any calendar day of a host at a fixed offset.  With one call at a time
    these are the limits themselves.  (At the start the counters are not
    negative and not above the limits, and the last send recorded is not
    in the future.) *)
Theorem sends_bounded_when_calls_overlap
    (tz : Z) (settings : AutomationSettings.t) (k : Z)
    (es : list Usage.Event) (l : Ledger) (t0 : Z) :
  let limits := AutomationSettings.rateLimit settings in
  1 <= k ->
  0 <= MessageStats.messagesThisHour (stats l) <= RateLimit.messagesPerHour limits ->
  0 <= MessageStats.messagesToday (stats l) <= RateLimit.messagesPerDay limits ->
  (forall last, newDate (MessageStats.lastSentAt (stats l)) = Some last ->
                last <= t0) ->
  Usage.orderly tz settings k es (Usage.start l t0) ->
  let sent := Usage.sends (Usage.run tz settings es (Usage.start l t0)) in
  (forall a,
     Usage.count (fun x => (a <=? x) && (x <? a + JsDate.msPerHour)) sent
     <= RateLimit.messagesPerHour limits + k - 1)
  /\ (forall d,
        Usage.count (fun x => JsDate.Day (x + tz) =? d) sent
        <= RateLimit.messagesPerDay limits + k - 1).
Proof.
  cbv zeta. intros Hk Hh Hd Hpast O.
  pose proof (run_keepsAccount es (start_keepsAccount tz settings l Hk Hh Hd Hpast) O)
    as (_ & _ & _ & _ & G).
  exact G.
Qed.

Lemma sends_bounded_when_calls_overlap_witness :
  Usage.count
    (fun x => (Samples.at1055 <=? x) && (x <? Samples.at1055 + JsDate.msPerHour))
    (Usage.sends (Usage.run 0 Samples.settings MoreSamples.twoOverlapping
                    (Usage.start MoreSamples.oneLeft Samples.at1055)))
  <= 5 + 2 - 1.
Proof.
  refine (proj1
            (@sends_bounded_when_calls_overlap 0 Samples.settings 2
               MoreSamples.twoOverlapping MoreSamples.oneLeft Samples.at1055
               _ _ _ _ _) Samples.at1055).
  - vm_compute. discriminate.
  - split; vm_compute; discriminate.
  - split; vm_compute; discriminate.
  - intros last E. vm_compute in E. injection E as <-. vm_compute. discriminate.
  - vm_compute. repeat split; discriminate.
Defined.

(** X5.  The totals under calls that overlap.  On a limiter that is not
    replaced and on which no load lands, whatever the order of the checks
    and endings of the calls: [totalSent] has grown by the number of sends
    recorded, and [totalFailed] by the number of failures recorded. *)
Theorem totals_count_what_is_recorded
    (tz : Z) (settings : AutomationSettings.t) (es : list Usage.Event)
    (s : Usage.State) :
  let final := Usage.run tz settings es s in
  MessageStats.totalSent (stats (Usage.ledger final))
  + Z.of_nat (List.length (Usage.sends s))
  = MessageStats.totalSent (stats (Usage.ledger s))
    + Z.of_nat (List.length (Usage.sends final))
  /\ MessageStats.totalFailed (stats (Usage.ledger final))
     = MessageStats.totalFailed (stats (Usage.ledger s))
       + Z.of_nat (List.length
                     (filter (fun e => match e with
                                       | Usage.Failed _ => true
                                       | _ => false
                                       end) es)).
Proof.
  cbv zeta. revert s.
  induction es as [| e rest IH]; intros s.
  - cbn. lia.
  - change (Usage.run tz settings (e :: rest) s)
      with (Usage.run tz settings rest (Usage.perform tz settings e s)).
    assert (P : MessageStats.totalSent
                  (stats (Usage.ledger (Usage.perform tz settings e s)))
                + Z.of_nat (List.length (Usage.sends s))
                = MessageStats.totalSent (stats (Usage.ledger s))
                  + Z.of_nat (List.length
                                (Usage.sends (Usage.perform tz settings e s)))
                /\ MessageStats.totalFailed
                     (stats (Usage.ledger (Usage.perform tz settings e s)))
                   = MessageStats.totalFailed (stats (Usage.ledger s))
                     + match e with
                       | Usage.Failed _ => 1
                       | _ => 0
                       end).
    { destruct e as [t | t | t | t];
        cbn [Usage.perform Usage.ledger Usage.sends List.length stats
             RateLimiter.recordMessageSent RateLimiter.recordMessageFailed
             saveStats MessageStats.totalSent MessageStats.totalFailed];
        try lia.
      rewrite canSendMessage_ledger. cbn [stats].
      destruct (updateTimeBasedCounts_frame tz t (stats (Usage.ledger s)))
        as (F1 & F2 & _).
      cbv zeta in F1, F2. rewrite F1, F2. lia. }
    destruct P as [Ps Pf].
    destruct (IH (Usage.perform tz settings e s)) as [IHs IHf].
    split; [lia |].
    rewrite IHf, Pf.
    destruct e; cbn [filter List.length]; lia.
Qed.

(** X6.  The window counters under calls that overlap.  On a limiter that
    has loaded and is not replaced, with at most [k] allowed calls under
    way at any time and time not running backwards, the hour counter and
    the day counter in memory are never negative and never above
    [messagesPerHour + k - 1] and [messagesPerDay + k - 1]: with one call
    at a time they never pass the limits.  (At the start the counters are
    not negative and not above the limits, and the last send recorded is
    not in the future.) *)
Theorem counters_bounded_when_calls_overlap
    (tz : Z) (settings : AutomationSettings.t) (k : Z)
    (es : list Usage.Event) (l : Ledger) (t0 : Z) :
  let limits := AutomationSettings.rateLimit settings in
  1 <= k ->
  0 <= MessageStats.messagesThisHour (stats l) <= RateLimit.messagesPerHour limits ->
  0 <= MessageStats.messagesToday (stats l) <= RateLimit.messagesPerDay limits ->
  (forall last, newDate (MessageStats.lastSentAt (stats l)) = Some last ->
                last <= t0) ->
  Usage.orderly tz settings k es (Usage.start l t0) ->
  let final := stats (Usage.ledger (Usage.run tz settings es (Usage.start l t0))) in
  0 <= MessageStats.messagesThisHour final
    <= RateLimit.messagesPerHour limits + k - 1
  /\ 0 <= MessageStats.messagesToday final
       <= RateLimit.messagesPerDay limits + k - 1.
Proof.
  cbv zeta. intros Hk Hh Hd Hpast O.
  pose proof (run_keepsAccount es (start_keepsAccount tz settings l Hk Hh Hd Hpast) O)
    as ((A1 & A2 & _) & Hn & Bh & Bd & _).
  lia.
Qed.

Lemma counters_bounded_when_calls_overlap_witness :
  MessageStats.messagesThisHour
    (stats (Usage.ledger (Usage.run 0 Samples.settings MoreSamples.twoOverlapping
                            (Usage.start MoreSamples.oneLeft Samples.at1055))))
  <= 5 + 2 - 1.
Proof.
  refine (proj2 (proj1
            (@counters_bounded_when_calls_overlap 0 Samples.settings 2
               MoreSamples.twoOverlapping MoreSamples.oneLeft Samples.at1055
               _ _ _ _ _))).
  - vm_compute. discriminate.
  - split; vm_compute; discriminate.
  - split; vm_compute; discriminate.
  - intros last E. vm_compute in E. injection E as <-. vm_compute. discriminate.
  - vm_compute. repeat split; discriminate.
Defined.

(** The bound is met: with one send left in the hour, two calls that both
    ask before either records are both allowed, and the hour counter ends
    at 6 where the limit is 5. *)
Example overlapping_calls_pass_the_limit :
  let final :=
    Usage.run 0 Samples.settings MoreSamples.twoOverlapping
      (Usage.start MoreSamples.oneLeft Samples.at1055) in
  RateLimit.messagesPerHour (AutomationSettings.rateLimit Samples.settings) = 5
  /\ MessageStats.messagesThisHour (stats (Usage.ledger final)) = 6
  /\ List.length (Usage.sends final) = 2%nat.
Proof. vm_compute. repeat split. Qed.

Lemma spread_initialStats (s : MessageStats.t) : spread initialStats s = s.
Proof.
  destruct s as [sent failed last today thisHour]. unfold spread.
  cbn [MessageStats.totalSent MessageStats.totalFailed MessageStats.lastSentAt
       MessageStats.messagesToday MessageStats.messagesThisHour initialStats].
  destruct last; reflexivity.
Qed.

(** X3.  A limiter made anew (as [updateSettings] makes one), the limits
    being positive.  Asked before its load has landed, with its counters
    still at zero, it allows the send whatever is stored.  Once the load
    has landed it answers from the statistics the store handed back, as a
    limiter with those in memory would. *)
Theorem new_limiter_and_its_load
    (tz : Z) (settings : AutomationSettings.t) (now : Z)
    (onDisk : option MessageStats.t) :
  0 < RateLimit.messagesPerDay (AutomationSettings.rateLimit settings) ->
  0 < RateLimit.messagesPerHour (AutomationSettings.rateLimit settings) ->
  let unloaded := {| stats := initialStats; stored := onDisk |} in
  allowed (fst (RateLimiter.canSendMessage tz settings now unloaded)) = true
  /\ (forall theirs,
        onDisk = Some theirs ->
        fst (RateLimiter.canSendMessage tz settings now (loadStats tz now unloaded))
        = fst (RateLimiter.canSendMessage tz settings now
                 {| stats := theirs; stored := onDisk |})).
Proof.
  intros Hday Hhour. cbv zeta. split.
  - apply allowed_iff_below_limits. cbn [stats]. split; assumption.
  - intros theirs ->.
    unfold loadStats. cbn [stored stats].
    rewrite spread_initialStats.
    unfold RateLimiter.canSendMessage. cbn [stats stored fst].
    rewrite updateTimeBasedCounts_idempotent.
    destruct (_ <=? MessageStats.messagesToday _); [reflexivity |].
    destruct (_ <=? MessageStats.messagesThisHour _); reflexivity.
Qed.

Lemma new_limiter_and_its_load_witness :
  allowed (fst (RateLimiter.canSendMessage 0 Samples.settings Samples.at1055
                  Samples.bothUsedUp)) = false
  /\ allowed (fst (RateLimiter.canSendMessage 0 Samples.settings Samples.at1055
                     {| stats := initialStats;
                        stored := stored Samples.bothUsedUp |})) = true.
Proof.
  split; [reflexivity |].
  refine (proj1
            (@new_limiter_and_its_load 0 Samples.settings Samples.at1055
               (stored Samples.bothUsedUp) _ _)); reflexivity.
Defined.
